(** * Sales dashboard utility: date repair and aggregation

    A shallow embedding of [dashboard_utility.py].  The script reads a
    spreadsheet into a pandas DataFrame, repairs the [Order_Date] column
    (Excel serial numbers become timestamps, unparseable cells drop their
    row), and shows three metrics and three charts computed from
    [Sales_Amount] and [Product_Category].

    Modelling conventions.
    - A cell is a [value]: the three missing markers of pandas ([None],
      [NaN], [NaT]), a number, a text, or a timestamp.
    - Numbers are whole numbers (a Python [int], or a [float] holding an
      integral value, which pandas converts and compares the same way).
      Fractional serials and fractional amounts go through binary floating
      point rounding and are outside this model.
    - A timestamp is a count of nanoseconds since 1970-01-01T00:00, the
      representation pandas uses.  The range pandas can represent (years
      1677 to 2262) is not modelled.
    - Column sums follow NumPy's int64 arithmetic: they wrap modulo 2^64.
      A column with missing cells is a float64 column in pandas; its sums
      agree with these as long as they stay below 2^53.
    - The conversion [pd.to_datetime(..., errors='coerce')] is a parameter
      of the script, and so is the dtype of the column it returns: how a
      text is read as a date is pandas' business.
      The sort behind [sort_values] is a parameter for what holds of the
      page whatever the sort, and NumPy's routine, embedded below, where
      the order of the rows matters.  Executable instances follow the
      model. *)

From Stdlib Require Import ZArith String Ascii List Bool Lia.
From Stdlib Require Import Permutation Sorted QArith.
Import ListNotations.
Open Scope Z_scope.

(** ** Cells *)

Inductive value : Type :=
| VNone                      (* Python None *)
| VNaN                       (* float('nan') *)
| VNaT                       (* pandas.NaT *)
| VNum (n : Z)               (* a whole number *)
| VStr (s : string)          (* text *)
| VTimestamp (ns : Z).       (* pandas.Timestamp, nanoseconds since the Unix epoch *)

(** [pd.isna] on a scalar. *)
Definition isna (v : value) : bool :=
  match v with
  | VNone | VNaN | VNaT => true
  | _ => false
  end.

Definition is_timestamp (v : value) : bool :=
  match v with
  | VTimestamp _ => true
  | _ => false
  end.

Definition value_eqb (a b : value) : bool :=
  match a, b with
  | VNone, VNone | VNaN, VNaN | VNaT, VNaT => true
  | VNum x, VNum y => x =? y
  | VStr s, VStr t => String.eqb s t
  | VTimestamp x, VTimestamp y => x =? y
  | _, _ => false
  end.

(** ** Exceptions *)

Inductive exn : Type :=
| TypeError
| ValueError
| KeyError.

Inductive result (A : Type) : Type :=
| Ok (a : A)
| Raise (e : exn).
Arguments Ok {A} a.
Arguments Raise {A} e.

Definition rbind {A B : Type} (r : result A) (k : A -> result B) : result B :=
  match r with
  | Ok a => k a
  | Raise e => Raise e
  end.

Declare Scope result_scope.
Delimit Scope result_scope with result.
Notation "x <- r ;; k" := (rbind r (fun x => k))
  (at level 100, r at next level, right associativity) : result_scope.

(** ** Proleptic Gregorian calendar

    Day numbers count days since 1970-01-01. *)

Definition ns_per_day : Z := 86400 * 1000000000.

Definition days_from_civil (y m d : Z) : Z :=
  let y' := if m <=? 2 then y - 1 else y in
  let era := y' / 400 in
  let yoe := y' - era * 400 in
  let mp := if 2 <? m then m - 3 else m + 9 in
  let doy := (153 * mp + 2) / 5 + d - 1 in
  let doe := yoe * 365 + yoe / 4 - yoe / 100 + doy in
  era * 146097 + doe - 719468.

Definition civil_from_days (z : Z) : Z * Z * Z :=
  let z' := z + 719468 in
  let era := z' / 146097 in
  let doe := z' - era * 146097 in
  let yoe := (doe - doe / 1460 + doe / 36524 - doe / 146096) / 365 in
  let doy := doe - (365 * yoe + yoe / 4 - yoe / 100) in
  let mp := (5 * doy + 2) / 153 in
  let d := doy - (153 * mp + 2) / 5 + 1 in
  let m := if mp <? 10 then mp + 3 else mp - 9 in
  let y := yoe + era * 400 in
  (if m <=? 2 then y + 1 else y, m, d).

(** Midnight at the start of day number [d]. *)
Definition timestamp_of_day (d : Z) : Z := d * ns_per_day.

Definition day_of_timestamp (t : Z) : Z := t / ns_per_day.
Definition time_of_day (t : Z) : Z := t mod ns_per_day.

(** The calendar date (year, month, day) a timestamp falls on. *)
Definition date_of_timestamp (t : Z) : Z * Z * Z :=
  civil_from_days (day_of_timestamp t).

(** The calendar date [n] days after the date [y]-[m]-[d]. *)
Definition add_days (ymd : Z * Z * Z) (n : Z) : Z * Z * Z :=
  let '(y, m, d) := ymd in civil_from_days (days_from_civil y m d + n).

(** [pd.to_datetime('YYYY-MM-DD')] for a literal ISO date. *)
Definition to_datetime_ymd (y m d : Z) : Z :=
  timestamp_of_day (days_from_civil y m d).

(** [pd.to_timedelta(x, unit='D')], in nanoseconds. *)
Definition to_timedelta_D (x : value) : result Z :=
  match x with
  | VNum n => Ok (n * ns_per_day)
  | _ => Raise TypeError
  end.

(** ** [excel_serial_to_date] *)

(** [x > k] and [x < k] for an integer literal [k]: numbers compare, [NaN]
    compares false, anything else raises [TypeError]. *)
Definition py_gt (x : value) (k : Z) : result bool :=
  match x with
  | VNum n => Ok (k <? n)
  | VNaN => Ok false
  | _ => Raise TypeError
  end.

Definition py_lt (x : value) (k : Z) : result bool :=
  match x with
  | VNum n => Ok (n <? k)
  | VNaN => Ok false
  | _ => Raise TypeError
  end.

Definition excel_serial_to_date (serial_number : value) : value :=
  if isna serial_number then VNone
  else
    match (gt <- py_gt serial_number 1000 ;;
           in_range <- (if gt : bool then py_lt serial_number 90000 else Ok false) ;;
           if in_range : bool then
             delta <- to_timedelta_D serial_number ;;
             Ok (VTimestamp (to_datetime_ymd 1899 12 30 + delta))
           else Ok serial_number)%result
    with
    | Ok v => v
    | Raise _ => serial_number
    end.

(** ** DataFrames

    A DataFrame is its columns in order, each a name and the cells of that
    column from the first row to the last.  [pd.read_excel] gives every
    column a distinct name and every column one cell per row. *)

Definition DataFrame : Type := list (string * list value).

Definition columns (df : DataFrame) : list string := map fst df.

(** The cells of column [c], if the frame has that column. *)
Fixpoint get_column (c : string) (df : DataFrame) : option (list value) :=
  match df with
  | [] => None
  | (name, cells) :: rest =>
      if String.eqb c name then Some cells else get_column c rest
  end.

(** [c in df.columns]. *)
Definition has_column (c : string) (df : DataFrame) : bool :=
  existsb (String.eqb c) (columns df).

(** [df[c]] as an expression: a missing column raises [KeyError]. *)
Definition column (c : string) (df : DataFrame) : result (list value) :=
  match get_column c df with
  | Some cells => Ok cells
  | None => Raise KeyError
  end.

(** [len(df)]. *)
Definition nrows (df : DataFrame) : nat :=
  match df with
  | [] => O
  | (_, cells) :: _ => length cells
  end.

Definition well_formed (df : DataFrame) : Prop :=
  NoDup (columns df) /\ Forall (fun col => length (snd col) = nrows df) df.

(** [df[c] = cells]: replaces the column in place when it exists, appends it
    as the last column otherwise. *)
Fixpoint set_column (c : string) (cells : list value) (df : DataFrame) : DataFrame :=
  match df with
  | [] => [(c, cells)]
  | (name, old) :: rest =>
      if String.eqb c name then (name, cells) :: rest
      else (name, old) :: set_column c cells rest
  end.

(** [df.drop(columns=[c], inplace=True)]. *)
Definition drop_column (c : string) (df : DataFrame) : DataFrame :=
  filter (fun col => negb (String.eqb c (fst col))) df.

(** [df.rename(columns={old: new}, inplace=True)]. *)
Definition rename_column (old new : string) (df : DataFrame) : DataFrame :=
  map (fun col => if String.eqb old (fst col) then (new, snd col) else col) df.

(** Boolean indexing: keeps the entries whose mask bit is set. *)
Fixpoint filter_mask {A : Type} (mask : list bool) (l : list A) : list A :=
  match mask, l with
  | b :: mask', x :: l' =>
      if b then x :: filter_mask mask' l' else filter_mask mask' l'
  | _, _ => []
  end.

Definition select_rows (mask : list bool) (df : DataFrame) : DataFrame :=
  map (fun col => (fst col, filter_mask mask (snd col))) df.

Definition notna_mask (cells : list value) : list bool :=
  map (fun v => negb (isna v)) cells.

(** [df.dropna(subset=[c], inplace=True)]. *)
Definition dropna_subset (c : string) (df : DataFrame) : DataFrame :=
  match get_column c df with
  | Some cells => select_rows (notna_mask cells) df
  | None => df
  end.

(** [df.head()]: the first five rows. *)
Definition head (df : DataFrame) : DataFrame :=
  map (fun col => (fst col, firstn 5 (snd col))) df.

(** A cell of a datetime64 column: a timestamp or [NaT]. *)
Definition datetime_cell (o : option Z) : value :=
  match o with
  | Some t => VTimestamp t
  | None => VNaT
  end.

(** ** Series reductions *)

(** Two's complement reduction of an exact sum to int64. *)
Definition wrap64 (z : Z) : Z := (z + 2 ^ 63) mod 2 ^ 64 - 2 ^ 63.

(** A column the numeric reductions accept: numbers and missing cells.
    Text or timestamps make [sum] or [mean], or the formatting of their
    result with [:,.2f], raise. *)
Definition numeric_cell (v : value) : bool :=
  match v with
  | VStr _ | VTimestamp _ => false
  | _ => true
  end.

Definition numeric_column (cells : list value) : bool := forallb numeric_cell cells.

(** A column of dtype int64: every cell a whole number in the int64 range,
    none missing.  On such a column the sums below are what pandas
    computes.  Amounts with a fraction make a float64 column, whose sums
    are rounded; that rounding is not modelled. *)
Definition int64_cell (v : value) : bool :=
  match v with
  | VNum n => (- 2 ^ 63 <=? n) && (n <? 2 ^ 63)
  | _ => false
  end.

Definition int64_column (cells : list value) : bool := forallb int64_cell cells.

(** What a cell adds to a sum: missing cells are skipped ([skipna=True]). *)
Definition amount (v : value) : Z :=
  match v with
  | VNum n => n
  | _ => 0
  end.

Definition exact_sum (cells : list value) : Z :=
  fold_right (fun v acc => amount v + acc) 0 cells.

Definition count_valid (cells : list value) : nat :=
  length (filter (fun v => negb (isna v)) cells).

(** [Series.sum()]. *)
Definition series_sum (cells : list value) : result Z :=
  if numeric_column cells then Ok (wrap64 (exact_sum cells)) else Raise TypeError.

(** [Series.mean()]: [None] stands for the [NaN] pandas returns when there is
    no cell to average; otherwise the exact quotient (its rounding to a float
    is not modelled). *)
Definition series_mean (cells : list value) : result (option Q) :=
  if numeric_column cells then
    Ok (match count_valid cells with
        | O => None
        | S n => Some (Qmake (exact_sum cells) (Pos.of_succ_nat n))
        end)
  else Raise TypeError.

(** ** Grouping

    [df.groupby(key)[col].sum().reset_index()] with the defaults [sort=True]
    and [dropna=True]: one row per distinct key that is not missing, in
    ascending key order, holding the int64 sum of the group's cells. *)

(** First occurrences, in order. *)
Fixpoint unique (l : list value) : list value :=
  match l with
  | [] => []
  | x :: rest => x :: filter (fun y => negb (value_eqb x y)) (unique rest)
  end.

(** Order of group keys.  Keys of one kind compare as Python compares them
    (numbers by value, text by code point, timestamps by instant); across
    kinds numbers come before timestamps and timestamps before text. *)
Definition key_rank (v : value) : Z :=
  match v with
  | VNum _ => 0
  | VTimestamp _ => 1
  | VStr _ => 2
  | _ => 3
  end.

Definition key_leb (a b : value) : bool :=
  match a, b with
  | VNum x, VNum y => x <=? y
  | VTimestamp x, VTimestamp y => x <=? y
  | VStr s, VStr t => String.leb s t
  | _, _ => key_rank a <=? key_rank b
  end.

Fixpoint insert_key (k : value) (l : list value) : list value :=
  match l with
  | [] => [k]
  | h :: t => if key_leb k h then k :: l else h :: insert_key k t
  end.

Definition sort_keys (l : list value) : list value := fold_right insert_key [] l.

Definition group_keys (keys : list value) : list value :=
  sort_keys (unique (filter (fun v => negb (isna v)) keys)).

(** The cells of the rows whose key is [k]. *)
Definition group_cells (k : value) (keys cells : list value) : list value :=
  map snd (filter (fun row => value_eqb k (fst row)) (combine keys cells)).

Definition is_number (v : value) : bool :=
  match v with
  | VNum _ => true
  | _ => false
  end.

Definition is_text (v : value) : bool :=
  match v with
  | VStr _ => true
  | _ => false
  end.

(** Labels pandas can put in order.  Where the labels do not compare, it
    sorts the texts apart from the rest; numbers and dates in one column
    are left to compare with each other, which raises [TypeError]. *)
Definition orderable (keys : list value) : bool :=
  negb (existsb is_number keys && existsb is_timestamp keys).

Definition groupby_sum (keys cells : list value) : result (list (value * Z)) :=
  if numeric_column cells then
    if orderable keys then
      Ok (map (fun k => (k, wrap64 (exact_sum (group_cells k keys cells))))
              (group_keys keys))
    else Raise TypeError
  else Raise TypeError.

(** ** Monthly resampling

    Months are numbered [12 * year + (month - 1)]. *)

Definition month_index_of_day (d : Z) : Z :=
  let '(y, m, _) := civil_from_days d in y * 12 + (m - 1).

Definition month_index (t : Z) : Z := month_index_of_day (day_of_timestamp t).

Definition month_start_day (k : Z) : Z := days_from_civil (k / 12) (k mod 12 + 1) 1.

(** The label of month [k] under the month-end frequency ['M']: midnight of
    its last day. *)
Definition month_end (k : Z) : Z := timestamp_of_day (month_start_day (k + 1) - 1).

(** The right edge of the bin of month [k]: pandas moves the label to the
    last nanosecond of that day, so that the bin [(edge (k-1), edge k]]
    takes in every instant of the month. *)
Definition bin_edge (k : Z) : Z := month_end k + ns_per_day - 1.

Definition in_bin (k t : Z) : bool := (bin_edge (k - 1) <? t) && (t <=? bin_edge k).

Definition months (first last : Z) : list Z :=
  map (fun i => first + Z.of_nat i) (seq 0 (Z.to_nat (last - first + 1))).

Definition bin_cells (k : Z) (index : list Z) (cells : list value) : list value :=
  map snd (filter (fun row => in_bin k (fst row)) (combine index cells)).

(** [series.resample('M').sum().reset_index()] for a series indexed by
    [index]: one row per month from the month of the earliest instant to the
    month of the latest, months without rows included. *)
Definition resample_M_sum (index : list Z) (cells : list value) : result (list (Z * Z)) :=
  if numeric_column cells then
    match index with
    | [] => Ok []
    | t0 :: ts =>
        let first := month_index (fold_right Z.min t0 ts) in
        let last := month_index (fold_right Z.max t0 ts) in
        Ok (map (fun k => (month_end k, wrap64 (exact_sum (bin_cells k index cells))))
                (months first last))
    end
  else Raise TypeError.

(** The instants of a column used as a [DatetimeIndex]; resampling over
    anything else raises. *)
Fixpoint datetime_index (cells : list value) : result (list Z) :=
  match cells with
  | [] => Ok []
  | VTimestamp t :: rest =>
      match datetime_index rest with
      | Ok ts => Ok (t :: ts)
      | Raise e => Raise e
      end
  | _ :: _ => Raise TypeError
  end.

(** ** The page

    What the script puts on the page, in order.  Metrics carry the number
    that the script formats; charts carry the frame they plot. *)

Inductive number : Type :=
| NInt (z : Z)
| NFloat (q : Q)
| NNan.

Inductive widget : Type :=
| StSuccess (msg : string)
| StSubheader (title : string)
| StDataframe (df : DataFrame)
| StInfo (msg : string)
| StHeader (title : string)
| StMetric (label : string) (v : number)
| StLineChart (data : list (Z * Z))
| StBarChart (data : list (value * Z))
| StPieChart (data : list (value * Z))
| StError (msg : string).



Definition number_is_zero_or_nan (v : number) : bool :=
  match v with
  | NInt z => z =? 0
  | NFloat _ => false
  | NNan => true
  end.

Definition number_of_mean (m : option Q) : number :=
  match m with
  | Some q => NFloat q
  | None => NNan
  end.

Definition exn_name (e : exn) : string :=
  match e with
  | TypeError => "TypeError"
  | ValueError => "ValueError"
  | KeyError => "KeyError"
  end%string.

(** A script step: it appends to the page and returns or raises. *)
Definition script (A : Type) : Type := list widget -> list widget * result A.

Definition ret {A : Type} (a : A) : script A := fun page => (page, Ok a).

Definition bind {A B : Type} (m : script A) (k : A -> script B) : script B :=
  fun page =>
    match m page with
    | (page', Ok a) => k a page'
    | (page', Raise e) => (page', Raise e)
    end.

Definition st (w : widget) : script unit := fun page => (page ++ [w], Ok tt).

Definition lift {A : Type} (r : result A) : script A := fun page => (page, r).

(** [try: body except Exception as e: handler(e)]. *)
Definition try_except (body : script unit) (handler : exn -> script unit) : script unit :=
  fun page =>
    match body page with
    | (page', Raise e) => handler e page'
    | done => done
    end.

Declare Scope script_scope.
Delimit Scope script_scope with script.
Notation "x <- m ;; k" := (bind m (fun x => k))
  (at level 100, m at next level, right associativity) : script_scope.
Notation "m ;; k" := (bind m (fun _ => k))
  (at level 100, right associativity) : script_scope.

Definition DATE_COLUMN : string := "Order_Date".
Definition SALES_COLUMN : string := "Sales_Amount".
Definition CATEGORY_COLUMN : string := "Product_Category".
Definition Corrected_Date : string := "Corrected_Date".

Definition checking_dates : string :=
  ("Checking and converting Excel DATEVALUE in the column: **" ++ DATE_COLUMN ++ "**")%string.

Definition column_not_found (c : string) : string :=
  ("Required column '" ++ c ++ "' not found. Please check column names.")%string.

(** The message of the outer handler.  Line 120 prints the text of the
    exception, which pandas or Python words; here the class of the
    exception stands for that text. *)
Definition processing_error (e : exn) : string :=
  ("An error occurred during file processing: " ++ exn_name e)%string.

(** ** A stable sort and a converter to run the script with *)

Definition total_ge (a b : value * Z) : Prop := snd b <= snd a.

(** Insertion that puts a row in front of the rows with the same total. *)
Fixpoint insert_before_ties (x : value * Z) (l : list (value * Z)) : list (value * Z) :=
  match l with
  | [] => [x]
  | h :: t => if snd x <? snd h then h :: insert_before_ties x t else x :: l
  end.

(** Descending by total, rows with equal totals in their original order. *)
Definition sort_values_stable (l : list (value * Z)) : list (value * Z) :=
  fold_right insert_before_ties [] l.

(** A cell-by-cell reading of [pd.to_datetime(..., errors='coerce')]:
    timestamps stay, a number is a count of nanoseconds since the Unix epoch
    when it fits the int64 range of a timestamp, text goes through [parse],
    and everything else becomes [NaT]. *)
Definition to_datetime_cell (parse : string -> option Z) (v : value) : option Z :=
  match v with
  | VTimestamp t => Some t
  | VNum n => if (- 2 ^ 63 <? n) && (n <? 2 ^ 63) then Some n else None
  | VStr s => parse s
  | _ => None
  end.

Definition to_datetime_cells (parse : string -> option Z) (cells : list value)
  : list (option Z) :=
  map (to_datetime_cell parse) cells.

(** A parser that recognises no text as a date. *)
Definition parse_nothing (s : string) : option Z := None.

(** The dtype of a converted date column. *)
Inductive dtype := datetime64_dtype | object_dtype.

(** With no text read as a date, no date has an offset. *)
Definition datetime64_always (cells : list value) : dtype := datetime64_dtype.

(** *** Date texts with a UTC offset

    A reading of texts of the form [YYYY-MM-DD HH:MM:SS+HH:MM], for columns
    whose dates are such texts: the date and time the text shows, as an
    instant, and its offset from UTC in seconds.  Texts of one offset give
    a datetime64 column in that time zone; when the offsets differ,
    pandas 2 keeps every datetime with its own offset, in a column of
    dtype [object]. *)

Definition digit (c : ascii) : option Z :=
  let n := Z.of_nat (nat_of_ascii c) in
  if (48 <=? n) && (n <=? 57) then Some (n - 48) else None.

Fixpoint digits (cs : list ascii) (acc : Z) : option Z :=
  match cs with
  | [] => Some acc
  | c :: rest =>
      match digit c with
      | Some d => digits rest (10 * acc + d)
      | None => None
      end
  end.

(** The number written in the [len] characters from position [start]. *)
Definition field (s : string) (start len : nat) : option Z :=
  let cs := list_ascii_of_string (substring start len s) in
  if (length cs =? len)%nat then digits cs 0 else None.

Definition char_at (s : string) (i : nat) (c : ascii) : bool :=
  match String.get i s with
  | Some c' => Ascii.eqb c c'
  | None => false
  end.

Definition offset_sign (s : string) (i : nat) : option Z :=
  if char_at s i "+" then Some 1
  else if char_at s i "-" then Some (-1)
  else None.

Definition parse_datetime_offset (s : string) : option (Z * Z) :=
  if (String.length s =? 25)%nat
     && char_at s 4 "-" && char_at s 7 "-" && char_at s 10 " "
     && char_at s 13 ":" && char_at s 16 ":" && char_at s 22 ":"
  then
    match field s 0 4, field s 5 2, field s 8 2,
          field s 11 2, field s 14 2, field s 17 2,
          offset_sign s 19, field s 20 2, field s 23 2 with
    | Some y, Some m, Some d, Some hh, Some mm, Some ss,
      Some sign, Some oh, Some om =>
        let day := days_from_civil y m d in
        let offset := sign * (oh * 3600 + om * 60) in
        if (let '(y', m', d') := civil_from_days day in
            (y' =? y) && (m' =? m) && (d' =? d))
           && (hh <? 24) && (mm <? 60) && (ss <? 60) && (oh <? 24) && (om <? 60)
        then Some (timestamp_of_day day + (hh * 3600 + mm * 60 + ss) * 1000000000,
                   offset)
        else None
    | _, _, _, _, _, _, _, _, _ => None
    end
  else None.

Definition parse_instant (s : string) : option Z :=
  option_map fst (parse_datetime_offset s).

(** The UTC offsets of the texts of a column that read as dates. *)
Fixpoint utc_offsets (cells : list value) : list Z :=
  match cells with
  | [] => []
  | VStr s :: rest =>
      match parse_datetime_offset s with
      | Some (_, offset) => offset :: utc_offsets rest
      | None => utc_offsets rest
      end
  | _ :: rest => utc_offsets rest
  end.

Definition to_datetime_offsets (cells : list value) : list (option Z) :=
  to_datetime_cells parse_instant cells.

Definition to_datetime_offsets_dtype (cells : list value) : dtype :=
  match utc_offsets cells with
  | [] => datetime64_dtype
  | offset :: rest =>
      if forallb (Z.eqb offset) rest then datetime64_dtype else object_dtype
  end.

(** The instants of a converted column, [NaT] left out. *)
Fixpoint somes (l : list (option Z)) : list Z :=
  match l with
  | [] => []
  | Some t :: rest => t :: somes rest
  | None :: rest => somes rest
  end.

Definition is_some (o : option Z) : bool :=
  match o with Some _ => true | None => false end.

(** Rows with equal totals keep the order they have in [groups]. *)
Definition ties_in_group_order (groups out : list (value * Z)) : Prop :=
  forall total,
    filter (fun row => snd row =? total) out =
    filter (fun row => snd row =? total) groups.

(** The int64 sum of the totals of a grouped frame. *)
Definition totals_sum (out : list (value * Z)) : Z :=
  wrap64 (fold_right Z.add 0 (map snd out)).

(** The amount cells of the rows whose key is not missing. *)
Definition cells_with_key (keys cells : list value) : list value :=
  map snd (filter (fun row => negb (isna (fst row))) (combine keys cells)).

(** The amount cells of the rows whose instant falls in month [k]. *)
Definition month_cells (k : Z) (index : list Z) (cells : list value) : list value :=
  map snd (filter (fun row => month_index (fst row) =? k) (combine index cells)).

Definition zero_rows (df : DataFrame) : Prop := Forall (fun col => snd col = []) df.

(** ** Sample frames *)

(** The scenario of the specification. *)
Definition sample_sales : DataFrame :=
  [(DATE_COLUMN, [VNum 41760; VNum 41791; VStr "bad"]);
   (SALES_COLUMN, [VNum 100; VNum 200; VNum 50]);
   (CATEGORY_COLUMN, [VStr "A"; VStr "B"; VStr "A"])].

(** A sheet that already has a column called [Corrected_Date]. *)
Definition frame_with_helper_column : DataFrame :=
  [(DATE_COLUMN, [VNum 41760]);
   (Corrected_Date, [VStr "checked by hand"]);
   (SALES_COLUMN, [VNum 100])].

(** A row without a category. *)
Definition frame_with_blank_category : DataFrame :=
  [(SALES_COLUMN, [VNum 5; VNum 7]);
   (CATEGORY_COLUMN, [VNaN; VStr "A"])].

(** Two categories with the same total. *)
Definition frame_with_tie : DataFrame :=
  [(SALES_COLUMN, [VNum 100; VNum 100]);
   (CATEGORY_COLUMN, [VStr "A"; VStr "B"])].

(** Two sales whose dates are texts with different UTC offsets. *)
Definition frame_with_mixed_offsets : DataFrame :=
  [(DATE_COLUMN, [VStr "2024-01-15 10:00:00+01:00"; VStr "2024-02-20 10:00:00+02:00"]);
   (SALES_COLUMN, [VNum 100; VNum 200])].

(** A sheet with headers and no row. *)
Definition empty_sheet : DataFrame :=
  [(DATE_COLUMN, []); (SALES_COLUMN, []); (CATEGORY_COLUMN, [])].


(** ** The sort pandas calls by default

    [sort_values] computes its row order with [nargsort], which hands the
    totals to NumPy's [argsort] with [kind='quicksort'].  Below is the
    portable version of that routine, the one NumPy runs where it has no
    vectorised [argsort] for the processor (before NumPy 1.25, on every
    processor): an introsort over an array of positions, which partitions
    around the median of three while a segment has more than 17 entries,
    finishes each segment by insertion, and turns to heapsort when its
    depth limit is used up. *)

Module NumPy.

Definition SMALL_QUICKSORT : nat := 16.

Fixpoint upd (i : nat) (x : nat) (a : list nat) : list nat :=
  match a, i with
  | [], _ => []
  | _ :: t, O => x :: t
  | h :: t, S i' => h :: upd i' x t
  end.

(** [INTP_SWAP(a[i], a[j])]. *)
Definition swap (i j : nat) (a : list nat) : list nat :=
  upd j (nth i a O) (upd i (nth j a O) a).

Section Keys.

(** [v[p]]: the key at position [p] of the array being sorted. *)
Variable v : nat -> Z.

Definition swap_if_less (i j : nat) (a : list nat) : list nat :=
  if v (nth i a O) <? v (nth j a O) then swap i j a else a.

(** [do ++pi; while (v[*pi] < vp)]. *)
Fixpoint scan_up (fuel : nat) (vp : Z) (a : list nat) (pi : nat) : nat :=
  match fuel with
  | O => S pi
  | S fuel' =>
      if v (nth (S pi) a O) <? vp then scan_up fuel' vp a (S pi) else S pi
  end.

(** [do --pj; while (vp < v[*pj])]. *)
Fixpoint scan_down (fuel : nat) (vp : Z) (a : list nat) (pj : nat) : nat :=
  match fuel with
  | O => pred pj
  | S fuel' =>
      if vp <? v (nth (pred pj) a O) then scan_down fuel' vp a (pred pj)
      else pred pj
  end.

(** The [for (;;)] loop of the partition; returns the array and [pi]. *)
Fixpoint partition_loop (fuel : nat) (vp : Z) (a : list nat) (pi pj : nat)
  : list nat * nat :=
  match fuel with
  | O => (a, pi)
  | S fuel' =>
      let pi := scan_up (length a) vp a pi in
      let pj := scan_down (length a) vp a pj in
      if (pj <=? pi)%nat then (a, pi)
      else partition_loop fuel' vp (swap pi pj a) pi pj
  end.

(** One partition of the segment [a], with [pl = 0] and
    [pr = length a - 1]: the entries left of the pivot, the pivot, the
    entries right of it. *)
Definition partition (a : list nat) : list nat * nat * list nat :=
  let pr := (length a - 1)%nat in
  let pm := Nat.div2 pr in
  let a := swap_if_less pm O a in
  let a := swap_if_less pr pm a in
  let a := swap_if_less pm O a in
  let vp := v (nth pm a O) in
  let a := swap pm (pr - 1) a in
  let '(a, pi) := partition_loop (length a) vp a O (pr - 1) in
  let a := swap pi (pr - 1) a in
  (firstn pi a, nth pi a O, skipn (S pi) a).

(** The insertion of [vi] into the sorted entries before it, read from
    the right: it moves left past every entry with a greater key. *)
Fixpoint insert_from_right (vi : nat) (sorted_rev : list nat) : list nat :=
  match sorted_rev with
  | [] => [vi]
  | pk :: rest =>
      if v vi <? v pk then pk :: insert_from_right vi rest
      else vi :: sorted_rev
  end.

Definition insertion_sort (a : list nat) : list nat :=
  rev (fold_left (fun sorted_rev vi => insert_from_right vi sorted_rev) a []).

(** The sift of [aheapsort]: the entry at position [i] (counted from 1)
    sinks below the greater of its children while that child has a
    greater key; [n] is the last position of the heap.  NumPy holds the
    sinking entry in a temporary, moves the children up and writes the
    entry once, at the end; the entries come to rest in the same places. *)
Fixpoint sift_down (fuel : nat) (a : list nat) (i n : nat) : list nat :=
  match fuel with
  | O => a
  | S fuel' =>
      let j := (2 * i)%nat in
      if (j <=? n)%nat then
        let j := if (j <? n)%nat && (v (nth (j - 1) a O) <? v (nth j a O))
                 then S j else j in
        if v (nth (i - 1) a O) <? v (nth (j - 1) a O)
        then sift_down fuel' (swap (i - 1) (j - 1) a) j n
        else a
      else a
  end.

(** [for (l = n >> 1; l > 0; --l)]: the heap is built from the last
    parent down to the root. *)
Fixpoint build_heap (l : nat) (a : list nat) : list nat :=
  match l with
  | O => a
  | S l' => build_heap l' (sift_down (length a) a l (length a))
  end.

(** [for (; n > 1;)]: the root goes behind the heap, the last entry of
    the heap sinks from the root. *)
Fixpoint drain_heap (n : nat) (a : list nat) : list nat :=
  match n with
  | O => a
  | S n' =>
      if (1 <? n)%nat then
        drain_heap n' (sift_down (length a) (swap O n' a) 1 n')
      else a
  end.

Definition aheapsort (a : list nat) : list nat :=
  drain_heap (length a) (build_heap (Nat.div2 (length a)) a).

(** [aquicksort] on one segment.  [cdepth] counts down from the depth
    limit with every partition; of the two parts the greater one is pushed
    on the stack, and when it is popped with a negative [cdepth] it goes to
    heapsort, while the smaller one is partitioned on without that test.
    [fuel] bounds the nesting; the length of the segment is enough. *)
Fixpoint aquicksort (fuel : nat) (popped : bool) (cdepth : Z) (a : list nat)
  : list nat :=
  match fuel with
  | O => aheapsort a
  | S fuel' =>
      if popped && (cdepth <? 0) then aheapsort a
      else if (SMALL_QUICKSORT <? length a - 1)%nat then
        let '(lower, pivot, upper) := partition a in
        let lower_goes_on := (length lower <? length upper)%nat in
        aquicksort fuel' (negb lower_goes_on) (cdepth - 1) lower
          ++ pivot :: aquicksort fuel' lower_goes_on (cdepth - 1) upper
      else insertion_sort a
  end.

End Keys.

(** [keys.argsort(kind='quicksort')]; the depth limit is twice the
    position of the highest set bit of the length. *)
Definition argsort (keys : list Z) : list nat :=
  let n := length keys in
  aquicksort (fun p => nth p keys 0) n true (2 * Z.of_nat (Nat.log2 n)) (seq 0 n).

(** [nargsort(keys, kind='quicksort', ascending=False)] of pandas, for
    keys none of which is missing: sort the reversed keys, read the
    positions back, reverse. *)
Definition nargsort_descending (keys : list Z) : list nat :=
  let n := length keys in
  rev (map (fun p => nth p (rev (seq 0 n)) O) (argsort (rev keys))).

(** [frame.sort_values(by=SALES_COLUMN, ascending=False)] on the grouped
    frame. *)
Definition sort_values (rows : list (value * Z)) : list (value * Z) :=
  map (fun i => nth i rows (VNone, 0)) (nargsort_descending (map snd rows)).

End NumPy.

(** Positions in ascending and in descending order of their keys. *)
Definition key_le (v : nat -> Z) (i j : nat) : Prop := v i <= v j.
Definition key_ge (v : nat -> Z) (i j : nat) : Prop := v j <= v i.

(** The key at position [p] of the heap, counted from 1. *)
Definition heap_key (v : nat -> Z) (a : list nat) (p : nat) : Z :=
  v (nth (p - 1) a O).

(** Neither child of [p] within the first [n] positions has a greater key. *)
Definition heap_at (v : nat -> Z) (a : list nat) (n p : nat) : Prop :=
  forall c, (c = 2 * p \/ c = 2 * p + 1)%nat -> (c <= n)%nat ->
    heap_key v a c <= heap_key v a p.



(** A frame whose dates are instants already: sales in May and July 2014,
    none in June. *)
Definition frame_with_gap_month : DataFrame :=
  [(SALES_COLUMN, [VNum 100; VNum 200; VNum 50]);
   (DATE_COLUMN, [VTimestamp (to_datetime_ymd 2014 5 1);
                  VTimestamp (to_datetime_ymd 2014 7 15);
                  VTimestamp (to_datetime_ymd 2014 5 20)])].

(** An amount column with a text cell. *)
Definition frame_with_text_amount : DataFrame :=
  [(SALES_COLUMN, [VNum 100; VStr "pending"]);
   (CATEGORY_COLUMN, [VStr "A"; VStr "B"])].

(** ** Parts of the page *)

(** What the script shows before it touches the data. *)
Definition preview_widgets (df : DataFrame) : list widget :=
  [StSuccess "File uploaded and read successfully!";
   StSubheader "Raw Data Preview";
   StDataframe (head df)].

(** The notice of the normalization step. *)
Definition info_widgets (df : DataFrame) : list widget :=
  if has_column DATE_COLUMN df then [StInfo checking_dates] else [].

Definition header_widget : widget :=
  StHeader "📈 Key Performance Indicators (KPIs) & Trends".

(** The int64 sum of the totals of a monthly trend. *)
Definition trend_sum (trend : list (Z * Z)) : Z :=
  wrap64 (fold_right Z.add 0 (map snd trend)).

(** A script that only adds to the page. *)
Definition appends {A : Type} (m : script A) : Prop :=
  forall page, exists shown, fst (m page) = page ++ shown.

(** ** The page of a sheet without rows *)

Definition empty_dataset_page (df : DataFrame) : list widget :=
  [StSuccess "File uploaded and read successfully!";
   StSubheader "Raw Data Preview";
   StDataframe (head df)]
  ++ (if has_column DATE_COLUMN df
      then [StInfo checking_dates]
      else [])
  ++ [StHeader "📈 Key Performance Indicators (KPIs) & Trends"]
  ++ (if has_column SALES_COLUMN df then
        [StMetric "Total Sales" (NInt 0);
         StMetric "Average Sale Value" NNan;
         StMetric "Total Transactions" (NInt 0)]
        ++ (if has_column DATE_COLUMN df then [StLineChart []] else [])
        ++ (if has_column CATEGORY_COLUMN df
            then [StBarChart []; StPieChart []] else [])
      else [StError (column_not_found SALES_COLUMN)]).

(** A widget that reports no figure: a metric that is zero or [NaN], a
    chart without rows, and no message from the exception handler. *)
Definition shows_nothing (w : widget) : Prop :=
  match w with
  | StMetric _ v => number_is_zero_or_nan v = true
  | StLineChart data => data = []
  | StBarChart data | StPieChart data => data = []
  | StError msg => forall e, msg <> processing_error e
  | _ => True
  end.

(** ** The script *)

Section Pipeline.

(** [pd.to_datetime(series, errors='coerce')]: one result per cell, an
    instant or [NaT].  How text is read as a date is pandas' business; the
    script only relies on getting a datetime column of the same length. *)
Variable to_datetime_coerce : list value -> list (option Z).
Hypothesis to_datetime_coerce_length :
  forall cells, length (to_datetime_coerce cells) = length cells.

(** The dtype of the column that call returns for a column with texts.
    As a rule it is datetime64; for date texts that carry different UTC
    offsets pandas 2 returns a column of dtype [object], holding each
    datetime with its own offset. *)
Variable to_datetime_dtype : list value -> dtype.

(** [frame.sort_values(by=SALES_COLUMN, ascending=False)].  The script
    leaves [kind] at its default, quicksort; [NumPy.sort_values] above is
    the routine behind it.  What holds of the page whatever the routine is
    proved from the one fact that the sort returns the rows it was given. *)
Variable sort_values_desc : list (value * Z) -> list (value * Z).
Hypothesis sort_values_desc_perm :
  forall l, Permutation l (sort_values_desc l).

(** Lines 50 to 58: the body of [if DATE_COLUMN in df.columns]. *)
Definition normalize_dates (df : DataFrame) : result DataFrame :=
  (dates <- column DATE_COLUMN df ;;
   let df := set_column Corrected_Date (map excel_serial_to_date dates) df in
   let df := drop_column DATE_COLUMN df in
   let df := rename_column Corrected_Date DATE_COLUMN df in
   corrected <- column DATE_COLUMN df ;;
   let df := set_column DATE_COLUMN
               (map datetime_cell (to_datetime_coerce corrected)) df in
   Ok (dropna_subset DATE_COLUMN df))%result.

(** Lines 46 to 58. *)
Definition normalization_step (df : DataFrame) : script DataFrame :=
  if has_column DATE_COLUMN df then
    (st (StInfo checking_dates) ;;
     lift (normalize_dates df))%script
  else ret df.

Definition total_sales (df : DataFrame) : result Z :=
  (cells <- column SALES_COLUMN df ;; series_sum cells)%result.

Definition avg_sales (df : DataFrame) : result (option Q) :=
  (cells <- column SALES_COLUMN df ;; series_mean cells)%result.

(** [df.set_index(DATE_COLUMN)[SALES_COLUMN].resample('M').sum().reset_index()] *)
Definition sales_trend (df : DataFrame) : result (list (Z * Z)) :=
  (dates <- column DATE_COLUMN df ;;
   cells <- column SALES_COLUMN df ;;
   index <- datetime_index dates ;;
   resample_M_sum index cells)%result.

(** The dtype line 57 leaves the date column of a sheet with.  Only a text
    carries a UTC offset: a column without text converts to datetime64. *)
Definition date_dtype (sheet : DataFrame) : dtype :=
  match get_column DATE_COLUMN sheet with
  | Some dates =>
      let corrected := map excel_serial_to_date dates in
      if existsb is_text corrected then to_datetime_dtype corrected
      else datetime64_dtype
  | None => datetime64_dtype
  end.

(** Line 82 with the dtype of the date column.  Over a column of dtype
    [object], [set_index] gives a plain [Index] and [resample] raises
    [TypeError]. *)
Definition resample_sales (dates : dtype) (df : DataFrame) : result (list (Z * Z)) :=
  match dates with
  | datetime64_dtype => sales_trend df
  | object_dtype => Raise TypeError
  end.

(** Lines 50 to 58 followed by line 82: the monthly trend of a sheet as the
    script computes it. *)
Definition monthly_trend (sheet : DataFrame) : result (list (Z * Z)) :=
  (_ <- column DATE_COLUMN sheet ;;
   df <- normalize_dates sheet ;;
   _ <- column SALES_COLUMN df ;;
   resample_sales (date_dtype sheet) df)%result.

(** [df.groupby(CATEGORY_COLUMN)[SALES_COLUMN].sum().reset_index()
       .sort_values(by=SALES_COLUMN, ascending=False)] *)
Definition category_sales (df : DataFrame) : result (list (value * Z)) :=
  (keys <- column CATEGORY_COLUMN df ;;
   cells <- column SALES_COLUMN df ;;
   groups <- groupby_sum keys cells ;;
   Ok (sort_values_desc groups))%result.

(** The body of the outer [try], from the point where the file has been
    read into [sheet]; [df] is the frame after the normalization step.  The
    two [if CATEGORY_COLUMN in df.columns] blocks are one here: the second
    plots the frame the first computed. *)
Definition dashboard (sheet : DataFrame) : script unit :=
  (st (StSuccess "File uploaded and read successfully!") ;;
   st (StSubheader "Raw Data Preview") ;;
   st (StDataframe (head sheet)) ;;
   df <- normalization_step sheet ;;
   st (StHeader "📈 Key Performance Indicators (KPIs) & Trends") ;;
   if has_column SALES_COLUMN df then
     total <- lift (total_sales df) ;;
     avg <- lift (avg_sales df) ;;
     st (StMetric "Total Sales" (NInt total)) ;;
     st (StMetric "Average Sale Value" (number_of_mean avg)) ;;
     st (StMetric "Total Transactions" (NInt (Z.of_nat (nrows df)))) ;;
     (if has_column DATE_COLUMN df then
        trend <- lift (resample_sales (date_dtype sheet) df) ;;
        st (StLineChart trend)
      else ret tt) ;;
     (if has_column CATEGORY_COLUMN df then
        by_category <- lift (category_sales df) ;;
        st (StBarChart by_category) ;;
        st (StPieChart by_category)
      else ret tt)
   else
     st (StError (column_not_found SALES_COLUMN)))%script.

Definition run (df : DataFrame) : script unit :=
  try_except (dashboard df) (fun e => st (StError (processing_error e))).

(** The frame the metrics and charts are computed from: what the
    normalization step leaves in [df]. *)
Definition normalized (df : DataFrame) : DataFrame :=
  if has_column DATE_COLUMN df then
    match normalize_dates df with
    | Ok df' => df'
    | Raise _ => df
    end
  else df.


(** ** Calendar facts *)

Lemma dfc_march_based (era yoe mp d : Z) :
  0 <= yoe < 400 -> 0 <= mp <= 11 ->
  days_from_civil (yoe + era * 400 + (if mp <? 10 then 0 else 1))
                  (if mp <? 10 then mp + 3 else mp - 9) d =
  era * 146097 + (365 * yoe + yoe / 4 - yoe / 100) + (153 * mp + 2) / 5 + d - 1 - 719468.
Proof.
  intros Hy Hm. unfold days_from_civil.
  destruct (mp <? 10) eqn:E.
  - apply Z.ltb_lt in E.
    replace (mp + 3 <=? 2) with false by (symmetry; apply Z.leb_gt; lia).
    replace (2 <? mp + 3) with true by (symmetry; apply Z.ltb_lt; lia).
    replace (yoe + era * 400 + 0) with (yoe + era * 400) by lia.
    rewrite Z.div_add by lia. rewrite (Z.div_small yoe 400) by lia.
    cbv zeta. replace (mp + 3 - 3) with mp by lia.
    replace (yoe + era * 400 - (0 + era) * 400) with yoe by lia. lia.
  - apply Z.ltb_ge in E.
    replace (mp - 9 <=? 2) with true by (symmetry; apply Z.leb_le; lia).
    replace (2 <? mp - 9) with false by (symmetry; apply Z.ltb_ge; lia).
    replace (yoe + era * 400 + 1 - 1) with (yoe + era * 400) by lia.
    rewrite Z.div_add by lia. rewrite (Z.div_small yoe 400) by lia.
    cbv zeta. replace (mp - 9 + 9) with mp by lia.
    replace (yoe + era * 400 - (0 + era) * 400) with yoe by lia. lia.
Qed.

Lemma yoe_bounds doe : 0 <= doe < 146097 ->
  let yoe := (doe - doe / 1460 + doe / 36524 - doe / 146096) / 365 in
  0 <= yoe <= 399 /\ 365 * yoe + yoe / 4 - yoe / 100 <= doe /\
  (yoe < 399 -> doe < 365 * (yoe + 1) + (yoe + 1) / 4 - (yoe + 1) / 100).
Proof. intros H yoe. subst yoe. Z.to_euclidean_division_equations; lia. Qed.

Lemma mp_bounds doy : 0 <= doy <= 365 ->
  let mp := (5 * doy + 2) / 153 in
  0 <= mp <= 11 /\ (153 * mp + 2) / 5 <= doy /\ (mp < 11 -> doy < (153 * (mp + 1) + 2) / 5).
Proof. intros H mp. subst mp. Z.to_euclidean_division_equations; lia. Qed.

Lemma civil_from_days_decomp (z : Z) :
  exists era yoe mp doy,
    0 <= yoe < 400 /\ 0 <= mp <= 11 /\
    civil_from_days z =
      (yoe + era * 400 + (if mp <? 10 then 0 else 1),
       if mp <? 10 then mp + 3 else mp - 9,
       doy - (153 * mp + 2) / 5 + 1) /\
    z = era * 146097 + (365 * yoe + yoe / 4 - yoe / 100) + doy - 719468 /\
    (153 * mp + 2) / 5 <= doy /\
    (mp < 11 -> doy < (153 * (mp + 1) + 2) / 5) /\
    (yoe < 399 -> (365 * yoe + yoe / 4 - yoe / 100) + doy < 365 * (yoe + 1) + (yoe + 1) / 4 - (yoe + 1) / 100) /\
    (365 * yoe + yoe / 4 - yoe / 100) + doy < 146097.
Proof.
  unfold civil_from_days.
  set (era := (z + 719468) / 146097).
  set (doe := z + 719468 - era * 146097).
  assert (Hdoe : 0 <= doe < 146097).
  { unfold doe, era. pose proof (Z.mod_pos_bound (z + 719468) 146097 ltac:(lia)).
    rewrite Z.mod_eq in H by lia. lia. }
  pose proof (yoe_bounds doe Hdoe) as Hy. cbv zeta in Hy.
  set (yoe := (doe - doe / 1460 + doe / 36524 - doe / 146096) / 365) in *.
  destruct Hy as (Hy1 & Hy2 & Hy3).
  set (doy := doe - (365 * yoe + yoe / 4 - yoe / 100)).
  assert (Hdoy : 0 <= doy <= 365).
  { unfold doy. split; [lia|].
    destruct (Z.eq_dec yoe 399) as [e|ne].
    - rewrite e in *. change (365 * 399 + 399 / 4 - 399 / 100) with 145731. lia.
    - specialize (Hy3 ltac:(lia)).
      clearbody yoe. clear - Hy3 Hy1. Z.to_euclidean_division_equations; lia. }
  pose proof (mp_bounds doy Hdoy) as Hm. cbv zeta in Hm.
  set (mp := (5 * doy + 2) / 153) in *.
  destruct Hm as (Hm1 & Hm2 & Hm3).
  exists era, yoe, mp, doy.
  repeat split; try lia; try (unfold doy, doe; lia).
  destruct (mp <? 10) eqn:E.
  - apply Z.ltb_lt in E.
    replace (mp + 3 <=? 2) with false by (symmetry; apply Z.leb_gt; lia).
    f_equal. f_equal. lia.
  - apply Z.ltb_ge in E.
    replace (mp - 9 <=? 2) with true by (symmetry; apply Z.leb_le; lia).
    reflexivity.
Qed.

Lemma civil_round_trip (z : Z) :
  let '(y, m, d) := civil_from_days z in days_from_civil y m d = z.
Proof.
  destruct (civil_from_days_decomp z) as (era & yoe & mp & doy & Hy & Hm & -> & Hz & _).
  rewrite dfc_march_based by assumption. lia.
Qed.

(** Month numbers in terms of the March-based year the calendar functions
    work with. *)
Lemma month_start_day_march_based (era yoe mp : Z) :
  0 <= yoe < 400 -> 0 <= mp <= 11 ->
  month_start_day ((yoe + era * 400) * 12 + mp + 2) =
  era * 146097 + (365 * yoe + yoe / 4 - yoe / 100) + (153 * mp + 2) / 5 - 719468.
Proof.
  intros Hy Hm. unfold month_start_day.
  pose proof (dfc_march_based era yoe mp 1 Hy Hm) as H.
  destruct (mp <? 10) eqn:E.
  - apply Z.ltb_lt in E.
    replace ((yoe + era * 400) * 12 + mp + 2) with ((mp + 2) + (yoe + era * 400) * 12) by lia.
    rewrite Z.div_add, Z.mod_add by lia.
    rewrite Z.div_small, Z.mod_small by lia.
    replace (0 + (yoe + era * 400)) with (yoe + era * 400 + 0) by lia.
    replace (mp + 2 + 1) with (mp + 3) by lia.
    rewrite H. lia.
  - apply Z.ltb_ge in E.
    replace ((yoe + era * 400) * 12 + mp + 2)
      with ((mp - 10) + (yoe + era * 400 + 1) * 12) by lia.
    rewrite Z.div_add, Z.mod_add by lia.
    rewrite Z.div_small, Z.mod_small by lia.
    replace (0 + (yoe + era * 400 + 1)) with (yoe + era * 400 + 1) by lia.
    replace (mp - 10 + 1) with (mp - 9) by lia.
    rewrite H. lia.
Qed.

(** The month after [(era, yoe, mp)], in the same terms. *)
Lemma next_month_march_based (era yoe mp : Z) :
  0 <= yoe < 400 -> 0 <= mp <= 11 ->
  exists era' yoe' mp',
    0 <= yoe' < 400 /\ 0 <= mp' <= 11 /\
    (yoe + era * 400) * 12 + mp + 2 + 1 = (yoe' + era' * 400) * 12 + mp' + 2 /\
    ((mp < 11 /\ era' = era /\ yoe' = yoe /\ mp' = mp + 1) \/
     (mp = 11 /\ yoe < 399 /\ era' = era /\ yoe' = yoe + 1 /\ mp' = 0) \/
     (mp = 11 /\ yoe = 399 /\ era' = era + 1 /\ yoe' = 0 /\ mp' = 0)).
Proof.
  intros Hy Hm.
  destruct (Z.eq_dec mp 11) as [e|ne].
  - destruct (Z.eq_dec yoe 399) as [e'|ne'].
    + exists (era + 1), 0, 0. repeat split; try lia.
    + exists era, (yoe + 1), 0. repeat split; try lia.
  - exists era, yoe, (mp + 1). repeat split; try lia.
Qed.

Lemma month_index_of_day_decomp (z : Z) :
  exists era yoe mp doy,
    0 <= yoe < 400 /\ 0 <= mp <= 11 /\
    month_index_of_day z = (yoe + era * 400) * 12 + mp + 2 /\
    z = era * 146097 + (365 * yoe + yoe / 4 - yoe / 100) + doy - 719468 /\
    (153 * mp + 2) / 5 <= doy /\
    (mp < 11 -> doy < (153 * (mp + 1) + 2) / 5) /\
    (yoe < 399 -> (365 * yoe + yoe / 4 - yoe / 100) + doy
                  < 365 * (yoe + 1) + (yoe + 1) / 4 - (yoe + 1) / 100) /\
    (365 * yoe + yoe / 4 - yoe / 100) + doy < 146097.
Proof.
  destruct (civil_from_days_decomp z)
    as (era & yoe & mp & doy & Hy & Hm & Hc & Hz & H1 & H2 & H3 & H4).
  exists era, yoe, mp, doy. repeat split; try assumption; try lia.
  unfold month_index_of_day. rewrite Hc.
  destruct (mp <? 10); lia.
Qed.

(** Every day lies in the month the calendar assigns it to. *)
Lemma day_in_its_month (d : Z) :
  month_start_day (month_index_of_day d) <= d
  < month_start_day (month_index_of_day d + 1).
Proof.
  destruct (month_index_of_day_decomp d)
    as (era & yoe & mp & doy & Hy & Hm & -> & Hz & H1 & H2 & H3 & H4).
  destruct (next_month_march_based era yoe mp Hy Hm)
    as (era' & yoe' & mp' & Hy' & Hm' & -> & Hcases).
  rewrite !month_start_day_march_based by assumption.
  split; [lia|].
  destruct Hcases as [(? & -> & -> & ->) | [(? & ? & -> & -> & ->) | (? & ? & -> & -> & ->)]].
  - specialize (H2 ltac:(lia)). lia.
  - specialize (H3 ltac:(lia)). change ((153 * 0 + 2) / 5) with 0. lia.
  - change ((153 * 0 + 2) / 5) with 0. change (365 * 0 + 0 / 4 - 0 / 100) with 0. lia.
Qed.

Lemma month_start_day_step (k : Z) : month_start_day k < month_start_day (k + 1).
Proof.
  assert (Hk : exists era yoe mp, 0 <= yoe < 400 /\ 0 <= mp <= 11 /\
                 k = (yoe + era * 400) * 12 + mp + 2).
  { exists ((k - 2) / 12 / 400), ((k - 2) / 12 mod 400), ((k - 2) mod 12).
    Z.to_euclidean_division_equations; lia. }
  destruct Hk as (era & yoe & mp & Hy & Hm & ->).
  destruct (next_month_march_based era yoe mp Hy Hm)
    as (era' & yoe' & mp' & Hy' & Hm' & -> & Hcases).
  rewrite !month_start_day_march_based by assumption.
  destruct Hcases as [(? & -> & -> & ->) | [(? & ? & -> & -> & ->) | (? & ? & -> & -> & ->)]].
  - Z.to_euclidean_division_equations; lia.
  - Z.to_euclidean_division_equations; lia.
  - Z.to_euclidean_division_equations; lia.
Qed.

Lemma month_start_day_mono (k k' : Z) :
  k <= k' -> month_start_day k <= month_start_day k'.
Proof.
  intros H. replace k' with (k + Z.of_nat (Z.to_nat (k' - k))) by lia.
  induction (Z.to_nat (k' - k)) as [|n IH].
  - replace (k + Z.of_nat 0) with k by lia. lia.
  - pose proof (month_start_day_step (k + Z.of_nat n)).
    replace (k + Z.of_nat (S n)) with (k + Z.of_nat n + 1) by lia. lia.
Qed.

(** A day belongs to month [k] exactly when it lies between the first day
    of [k] and the first day of the month after. *)
Lemma month_index_of_day_iff (d k : Z) :
  month_index_of_day d = k <-> month_start_day k <= d < month_start_day (k + 1).
Proof.
  split.
  - intros <-. apply day_in_its_month.
  - intros [Hlo Hhi]. pose proof (day_in_its_month d) as [Hlo' Hhi'].
    set (k' := month_index_of_day d) in *.
    destruct (Z.lt_trichotomy k' k) as [Hlt | [Heq | Hgt]]; [|exact Heq|].
    + pose proof (month_start_day_mono (k' + 1) k ltac:(lia)). lia.
    + pose proof (month_start_day_mono (k + 1) k' ltac:(lia)). lia.
Qed.

Lemma ns_per_day_pos : 0 < ns_per_day.
Proof. reflexivity. Qed.

Lemma day_of_timestamp_of_day (d : Z) : day_of_timestamp (timestamp_of_day d) = d.
Proof.
  unfold day_of_timestamp, timestamp_of_day.
  apply Z.div_mul. pose proof ns_per_day_pos; lia.
Qed.

Lemma bin_edge_eq (k : Z) :
  bin_edge k = timestamp_of_day (month_start_day (k + 1)) - 1.
Proof. unfold bin_edge, month_end, timestamp_of_day. lia. Qed.

(** The bin of month [k] holds exactly the instants whose date is in [k]. *)
Lemma in_bin_month_index (k t : Z) :
  in_bin k t = (month_index t =? k).
Proof.
  unfold in_bin. rewrite !bin_edge_eq. replace (k - 1 + 1) with k by lia.
  pose proof ns_per_day_pos as Hpos.
  pose proof (month_index_of_day_iff (day_of_timestamp t) k) as Hiff.
  fold (month_index t) in Hiff.
  unfold timestamp_of_day.
  assert (Hdiv : forall a, a * ns_per_day <= t <-> a <= day_of_timestamp t).
  { intros a. unfold day_of_timestamp. split; intros Ha.
    - apply Z.div_le_lower_bound; lia.
    - pose proof (Z.mul_div_le t ns_per_day Hpos). nia. }
  assert (Hdiv' : forall a, t < a * ns_per_day <-> day_of_timestamp t < a).
  { intros a. pose proof (Hdiv a). lia. }
  destruct (month_index t =? k) eqn:E.
  - apply Z.eqb_eq in E. apply Hiff in E as [Hlo Hhi].
    apply Hdiv in Hlo. apply Hdiv' in Hhi.
    apply andb_true_iff; split; [apply Z.ltb_lt | apply Z.leb_le]; lia.
  - apply Z.eqb_neq in E. apply not_true_is_false. intros Hin.
    apply andb_true_iff in Hin as [Hlo Hhi].
    apply Z.ltb_lt in Hlo. apply Z.leb_le in Hhi.
    apply E, Hiff. split; [apply Hdiv | apply Hdiv']; lia.
Qed.

Lemma month_index_month_end (k : Z) : month_index (month_end k) = k.
Proof.
  unfold month_index, month_end. rewrite day_of_timestamp_of_day.
  apply month_index_of_day_iff.
  pose proof (month_start_day_step k). lia.
Qed.

Lemma month_end_step (k : Z) : month_end k < month_end (k + 1).
Proof.
  unfold month_end, timestamp_of_day.
  pose proof (month_start_day_step (k + 1)). pose proof ns_per_day_pos. nia.
Qed.

(** ** [excel_serial_to_date] *)

(** C1.  For every number [v] with [1000 < v < 90000], the function
    returns the instant 1899-12-30 plus [v] days: midnight of the day
    whose number is that of 1899-12-30 plus [v], which falls on the
    calendar date [v] days after 1899-12-30. *)
Theorem excel_serial_to_date_in_range (v : Z) :
  1000 < v < 90000 ->
  excel_serial_to_date (VNum v) =
    VTimestamp (timestamp_of_day (days_from_civil 1899 12 30 + v))
  /\ date_of_timestamp (timestamp_of_day (days_from_civil 1899 12 30 + v)) =
       add_days (1899, 12, 30) v
  /\ time_of_day (timestamp_of_day (days_from_civil 1899 12 30 + v)) = 0.
Proof.
  intros [Hlo Hhi]. split; [|split].
  - unfold excel_serial_to_date. cbn [isna py_gt py_lt rbind to_timedelta_D].
    apply Z.ltb_lt in Hlo, Hhi. rewrite Hlo. cbn [rbind]. rewrite Hhi.
    cbn [rbind]. f_equal. unfold to_datetime_ymd, timestamp_of_day. ring.
  - unfold date_of_timestamp, add_days. now rewrite day_of_timestamp_of_day.
  - unfold time_of_day, timestamp_of_day. apply Z.mod_mul. discriminate.
Qed.

(** C6.  A number at or below 1000, or at or above 90000, comes back
    unchanged. *)
Theorem excel_serial_to_date_out_of_range (v : Z) :
  v <= 1000 \/ 90000 <= v ->
  excel_serial_to_date (VNum v) = VNum v.
Proof.
  intros H. unfold excel_serial_to_date. cbn [isna py_gt py_lt rbind].
  destruct (1000 <? v) eqn:Hgt; cbn [rbind]; [|reflexivity].
  destruct (v <? 90000) eqn:Hlt; cbn [rbind]; [|reflexivity].
  apply Z.ltb_lt in Hgt, Hlt. lia.
Qed.

(** C7.  On [NaN] the function returns [None]: neither a date nor its
    argument. *)
Theorem excel_serial_to_date_nan :
  excel_serial_to_date VNaN = VNone
  /\ is_timestamp (excel_serial_to_date VNaN) = false
  /\ excel_serial_to_date VNaN <> VNaN.
Proof. repeat split. discriminate. Qed.

(** Every missing marker gives [None]; text and timestamps come back as
    they are, through the [except] branch. *)
Lemma excel_serial_to_date_missing (v : value) :
  isna v = true -> excel_serial_to_date v = VNone.
Proof. intros H. unfold excel_serial_to_date. now rewrite H. Qed.

Lemma excel_serial_to_date_other (v : value) :
  (forall n, v <> VNum n) -> isna v = false -> excel_serial_to_date v = v.
Proof.
  intros Hn Hna. destruct v; try discriminate; try reflexivity.
  now contradiction (Hn n).
Qed.

Example excel_serial_41760 :
  excel_serial_to_date (VNum 41760) = VTimestamp (to_datetime_ymd 2014 5 1).
Proof. reflexivity. Qed.

Example excel_serial_41791_date :
  add_days (1899, 12, 30) 41791 = (2014, 6, 1).
Proof. reflexivity. Qed.

(** ** DataFrame operations *)

Lemma has_column_get (c : string) (df : DataFrame) :
  has_column c df = match get_column c df with Some _ => true | None => false end.
Proof.
  unfold has_column, columns.
  induction df as [|[name cells] rest IH]; [reflexivity|].
  cbn [map existsb get_column fst]. destruct (String.eqb c name); [reflexivity|exact IH].
Qed.

Lemma get_column_set (c c' : string) (cells : list value) (df : DataFrame) :
  get_column c (set_column c' cells df) =
  if String.eqb c c' then Some cells else get_column c df.
Proof.
  induction df as [|[name old] rest IH]; cbn [set_column get_column].
  - reflexivity.
  - destruct (String.eqb c' name) eqn:E'.
    + apply String.eqb_eq in E'. subst name. cbn [get_column].
      destruct (String.eqb c c'); reflexivity.
    + cbn [get_column]. rewrite IH.
      destruct (String.eqb c name) eqn:E; [|reflexivity].
      apply String.eqb_eq in E. subst name.
      rewrite String.eqb_sym in E'. now rewrite E'.
Qed.

Lemma get_column_drop (c c' : string) (df : DataFrame) :
  get_column c (drop_column c' df) =
  if String.eqb c c' then None else get_column c df.
Proof.
  unfold drop_column.
  induction df as [|[name old] rest IH]; cbn [filter get_column fst].
  - now destruct (String.eqb c c').
  - destruct (String.eqb c' name) eqn:E'; cbn [negb get_column].
    + rewrite IH. apply String.eqb_eq in E'. subst name.
      now destruct (String.eqb c c').
    + rewrite IH. destruct (String.eqb c name) eqn:E; [|reflexivity].
      apply String.eqb_eq in E. subst name.
      rewrite String.eqb_sym in E'. now rewrite E'.
Qed.

Lemma get_column_rename (c old new : string) (df : DataFrame) :
  get_column new df = None ->
  get_column c (rename_column old new df) =
  if String.eqb c new then get_column old df
  else if String.eqb c old then None
  else get_column c df.
Proof.
  unfold rename_column.
  induction df as [|[name cells] rest IH]; cbn [map get_column fst snd]; intros Hnew.
  - now destruct (String.eqb c new), (String.eqb c old).
  - destruct (String.eqb new name) eqn:En; [discriminate|].
    specialize (IH Hnew).
    destruct (String.eqb old name) eqn:Eo; cbn [get_column].
    + apply String.eqb_eq in Eo. subst name.
      destruct (String.eqb c new) eqn:Ec; [reflexivity|].
      rewrite IH. rewrite ?Ec. now destruct (String.eqb c old).
    + rewrite IH.
      destruct (String.eqb c name) eqn:Ecn; [|reflexivity].
      apply String.eqb_eq in Ecn. subst name.
      rewrite String.eqb_sym in En. rewrite En.
      rewrite String.eqb_sym in Eo. now rewrite Eo.
Qed.

Lemma get_column_select (c : string) (mask : list bool) (df : DataFrame) :
  get_column c (select_rows mask df) = option_map (filter_mask mask) (get_column c df).
Proof.
  unfold select_rows.
  induction df as [|[name cells] rest IH]; cbn [map get_column fst snd option_map].
  - reflexivity.
  - destruct (String.eqb c name); [reflexivity|exact IH].
Qed.

Lemma filter_mask_notna_datetime (l : list (option Z)) :
  filter_mask (notna_mask (map datetime_cell l)) (map datetime_cell l) =
  map VTimestamp (somes l).
Proof.
  unfold notna_mask.
  induction l as [|[t|] rest IH]; cbn [map filter_mask somes datetime_cell isna negb].
  - reflexivity.
  - now rewrite IH.
  - exact IH.
Qed.

Lemma notna_mask_datetime (l : list (option Z)) :
  notna_mask (map datetime_cell l) = map is_some l.
Proof.
  unfold notna_mask. rewrite map_map. apply map_ext. now intros [t|].
Qed.

(** ** Date normalization *)

(** The rows that survive normalization: those whose repaired cell converts
    to an instant. *)
Lemma normalize_dates_columns (df : DataFrame) (dates : list value) :
  get_column DATE_COLUMN df = Some dates ->
  let converted := to_datetime_coerce (map excel_serial_to_date dates) in
  exists df',
    normalize_dates df = Ok df'
    /\ get_column DATE_COLUMN df' = Some (map VTimestamp (somes converted))
    /\ get_column Corrected_Date df' = None
    /\ forall c, c <> DATE_COLUMN -> c <> Corrected_Date ->
         get_column c df' =
         option_map (filter_mask (map is_some converted)) (get_column c df).
Proof.
  intros Hdates converted.
  unfold normalize_dates, column. rewrite Hdates. cbn [rbind].
  set (df1 := set_column Corrected_Date (map excel_serial_to_date dates) df).
  set (df2 := drop_column DATE_COLUMN df1).
  set (df3 := rename_column Corrected_Date DATE_COLUMN df2).
  assert (H2 : get_column DATE_COLUMN df2 = None).
  { unfold df2. rewrite get_column_drop. now rewrite String.eqb_refl. }
  assert (H3 : forall c, get_column c df3 =
                 if String.eqb c DATE_COLUMN then Some (map excel_serial_to_date dates)
                 else if String.eqb c Corrected_Date then None
                 else get_column c df).
  { intros c. unfold df3. rewrite (get_column_rename _ _ _ _ H2).
    unfold df2. rewrite !get_column_drop. unfold df1. rewrite !get_column_set.
    change (String.eqb Corrected_Date DATE_COLUMN) with false.
    rewrite String.eqb_refl.
    destruct (String.eqb c DATE_COLUMN) eqn:Ed; [reflexivity|].
    destruct (String.eqb c Corrected_Date); reflexivity. }
  rewrite (H3 DATE_COLUMN), String.eqb_refl. cbn [rbind].
  fold converted.
  set (df4 := set_column DATE_COLUMN (map datetime_cell converted) df3).
  assert (H4 : get_column DATE_COLUMN df4 = Some (map datetime_cell converted)).
  { unfold df4. now rewrite get_column_set, String.eqb_refl. }
  eexists. split; [reflexivity|].
  unfold dropna_subset. rewrite H4.
  split; [|split].
  - rewrite get_column_select, H4. cbn [option_map].
    now rewrite filter_mask_notna_datetime.
  - rewrite get_column_select. unfold df4. rewrite get_column_set.
    change (String.eqb Corrected_Date DATE_COLUMN) with false.
    rewrite H3. change (String.eqb Corrected_Date DATE_COLUMN) with false.
    now rewrite String.eqb_refl.
  - intros c Hd Hc. rewrite get_column_select, notna_mask_datetime.
    unfold df4. rewrite get_column_set.
    apply String.eqb_neq in Hd, Hc. rewrite Hd, H3, Hd, Hc. reflexivity.
Qed.



(** ** A missing amount column *)



(** ** int64 sums *)

Lemma wrap64_mod (z : Z) : wrap64 z mod 2 ^ 64 = z mod 2 ^ 64.
Proof.
  unfold wrap64.
  rewrite <- Zminus_mod_idemp_l, Z.mod_mod by lia.
  rewrite Zminus_mod_idemp_l. f_equal. lia.
Qed.

Lemma wrap64_eq (a b : Z) : a mod 2 ^ 64 = b mod 2 ^ 64 -> wrap64 a = wrap64 b.
Proof.
  intros H. unfold wrap64. f_equal.
  rewrite <- (Zplus_mod_idemp_l a), <- (Zplus_mod_idemp_l b). now rewrite H.
Qed.

Lemma wrap64_add_r (a b : Z) : wrap64 (a + wrap64 b) = wrap64 (a + b).
Proof.
  apply wrap64_eq.
  rewrite <- (Zplus_mod_idemp_r (wrap64 b)), wrap64_mod.
  now rewrite Zplus_mod_idemp_r.
Qed.

Lemma wrap64_range (z : Z) : - 2 ^ 63 <= wrap64 z < 2 ^ 63.
Proof.
  unfold wrap64. pose proof (Z.mod_pos_bound (z + 2 ^ 63) (2 ^ 64) ltac:(lia)). lia.
Qed.

Lemma wrap64_small (z : Z) : - 2 ^ 63 <= z < 2 ^ 63 -> wrap64 z = z.
Proof. intros H. unfold wrap64. rewrite Z.mod_small by lia. lia. Qed.

Lemma wrap64_sum_wrapped {A : Type} (f : A -> Z) (l : list A) :
  wrap64 (fold_right Z.add 0 (map (fun x => wrap64 (f x)) l)) =
  wrap64 (fold_right Z.add 0 (map f l)).
Proof.
  induction l as [|x l IH]; [reflexivity|].
  cbn [map fold_right].
  set (S' := fold_right Z.add 0 (map (fun x => wrap64 (f x)) l)) in *.
  set (S := fold_right Z.add 0 (map f l)) in *.
  rewrite (Z.add_comm (wrap64 (f x)) S'), wrap64_add_r, (Z.add_comm S' (f x)).
  rewrite <- (wrap64_add_r (f x) S'), IH. apply wrap64_add_r.
Qed.

Lemma exact_sum_app (l l' : list value) :
  exact_sum (l ++ l') = exact_sum l + exact_sum l'.
Proof.
  unfold exact_sum. induction l as [|v l IH]; cbn [app fold_right]; lia.
Qed.

Lemma int64_column_numeric (cells : list value) :
  int64_column cells = true -> numeric_column cells = true.
Proof.
  unfold int64_column, numeric_column. rewrite !forallb_forall.
  intros H v Hv. specialize (H v Hv). now destruct v.
Qed.

Lemma numeric_column_filter_mask (mask : list bool) (cells : list value) :
  numeric_column cells = true -> numeric_column (filter_mask mask cells) = true.
Proof.
  unfold numeric_column. revert mask.
  induction cells as [|v cells IH]; intros mask H.
  - now destruct mask.
  - cbn [forallb] in H. apply andb_true_iff in H as [Hv Hrest].
    destruct mask as [|[|] mask]; cbn [filter_mask forallb]; auto.
    rewrite Hv. cbn. auto.
Qed.

(** ** Group keys *)

Lemma value_eqb_eq (a b : value) : value_eqb a b = true <-> a = b.
Proof.
  destruct a, b; cbn [value_eqb]; split; intros H;
    try discriminate; try reflexivity;
    try (apply Z.eqb_eq in H; now subst);
    try (apply String.eqb_eq in H; now subst);
    try (injection H as ->; (apply Z.eqb_refl || apply String.eqb_refl)).
Qed.

Lemma value_eqb_refl (a : value) : value_eqb a a = true.
Proof. now apply value_eqb_eq. Qed.

Lemma value_eqb_neq (a b : value) : value_eqb a b = false <-> a <> b.
Proof.
  split.
  - intros H Heq. apply value_eqb_eq in Heq. congruence.
  - intros H. destruct (value_eqb a b) eqn:E; [|reflexivity].
    apply value_eqb_eq in E. contradiction.
Qed.

Lemma unique_In (x : value) (l : list value) : In x (unique l) <-> In x l.
Proof.
  clear to_datetime_dtype.
  induction l as [|y l IH]; [reflexivity|].
  cbn [unique In]. rewrite filter_In, IH.
  destruct (value_eqb y x) eqn:E.
  - apply value_eqb_eq in E. subst. cbn. tauto.
  - apply value_eqb_neq in E. cbn. tauto.
Qed.

Lemma unique_NoDup (l : list value) : NoDup (unique l).
Proof.
  induction l as [|y l IH]; cbn [unique]; constructor.
  - rewrite filter_In. intros [_ H]. now rewrite value_eqb_refl in H.
  - now apply NoDup_filter.
Qed.

Lemma insert_key_perm (k : value) (l : list value) :
  Permutation (k :: l) (insert_key k l).
Proof.
  induction l as [|h t IH]; cbn [insert_key]; [reflexivity|].
  destruct (key_leb k h); [reflexivity|].
  rewrite perm_swap. now apply perm_skip.
Qed.

Lemma sort_keys_perm (l : list value) : Permutation l (sort_keys l).
Proof.
  unfold sort_keys. induction l as [|k l IH]; cbn [fold_right]; [reflexivity|].
  rewrite <- insert_key_perm. now apply perm_skip.
Qed.

Lemma group_keys_In (k : value) (keys : list value) :
  In k (group_keys keys) <-> In k keys /\ isna k = false.
Proof.
  unfold group_keys.
  split.
  - intros H. apply (Permutation_in _ (Permutation_sym (sort_keys_perm _))) in H.
    apply unique_In, filter_In in H as [Hin Hna]. split; [exact Hin|].
    now destruct (isna k).
  - intros [Hin Hna]. apply (Permutation_in _ (sort_keys_perm _)).
    apply unique_In, filter_In. split; [exact Hin|]. now rewrite Hna.
Qed.

Lemma group_keys_NoDup (keys : list value) : NoDup (group_keys keys).
Proof.
  unfold group_keys.
  apply (Permutation_NoDup (sort_keys_perm _)), unique_NoDup.
Qed.

(** ** Category totals *)

Lemma sum_map_add {A : Type} (f g : A -> Z) (l : list A) :
  fold_right Z.add 0 (map (fun x => f x + g x) l) =
  fold_right Z.add 0 (map f l) + fold_right Z.add 0 (map g l).
Proof. induction l as [|x l IH]; cbn [map fold_right]; lia. Qed.

Lemma sum_map_zero {A : Type} (f : A -> Z) (l : list A) :
  (forall x, f x = 0) -> fold_right Z.add 0 (map f l) = 0.
Proof.
  intros H. induction l as [|x l IH]; cbn [map fold_right]; [reflexivity|].
  rewrite H, IH. reflexivity.
Qed.

Lemma sum_indicator (x : value) (a : Z) (ks : list value) :
  NoDup ks ->
  fold_right Z.add 0 (map (fun k => if value_eqb k x then a else 0) ks) =
  if existsb (fun k => value_eqb k x) ks then a else 0.
Proof.
  induction 1 as [|k ks Hnin Hnd IH]; cbn [map fold_right existsb]; [reflexivity|].
  rewrite IH. destruct (value_eqb k x) eqn:E; cbn [orb]; [|lia].
  apply value_eqb_eq in E. subst k.
  destruct (existsb (fun k => value_eqb k x) ks) eqn:Ex; [|lia].
  apply existsb_exists in Ex as (k & Hk & E). apply value_eqb_eq in E.
  subst k. contradiction.
Qed.

Lemma group_cells_cons (k key c : value) (keys cells : list value) :
  group_cells k (key :: keys) (c :: cells) =
  if value_eqb k key then c :: group_cells k keys cells
  else group_cells k keys cells.
Proof.
  unfold group_cells. cbn [combine filter fst].
  now destruct (value_eqb k key).
Qed.

(** Every row with a key lies in exactly one group. *)
Lemma groups_partition (ks keys cells : list value) :
  NoDup ks ->
  (forall k, In k ks -> isna k = false) ->
  (forall k, In k keys -> isna k = false -> In k ks) ->
  fold_right Z.add 0 (map (fun k => exact_sum (group_cells k keys cells)) ks) =
  exact_sum (cells_with_key keys cells).
Proof.
  intros Hnd Hna. revert cells.
  induction keys as [|key keys IH]; intros cells Hcover.
  - unfold group_cells, cells_with_key. cbn [combine filter map].
    now apply sum_map_zero.
  - destruct cells as [|c cells].
    + unfold group_cells, cells_with_key. cbn [combine filter map].
      now apply sum_map_zero.
    + assert (Hcover' : forall k, In k keys -> isna k = false -> In k ks).
      { intros k Hk. apply Hcover. now right. }
      specialize (IH cells Hcover').
      rewrite (map_ext _ (fun k => (if value_eqb k key then amount c else 0)
                                   + exact_sum (group_cells k keys cells))).
      2:{ intros k. rewrite group_cells_cons.
          destruct (value_eqb k key); [reflexivity|lia]. }
      rewrite sum_map_add, IH, sum_indicator by assumption.
      unfold cells_with_key. cbn [combine filter fst].
      destruct (isna key) eqn:Ekey; cbn [negb map snd].
      * destruct (existsb (fun k => value_eqb k key) ks) eqn:Ex; [|lia].
        apply existsb_exists in Ex as (k & Hk & E). apply value_eqb_eq in E.
        subst k. apply Hna in Hk. congruence.
      * assert (Hin : In key ks) by (apply Hcover; [now left|assumption]).
        replace (existsb (fun k => value_eqb k key) ks) with true.
        -- reflexivity.
        -- symmetry. apply existsb_exists. exists key. split; [assumption|].
           apply value_eqb_refl.
Qed.

Lemma groupby_sum_numeric (keys cells : list value) :
  numeric_column cells = true ->
  orderable keys = true ->
  groupby_sum keys cells =
  Ok (map (fun k => (k, wrap64 (exact_sum (group_cells k keys cells)))) (group_keys keys)).
Proof. intros H H'. unfold groupby_sum. now rewrite H, H'. Qed.


Lemma totals_sum_perm (l l' : list (value * Z)) :
  Permutation l l' -> totals_sum l = totals_sum l'.
Proof.
  intros H. unfold totals_sum. f_equal.
  induction H; cbn [map fold_right]; lia.
Qed.

Lemma cells_with_key_all (keys cells : list value) :
  length keys = length cells ->
  Forall (fun k => isna k = false) keys ->
  cells_with_key keys cells = cells.
Proof.
  unfold cells_with_key. revert cells.
  induction keys as [|k keys IH]; intros [|c cells] Hlen Hall;
    try discriminate; [reflexivity|].
  inversion Hall as [|? ? Hk Hrest]; subst.
  cbn [combine filter fst]. rewrite Hk. cbn [negb map snd].
  f_equal. apply IH; [now injection Hlen|assumption].
Qed.


(** The int64 sum of the category totals is the int64 sum of the amounts
    of the rows whose category is not missing; when no row lacks a
    category this is the global sum [total_sales]. *)
Lemma category_totals_partition (df : DataFrame) (keys cells : list value) :
  get_column CATEGORY_COLUMN df = Some keys ->
  get_column SALES_COLUMN df = Some cells ->
  numeric_column cells = true ->
  orderable keys = true ->
  exists out,
    category_sales df = Ok out
    /\ totals_sum out = wrap64 (exact_sum (cells_with_key keys cells))
    /\ (length keys = length cells ->
        Forall (fun k => isna k = false) keys ->
        total_sales df = Ok (totals_sum out)).
Proof.
  intros Hk Hc Hnum Hord.
  unfold category_sales, total_sales, column. rewrite Hk, Hc. cbn [rbind].
  rewrite (groupby_sum_numeric _ _ Hnum Hord). cbn [rbind].
  set (groups := map _ (group_keys keys)).
  exists (sort_values_desc groups). split; [reflexivity|].
  assert (Hsum : totals_sum (sort_values_desc groups) =
                 wrap64 (exact_sum (cells_with_key keys cells))).
  { rewrite <- (totals_sum_perm _ _ (sort_values_desc_perm groups)).
    unfold totals_sum, groups. rewrite map_map. cbn [snd].
    rewrite (wrap64_sum_wrapped (fun k => exact_sum (group_cells k keys cells))).
    f_equal. apply groups_partition.
    - apply group_keys_NoDup.
    - intros k H. now apply group_keys_In in H.
    - intros k Hin Hna. now apply group_keys_In. }
  split; [exact Hsum|].
  intros Hlen Hall. unfold series_sum. rewrite Hnum, Hsum.
  now rewrite cells_with_key_all.
Qed.

(** ** Monthly trend *)

Lemma day_of_timestamp_mono (t t' : Z) :
  t <= t' -> day_of_timestamp t <= day_of_timestamp t'.
Proof. intros H. apply Z.div_le_mono; [reflexivity|exact H]. Qed.

Lemma month_index_of_day_mono (d d' : Z) :
  d <= d' -> month_index_of_day d <= month_index_of_day d'.
Proof.
  intros H.
  pose proof (day_in_its_month d) as [Hlo _].
  pose proof (day_in_its_month d') as [_ Hhi'].
  destruct (Z_le_gt_dec (month_index_of_day d) (month_index_of_day d')) as [|Hgt];
    [assumption|].
  pose proof (month_start_day_mono (month_index_of_day d' + 1) (month_index_of_day d)
                ltac:(lia)).
  lia.
Qed.

Lemma month_index_mono (t t' : Z) : t <= t' -> month_index t <= month_index t'.
Proof.
  intros H. apply month_index_of_day_mono, day_of_timestamp_mono, H.
Qed.

Lemma month_end_lt (k k' : Z) : k < k' -> month_end k < month_end k'.
Proof.
  intros H. unfold month_end, timestamp_of_day.
  pose proof (month_start_day_mono (k + 1) k' ltac:(lia)).
  pose proof (month_start_day_step k').
  pose proof ns_per_day_pos. nia.
Qed.

Lemma fold_min_max_bounds (t0 : Z) (ts : list Z) (t : Z) :
  In t (t0 :: ts) -> fold_right Z.min t0 ts <= t <= fold_right Z.max t0 ts.
Proof.
  induction ts as [|a ts IH]; cbn [fold_right]; intros Hin.
  - destruct Hin as [<-|[]]. lia.
  - destruct Hin as [<- | [<- | Hin]].
    + specialize (IH (or_introl eq_refl)). lia.
    + lia.
    + specialize (IH (or_intror Hin)). lia.
Qed.

Lemma months_In (first last k : Z) :
  In k (months first last) <-> first <= k <= last.
Proof.
  unfold months. rewrite in_map_iff. split.
  - intros (i & <- & Hi). apply in_seq in Hi. lia.
  - intros H. exists (Z.to_nat (k - first)). split; [lia|].
    apply in_seq. lia.
Qed.

Lemma months_sorted (first last : Z) : StronglySorted Z.lt (months first last).
Proof.
  unfold months. generalize (Z.to_nat (last - first + 1)) as n.
  generalize 0%nat as start.
  intros start n. revert start.
  induction n as [|n IH]; intros start; cbn [seq map]; constructor.
  - apply IH.
  - apply Forall_forall. intros k Hk.
    apply in_map_iff in Hk as (i & <- & Hi). apply in_seq in Hi. lia.
Qed.

Lemma bin_cells_month_cells (k : Z) (index : list Z) (cells : list value) :
  bin_cells k index cells = month_cells k index cells.
Proof.
  unfold bin_cells, month_cells. f_equal.
  apply filter_ext. intros row. apply in_bin_month_index.
Qed.

Lemma StronglySorted_map {A B : Type} (R : A -> A -> Prop) (R' : B -> B -> Prop)
      (f : A -> B) (l : list A) :
  (forall x y, R x y -> R' (f x) (f y)) ->
  StronglySorted R l -> StronglySorted R' (map f l).
Proof.
  intros Hf. induction 1 as [|x l Hs IH Hall]; cbn [map]; constructor.
  - exact IH.
  - apply Forall_forall. intros y Hy. apply in_map_iff in Hy as (z & <- & Hz).
    apply Hf. rewrite Forall_forall in Hall. now apply Hall.
Qed.

(** What resampling by month returns: one row per month of a run of
    consecutive months that takes in the month of every instant, each
    labelled with the month's end and holding the int64 sum of the cells
    whose instant falls in the month. *)
Lemma resample_M_sum_numeric (index : list Z) (cells : list value) :
  numeric_column cells = true ->
  exists ks,
    resample_M_sum index cells =
      Ok (map (fun k => (month_end k, wrap64 (exact_sum (month_cells k index cells)))) ks)
    /\ StronglySorted Z.lt ks
    /\ (forall t, In t index -> In (month_index t) ks)
    /\ (index = [] -> ks = []).
Proof.
  intros Hnum. unfold resample_M_sum. rewrite Hnum.
  destruct index as [|t0 ts].
  - exists []. repeat split; try constructor. intros t [].
  - set (first := month_index (fold_right Z.min t0 ts)).
    set (last := month_index (fold_right Z.max t0 ts)).
    exists (months first last). split; [|split; [|split]].
    + f_equal. apply map_ext. intros k. now rewrite bin_cells_month_cells.
    + apply months_sorted.
    + intros t Hin. apply months_In.
      pose proof (fold_min_max_bounds t0 ts t Hin) as [Hlo Hhi].
      split; apply month_index_mono; assumption.
    + discriminate.
Qed.

Lemma datetime_index_timestamps (index : list Z) :
  datetime_index (map VTimestamp index) = Ok index.
Proof.
  induction index as [|t index IH]; cbn [map datetime_index]; [reflexivity|].
  now rewrite IH.
Qed.

Lemma length_somes_filter_mask (l : list (option Z)) (cells : list value) :
  length l = length cells ->
  length (somes l) = length (filter_mask (map is_some l) cells).
Proof.
  revert cells. induction l as [|[t|] l IH]; intros [|c cells] Hlen;
    try discriminate; cbn [somes map is_some filter_mask length].
  - reflexivity.
  - f_equal. apply IH. now injection Hlen.
  - apply IH. now injection Hlen.
Qed.

(** The date column of a sheet without a text converts to datetime64. *)
Lemma date_dtype_without_text (df : DataFrame) (dates : list value) :
  get_column DATE_COLUMN df = Some dates ->
  existsb is_text dates = false ->
  date_dtype df = datetime64_dtype.
Proof.
  intros Hd Htext. unfold date_dtype. rewrite Hd. cbv zeta.
  replace (existsb is_text (map excel_serial_to_date dates)) with false;
    [reflexivity|].
  symmetry. clear Hd. induction dates as [|v dates IH]; [reflexivity|].
  cbn [existsb map] in *. apply orb_false_iff in Htext as [Hv Hrest].
  rewrite (IH Hrest), orb_false_r.
  destruct v as [| | |n|s|t]; try reflexivity; [|discriminate].
  unfold excel_serial_to_date. cbn [isna py_gt py_lt rbind].
  destruct (1000 <? n); [destruct (n <? 90000)|]; reflexivity.
Qed.

Lemma date_dtype_absent (df : DataFrame) :
  has_column DATE_COLUMN df = false -> date_dtype df = datetime64_dtype.
Proof.
  intros H. rewrite has_column_get in H. unfold date_dtype.
  now destruct (get_column DATE_COLUMN df).
Qed.

(** X15.  The monthly trend of a sheet whose dates convert to a datetime
    column.  With a date column and an amount column of whole numbers,
    the trend has one pair per month, labelled with the end of that month.
    The pairs are in ascending order of the month, the month of every row
    that is left after normalization is among them, and the total of a
    pair is the int64 sum of the amounts of the rows whose normalized date
    falls in its month. *)
Theorem monthly_trend_by_month (df : DataFrame) (dates cells : list value) :
  get_column DATE_COLUMN df = Some dates ->
  get_column SALES_COLUMN df = Some cells ->
  length dates = length cells ->
  int64_column cells = true ->
  date_dtype df = datetime64_dtype ->
  exists df' index cells' trend,
    normalize_dates df = Ok df'
    /\ get_column DATE_COLUMN df' = Some (map VTimestamp index)
    /\ get_column SALES_COLUMN df' = Some cells'
    /\ length index = length cells'
    /\ monthly_trend df = Ok trend
    /\ StronglySorted (fun a b => month_index (fst a) < month_index (fst b)) trend
    /\ StronglySorted (fun a b => fst a < fst b) trend
    /\ (forall label total, In (label, total) trend ->
          label = month_end (month_index label)
          /\ total = wrap64 (exact_sum (month_cells (month_index label) index cells')))
    /\ (forall t, In t index -> In (month_index t) (map month_index (map fst trend))).
Proof.
  intros Hd Hc Hlen Hint Hdtype.
  pose proof (int64_column_numeric cells Hint) as Hnum.
  destruct (normalize_dates_columns df dates Hd) as (df' & Hn & Hdate & _ & Hframe).
  set (converted := to_datetime_coerce (map excel_serial_to_date dates)) in *.
  specialize (Hframe SALES_COLUMN ltac:(discriminate) ltac:(discriminate)).
  rewrite Hc in Hframe. cbn [option_map] in Hframe.
  set (cells' := filter_mask (map is_some converted) cells) in *.
  assert (Hnum' : numeric_column cells' = true)
    by now apply numeric_column_filter_mask.
  destruct (resample_M_sum_numeric (somes converted) cells' Hnum')
    as (ks & Hres & Hsorted & Hcover & _).
  exists df', (somes converted), cells'. eexists.
  split; [exact Hn|]. split; [exact Hdate|]. split; [exact Hframe|].
  split.
  { apply length_somes_filter_mask. unfold converted.
    rewrite to_datetime_coerce_length, length_map. exact Hlen. }
  split.
  { unfold monthly_trend, column at 1. rewrite Hd. cbn [rbind].
    rewrite Hn. cbn [rbind]. unfold column at 1. rewrite Hframe. cbn [rbind].
    rewrite Hdtype. cbn [resample_sales].
    unfold sales_trend, column. rewrite Hdate, Hframe. cbn [rbind].
    rewrite datetime_index_timestamps. cbn [rbind]. exact Hres. }
  split; [|split; [|split]].
  - apply (StronglySorted_map Z.lt); [|exact Hsorted].
    intros k k' Hlt. cbn [fst]. now rewrite !month_index_month_end.
  - apply (StronglySorted_map Z.lt); [|exact Hsorted].
    intros k k' Hlt. cbn [fst]. now apply month_end_lt.
  - intros label total Hin. apply in_map_iff in Hin as (k & [= <- <-] & _).
    rewrite month_index_month_end. split; reflexivity.
  - intros t Hin. rewrite !map_map. cbn [fst].
    apply in_map_iff. exists (month_index t).
    split; [apply month_index_month_end|now apply Hcover].
Qed.

(** Over a date column that was left with dtype [object] the trend is not
    computed: line 82 raises. *)
Lemma monthly_trend_object_column (df : DataFrame) :
  has_column SALES_COLUMN df = true ->
  date_dtype df = object_dtype ->
  monthly_trend df = Raise TypeError.
Proof.
  intros Hs Hdtype.
  destruct (get_column DATE_COLUMN df) as [dates|] eqn:Hd.
  2:{ rewrite date_dtype_absent in Hdtype; [discriminate|].
      now rewrite has_column_get, Hd. }
  destruct (normalize_dates_columns df dates Hd) as (df' & Hn & _ & _ & Hframe).
  specialize (Hframe SALES_COLUMN ltac:(discriminate) ltac:(discriminate)).
  rewrite has_column_get in Hs.
  destruct (get_column SALES_COLUMN df) as [cells|]; [|discriminate].
  cbn [option_map] in Hframe.
  unfold monthly_trend, column at 1. rewrite Hd. cbn [rbind].
  rewrite Hn. cbn [rbind]. unfold column at 1. rewrite Hframe. cbn [rbind].
  now rewrite Hdtype.
Qed.

(** ** A sheet without rows *)

Lemma bind_st {B : Type} (w : widget) (k : unit -> script B) (page : list widget) :
  bind (st w) k page = k tt (page ++ [w]).
Proof. reflexivity. Qed.

Lemma bind_lift_ok {A B : Type} (a : A) (k : A -> script B) (page : list widget) :
  bind (lift (Ok a)) k page = k a page.
Proof. reflexivity. Qed.

Lemma bind_ret {A B : Type} (a : A) (k : A -> script B) (page : list widget) :
  bind (ret a) k page = k a page.
Proof. reflexivity. Qed.

Lemma bind_bind {A B C : Type} (m : script A) (k : A -> script B) (h : B -> script C)
      (page : list widget) :
  bind (bind m k) h page = bind m (fun a => bind (k a) h) page.
Proof.
  unfold bind. destruct (m page) as [page' [a|e]]; reflexivity.
Qed.

Lemma zero_rows_get (df : DataFrame) (c : string) (cells : list value) :
  zero_rows df -> get_column c df = Some cells -> cells = [].
Proof.
  unfold zero_rows. induction 1 as [|[name old] rest Hcol Hrest IH]; cbn [get_column].
  - discriminate.
  - destruct (String.eqb c name); [|exact IH].
    intros [= <-]. exact Hcol.
Qed.

Lemma date_dtype_zero_rows (df : DataFrame) :
  zero_rows df -> date_dtype df = datetime64_dtype.
Proof.
  intros Hzero. destruct (get_column DATE_COLUMN df) as [dates|] eqn:Hd.
  - rewrite (zero_rows_get df DATE_COLUMN dates Hzero Hd) in Hd.
    now apply (date_dtype_without_text df []).
  - unfold date_dtype. now rewrite Hd.
Qed.

Lemma filter_mask_nil {A : Type} (mask : list bool) : @filter_mask A mask [] = [].
Proof. now destruct mask. Qed.

Lemma nrows_of_columns (df : DataFrame) :
  (forall c cells, get_column c df = Some cells -> cells = []) -> nrows df = O.
Proof.
  intros H. destruct df as [|[name cells] rest]; [reflexivity|].
  cbn [nrows]. rewrite (H name cells); [reflexivity|].
  cbn [get_column]. now rewrite String.eqb_refl.
Qed.

Lemma normalization_step_zero_rows (df : DataFrame) (page : list widget) :
  zero_rows df ->
  exists df',
    normalization_step df page =
      (page ++ (if has_column DATE_COLUMN df
                then [StInfo checking_dates]
                else []), Ok df')
    /\ (forall c, c <> Corrected_Date -> has_column c df' = has_column c df)
    /\ (forall c cells, get_column c df' = Some cells -> cells = []).
Proof.
  intros Hzero. unfold normalization_step.
  destruct (has_column DATE_COLUMN df) eqn:Hhas.
  - rewrite has_column_get in Hhas.
    destruct (get_column DATE_COLUMN df) as [dates|] eqn:Hd; [|discriminate].
    destruct (normalize_dates_columns df dates Hd) as (df' & Hn & Hdate & Hcd & Hframe).
    pose proof (zero_rows_get df _ _ Hzero Hd) as ->.
    cbn [map] in Hdate, Hframe.
    assert (Hconv : to_datetime_coerce [] = []).
    { apply length_zero_iff_nil. now rewrite to_datetime_coerce_length. }
    rewrite Hconv in Hdate, Hframe. cbn [somes map] in Hdate, Hframe.
    exists df'. rewrite bind_st, Hn. split; [reflexivity|]. split.
    + intros c Hc. rewrite !has_column_get.
      destruct (String.eqb c DATE_COLUMN) eqn:E.
      * apply String.eqb_eq in E. subst c. now rewrite Hdate, Hd.
      * apply String.eqb_neq in E. rewrite (Hframe c E Hc).
        now destruct (get_column c df).
    + intros c cells Hget.
      destruct (String.eqb c DATE_COLUMN) eqn:E.
      * apply String.eqb_eq in E. subst c. congruence.
      * apply String.eqb_neq in E.
        destruct (String.eqb c Corrected_Date) eqn:E'.
        -- apply String.eqb_eq in E'. subst c. congruence.
        -- apply String.eqb_neq in E'. rewrite (Hframe c E E') in Hget.
           destruct (get_column c df) as [old|]; [|discriminate].
           injection Hget as <-. reflexivity.
  - exists df. rewrite app_nil_r. split; [reflexivity|]. split; [reflexivity|].
    intros c cells. now apply zero_rows_get.
Qed.

Lemma has_column_some (c : string) (df : DataFrame) :
  has_column c df = true -> exists cells, get_column c df = Some cells.
Proof.
  rewrite has_column_get. destruct (get_column c df) as [cells|]; [|discriminate].
  now exists cells.
Qed.

Lemma sort_values_desc_nil : sort_values_desc [] = [].
Proof. apply Permutation_nil, sort_values_desc_perm. Qed.

(** The aggregates of a frame without rows. *)
Lemma aggregates_without_rows (df : DataFrame) :
  (forall c cells, get_column c df = Some cells -> cells = []) ->
  has_column SALES_COLUMN df = true ->
  total_sales df = Ok 0
  /\ avg_sales df = Ok None
  /\ nrows df = O
  /\ (has_column DATE_COLUMN df = true -> sales_trend df = Ok [])
  /\ (has_column CATEGORY_COLUMN df = true -> category_sales df = Ok []).
Proof.
  intros Hcols Hs.
  destruct (has_column_some _ _ Hs) as (cells & Hc).
  pose proof (Hcols _ _ Hc) as ->.
  unfold total_sales, avg_sales, sales_trend, category_sales, column.
  rewrite Hc. cbn [rbind].
  split; [reflexivity|]. split; [reflexivity|].
  split; [now apply nrows_of_columns|]. split.
  - intros Hd. destruct (has_column_some _ _ Hd) as (dates & Hdt).
    pose proof (Hcols _ _ Hdt) as ->. rewrite Hdt. reflexivity.
  - intros Hk. destruct (has_column_some _ _ Hk) as (keys & Hkt).
    pose proof (Hcols _ _ Hkt) as ->. rewrite Hkt. cbn [rbind].
    change (groupby_sum [] []) with (@Ok (list (value * Z)) []). cbn [rbind].
    now rewrite sort_values_desc_nil.
Qed.

Lemma column_not_found_message (c : string) (e : exn) :
  column_not_found c <> processing_error e.
Proof. destruct e; discriminate. Qed.

Lemma empty_dataset_page_shows_nothing (df : DataFrame) :
  Forall shows_nothing (empty_dataset_page df).
Proof.
  unfold empty_dataset_page.
  destruct (has_column DATE_COLUMN df), (has_column SALES_COLUMN df),
           (has_column CATEGORY_COLUMN df); cbn [app];
    repeat (apply Forall_cons; [first [exact I | reflexivity
                                       | exact (column_not_found_message _)]|]);
    apply Forall_nil.
Qed.

(** C9.  On a sheet without rows the run ends normally and the page is
    [empty_dataset_page]: when the amount column is there, the total is
    0, the average is [NaN] (the missing marker, as there is nothing to
    average), the transaction count is 0, and every chart drawn plots an
    empty frame; nothing comes from the exception handler.  The
    aggregates of the normalized dataset are zero or empty. *)
Theorem run_on_empty_dataset (df : DataFrame) (page : list widget) :
  zero_rows df ->
  run df page = (page ++ empty_dataset_page df, Ok tt)
  /\ Forall shows_nothing (empty_dataset_page df)
  /\ exists page' df',
       normalization_step df page = (page', Ok df')
       /\ (has_column SALES_COLUMN df = true ->
           total_sales df' = Ok 0
           /\ avg_sales df' = Ok None
           /\ nrows df' = O
           /\ (has_column DATE_COLUMN df = true -> sales_trend df' = Ok [])
           /\ (has_column CATEGORY_COLUMN df = true -> category_sales df' = Ok [])).
Proof.
  intros Hzero.
  split; [|split; [apply empty_dataset_page_shows_nothing|]].
  - unfold run, try_except, dashboard, empty_dataset_page.
    rewrite (date_dtype_zero_rows df Hzero). cbn [resample_sales].
    rewrite !bind_st.
    destruct (normalization_step_zero_rows df
                (((page ++ [StSuccess "File uploaded and read successfully!"])
                  ++ [StSubheader "Raw Data Preview"]) ++ [StDataframe (head df)])
                Hzero)
      as (df' & Hstep & Hhas & Hcols).
    unfold bind at 1. rewrite Hstep. rewrite bind_st.
    rewrite !(Hhas _) by discriminate.
    destruct (has_column SALES_COLUMN df) eqn:Hs.
    + assert (Hs' : has_column SALES_COLUMN df' = true)
        by (rewrite Hhas by discriminate; exact Hs).
      destruct (aggregates_without_rows df' Hcols Hs')
        as (Htotal & Havg & Hrows & Htrend & Hcat).
      rewrite (Hhas DATE_COLUMN) in Htrend by discriminate.
      rewrite (Hhas CATEGORY_COLUMN) in Hcat by discriminate.
      rewrite Htotal, bind_lift_ok, Havg, bind_lift_ok, Hrows.
      rewrite !bind_st. clear Hstep.
      destruct (has_column DATE_COLUMN df);
        destruct (has_column CATEGORY_COLUMN df);
        rewrite ?bind_bind;
        rewrite ?(Htrend eq_refl), ?(Hcat eq_refl);
        rewrite ?bind_lift_ok, ?bind_bind, ?bind_st, ?bind_ret;
        rewrite ?(Hcat eq_refl), ?bind_lift_ok, ?bind_bind, ?bind_st;
        cbn [number_of_mean Z.of_nat]; unfold st, ret;
        rewrite <- ?app_assoc; reflexivity.
    + unfold st. rewrite <- !app_assoc.
      destruct (has_column DATE_COLUMN df); reflexivity.
  - destruct (normalization_step_zero_rows df page Hzero) as (df' & Hstep & Hhas & Hcols).
    eexists _, df'. split; [exact Hstep|].
    intros Hs.
    assert (Hs' : has_column SALES_COLUMN df' = true)
      by (rewrite Hhas by discriminate; exact Hs).
    destruct (aggregates_without_rows df' Hcols Hs')
      as (Htotal & Havg & Hrows & Htrend & Hcat).
    repeat split; try assumption.
    + intros Hd. apply Htrend. rewrite Hhas by discriminate. exact Hd.
    + intros Hk. apply Hcat. rewrite Hhas by discriminate. exact Hk.
Qed.

(** ** Well-formed frames stay well formed *)

Lemma columns_set_present (c : string) (cells : list value) (df : DataFrame) :
  has_column c df = true -> columns (set_column c cells df) = columns df.
Proof.
  unfold has_column, columns.
  induction df as [|[name old] rest IH]; cbn [map existsb set_column fst]; [discriminate|].
  destruct (String.eqb c name) eqn:E; cbn [orb map fst]; [reflexivity|].
  intros H. now rewrite IH.
Qed.

Lemma columns_set_absent (c : string) (cells : list value) (df : DataFrame) :
  has_column c df = false -> columns (set_column c cells df) = columns df ++ [c].
Proof.
  unfold has_column, columns.
  induction df as [|[name old] rest IH]; cbn [map existsb set_column fst app]; [reflexivity|].
  destruct (String.eqb c name) eqn:E; cbn [orb map fst]; [discriminate|].
  intros H. now rewrite IH.
Qed.

Lemma has_column_In (c : string) (df : DataFrame) :
  has_column c df = true <-> In c (columns df).
Proof.
  unfold has_column. rewrite existsb_exists. split.
  - intros (x & Hx & E). apply String.eqb_eq in E. now subst.
  - intros H. exists c. split; [exact H|apply String.eqb_refl].
Qed.

Lemma columns_set_NoDup (c : string) (cells : list value) (df : DataFrame) :
  NoDup (columns df) -> NoDup (columns (set_column c cells df)).
Proof.
  intros H. destruct (has_column c df) eqn:E.
  - now rewrite columns_set_present.
  - rewrite columns_set_absent by assumption.
    apply NoDup_app; [exact H|repeat constructor; intros []|].
    intros x Hx [<-|[]].
    apply has_column_In in Hx. congruence.
Qed.

Lemma columns_drop (c : string) (df : DataFrame) :
  columns (drop_column c df) = filter (fun name => negb (String.eqb c name)) (columns df).
Proof.
  unfold columns, drop_column.
  induction df as [|[name old] rest IH]; cbn [filter map fst]; [reflexivity|].
  destruct (String.eqb c name); cbn [negb map fst]; now rewrite IH.
Qed.

Lemma columns_rename (old new : string) (df : DataFrame) :
  columns (rename_column old new df) =
  map (fun name => if String.eqb old name then new else name) (columns df).
Proof.
  unfold columns, rename_column. rewrite !map_map. apply map_ext.
  intros [name cells]. cbn [fst]. now destruct (String.eqb old name).
Qed.

Lemma rename_NoDup (old new : string) (names : list string) :
  NoDup names -> ~ In new names ->
  NoDup (map (fun name => if String.eqb old name then new else name) names).
Proof.
  induction 1 as [|x names Hnin Hnd IH]; cbn [map]; intros Hnew; constructor.
  - intros Hin. apply in_map_iff in Hin as (y & Hy & Hyin).
    destruct (String.eqb old x) eqn:Ex, (String.eqb old y) eqn:Ey.
    + apply String.eqb_eq in Ex, Ey. subst. contradiction.
    + subst y. apply Hnew. now right.
    + subst x. apply Hnew. now left.
    + subst y. contradiction.
  - apply IH. intros Hin. apply Hnew. now right.
Qed.

Lemma columns_select (mask : list bool) (df : DataFrame) :
  columns (select_rows mask df) = columns df.
Proof. unfold columns, select_rows. rewrite map_map. now apply map_ext. Qed.

Lemma lengths_set (n : nat) (c : string) (cells : list value) (df : DataFrame) :
  length cells = n ->
  Forall (fun col => length (snd col) = n) df ->
  Forall (fun col => length (snd col) = n) (set_column c cells df).
Proof.
  intros Hlen. induction 1 as [|[name old] rest Hcol Hrest IH]; cbn [set_column].
  - now repeat constructor.
  - destruct (String.eqb c name); constructor; assumption.
Qed.

Lemma length_filter_mask {A : Type} (mask : list bool) (l l' : list A) :
  length l = length mask -> length l' = length mask ->
  length (filter_mask mask l) = length (filter_mask mask l').
Proof.
  revert l l'. induction mask as [|b mask IH]; intros [|x l] [|x' l'] H H';
    try discriminate; [reflexivity|].
  cbn [filter_mask]. injection H as H. injection H' as H'.
  destruct b; cbn [length]; [f_equal|]; now apply IH.
Qed.

Lemma lengths_nrows (n : nat) (df : DataFrame) :
  Forall (fun col => length (snd col) = n) df ->
  Forall (fun col => length (snd col) = nrows df) df.
Proof.
  intros H. destruct df as [|[name cells] rest]; [constructor|].
  cbn [nrows]. pose proof (Forall_inv H) as Hhd. cbn [snd] in Hhd.
  now rewrite Hhd.
Qed.

Lemma well_formed_get (df : DataFrame) (c : string) (cells : list value) :
  well_formed df -> get_column c df = Some cells -> length cells = nrows df.
Proof.
  intros [_ Hlen]. generalize (nrows df) as n, Hlen. clear Hlen. intros n.
  induction 1 as [|[name old] rest Hcol Hrest IH]; cbn [get_column]; [discriminate|].
  destruct (String.eqb c name); [|exact IH].
  intros [= <-]. exact Hcol.
Qed.

(** Normalization turns a well-formed sheet into a well-formed frame: the
    columns keep distinct names and one cell per remaining row. *)
Lemma normalize_dates_well_formed (df df' : DataFrame) :
  well_formed df -> normalize_dates df = Ok df' -> well_formed df'.
Proof.
  intros Hwf. pose proof Hwf as [Hnd Hlen].
  unfold normalize_dates, column.
  destruct (get_column DATE_COLUMN df) as [dates|] eqn:Hd; [|discriminate].
  cbn [rbind].
  pose proof (well_formed_get df _ _ Hwf Hd) as Hdates.
  set (n := nrows df) in *.
  set (df1 := set_column Corrected_Date (map excel_serial_to_date dates) df).
  set (df2 := drop_column DATE_COLUMN df1).
  set (df3 := rename_column Corrected_Date DATE_COLUMN df2).
  assert (Hlen1 : Forall (fun col => length (snd col) = n) df1).
  { apply lengths_set; [now rewrite length_map|exact Hlen]. }
  assert (Hnd1 : NoDup (columns df1)) by now apply columns_set_NoDup.
  assert (Hlen2 : Forall (fun col => length (snd col) = n) df2).
  { unfold df2, drop_column. rewrite Forall_forall in *. intros col Hin.
    apply filter_In in Hin as [Hin _]. now apply Hlen1. }
  assert (Hnd2 : NoDup (columns df2)).
  { unfold df2. rewrite columns_drop. now apply NoDup_filter. }
  assert (Hno2 : ~ In DATE_COLUMN (columns df2)).
  { unfold df2. rewrite columns_drop, filter_In, String.eqb_refl.
    intros [_ H]. discriminate. }
  assert (Hlen3 : Forall (fun col => length (snd col) = n) df3).
  { unfold df3, rename_column. rewrite Forall_forall in *. intros col Hin.
    apply in_map_iff in Hin as (col0 & <- & Hin0).
    destruct (String.eqb Corrected_Date (fst col0)); cbn [snd]; now apply Hlen2. }
  assert (Hnd3 : NoDup (columns df3)).
  { unfold df3. rewrite columns_rename. now apply rename_NoDup. }
  destruct (get_column DATE_COLUMN df3) as [corrected|] eqn:H3; [|discriminate].
  cbn [rbind]. intros [= <-].
  assert (Hcorr : length corrected = n).
  { pose proof (lengths_nrows n df3 Hlen3) as Hl3.
    rewrite (well_formed_get df3 _ _ (conj Hnd3 Hl3) H3).
    clear - Hlen3 H3. destruct df3 as [|[name cells] rest]; [discriminate|].
    inversion Hlen3; subst. assumption. }
  set (cells4 := map datetime_cell (to_datetime_coerce corrected)).
  set (df4 := set_column DATE_COLUMN cells4 df3).
  assert (Hc4 : length cells4 = n).
  { unfold cells4. now rewrite length_map, to_datetime_coerce_length. }
  assert (Hlen4 : Forall (fun col => length (snd col) = n) df4)
    by now apply lengths_set.
  assert (Hnd4 : NoDup (columns df4)) by now apply columns_set_NoDup.
  assert (H4 : get_column DATE_COLUMN df4 = Some cells4).
  { unfold df4. now rewrite get_column_set, String.eqb_refl. }
  unfold dropna_subset. rewrite H4.
  split.
  - now rewrite columns_select.
  - apply (lengths_nrows (length (filter_mask (notna_mask cells4) cells4))).
    unfold select_rows. rewrite Forall_forall in *. intros col Hin.
    apply in_map_iff in Hin as (col0 & <- & Hin0). cbn [snd].
    assert (Hm : length (notna_mask cells4) = n)
      by (unfold notna_mask; now rewrite length_map).
    apply length_filter_mask; rewrite Hm; [now apply Hlen4|exact Hc4].
Qed.

(** The groups come out in ascending key order. *)
Lemma key_leb_total (a b : value) : key_leb a b = true \/ key_leb b a = true.
Proof.
  destruct a, b; cbn [key_leb key_rank];
    try (left; reflexivity); try (right; reflexivity).
  - destruct (Z.leb_spec n n0); [now left|right; apply Z.leb_le; lia].
  - apply String.leb_total.
  - destruct (Z.leb_spec ns ns0); [now left|right; apply Z.leb_le; lia].
Qed.

Lemma insert_key_sorted (k : value) (l : list value) :
  Sorted (fun a b => key_leb a b = true) l ->
  Sorted (fun a b => key_leb a b = true) (insert_key k l).
Proof.
  induction 1 as [|h t Hs IH Hhd]; cbn [insert_key].
  - repeat constructor.
  - destruct (key_leb k h) eqn:E.
    + constructor; [now constructor|now constructor].
    + constructor; [exact IH|].
      destruct t as [|h' t']; cbn [insert_key].
      * constructor. destruct (key_leb_total k h); congruence.
      * destruct (key_leb k h'); constructor.
        -- destruct (key_leb_total k h); congruence.
        -- now inversion Hhd.
Qed.

Lemma group_keys_sorted (keys : list value) :
  Sorted (fun a b => key_leb a b = true) (group_keys keys).
Proof.
  unfold group_keys, sort_keys.
  induction (unique (filter (fun v => negb (isna v)) keys)) as [|k l IH];
    cbn [fold_right]; [constructor|now apply insert_key_sorted].
Qed.

(** ** More on [excel_serial_to_date] *)

Lemma excel_serial_to_date_number (n : Z) :
  excel_serial_to_date (VNum n) =
  if (1000 <? n) && (n <? 90000)
  then VTimestamp (to_datetime_ymd 1899 12 30 + n * ns_per_day)
  else VNum n.
Proof.
  unfold excel_serial_to_date. cbn [isna py_gt py_lt rbind to_timedelta_D].
  destruct (1000 <? n); cbn [rbind andb]; [|reflexivity].
  destruct (n <? 90000); reflexivity.
Qed.

(** X1.  Applying the repair twice gives what applying it once gives: a
    repaired cell is never taken for a serial number again. *)
Theorem excel_serial_to_date_idempotent (v : value) :
  excel_serial_to_date (excel_serial_to_date v) = excel_serial_to_date v.
Proof.
  destruct v; try reflexivity.
  rewrite excel_serial_to_date_number.
  destruct ((1000 <? n) && (n <? 90000)) eqn:E; [reflexivity|].
  rewrite excel_serial_to_date_number, E. reflexivity.
Qed.

(** X2.  The three outcomes of the repair.  A missing marker ([None],
    [NaN], [NaT]) gives [None]; a number strictly between 1000 and 90000
    gives a timestamp; every other cell (a number out of that range, a
    text, a timestamp) comes back as it is, the failed comparison of a
    text or timestamp with 1000 being caught by the [except] branch. *)
Theorem excel_serial_to_date_cases (v : value) :
  (isna v = true /\ excel_serial_to_date v = VNone)
  \/ (exists n, v = VNum n /\ 1000 < n < 90000
                /\ excel_serial_to_date v =
                   VTimestamp (to_datetime_ymd 1899 12 30 + n * ns_per_day))
  \/ (isna v = false /\ (forall n, v = VNum n -> n <= 1000 \/ 90000 <= n)
      /\ excel_serial_to_date v = v).
Proof.
  destruct v as [| | |n|s|t].
  - left. now split.
  - left. now split.
  - left. now split.
  - rewrite excel_serial_to_date_number.
    destruct ((1000 <? n) && (n <? 90000)) eqn:E.
    + right; left. exists n. apply andb_true_iff in E as [E1 E2].
      apply Z.ltb_lt in E1, E2. repeat split; assumption.
    + right; right. repeat split.
      intros n' [= <-]. apply andb_false_iff in E as [E|E];
        [apply Z.ltb_ge in E; now left | apply Z.ltb_ge in E; now right].
  - right; right. repeat split. intros n [=].
  - right; right. repeat split. intros n [=].
Qed.

(** X3.  On serial numbers the repair keeps order and distance: a later
    serial gives a later instant, as many days later as the serials are
    apart, and the serial can be read back from the instant. *)
Theorem excel_serial_to_date_order (v w : Z) :
  1000 < v -> v < w -> w < 90000 ->
  exists t u,
    excel_serial_to_date (VNum v) = VTimestamp t
    /\ excel_serial_to_date (VNum w) = VTimestamp u
    /\ t < u
    /\ u - t = (w - v) * ns_per_day
    /\ day_of_timestamp t - days_from_civil 1899 12 30 = v.
Proof.
  intros Hv Hvw Hw.
  rewrite !excel_serial_to_date_number.
  replace ((1000 <? v) && (v <? 90000)) with true
    by (symmetry; apply andb_true_iff; split; apply Z.ltb_lt; lia).
  replace ((1000 <? w) && (w <? 90000)) with true
    by (symmetry; apply andb_true_iff; split; apply Z.ltb_lt; lia).
  eexists _, _. split; [reflexivity|]. split; [reflexivity|].
  pose proof ns_per_day_pos as Hpos.
  split; [nia|]. split; [ring|].
  unfold to_datetime_ymd, timestamp_of_day, day_of_timestamp.
  replace (days_from_civil 1899 12 30 * ns_per_day + v * ns_per_day)
    with ((days_from_civil 1899 12 30 + v) * ns_per_day) by ring.
  rewrite Z.div_mul by lia. ring.
Qed.

(** ** The preview *)

Lemma columns_head (df : DataFrame) : columns (head df) = columns df.
Proof. unfold columns, head. rewrite map_map. now apply map_ext. Qed.

(** X4.  The preview keeps the columns of the sheet and shows its first
    five rows: a well-formed sheet gives a well-formed preview of
    [min 5 n] rows, and a sheet of five rows or fewer is shown whole. *)
Theorem head_first_five (df : DataFrame) :
  well_formed df ->
  well_formed (head df)
  /\ columns (head df) = columns df
  /\ nrows (head df) = Nat.min 5 (nrows df)
  /\ ((nrows df <= 5)%nat -> head df = df).
Proof.
  intros [Hnd Hlen].
  assert (Hrows : nrows (head df) = Nat.min 5 (nrows df)).
  { destruct df as [|[name cells] rest]; [reflexivity|].
    cbn [head map nrows fst snd]. apply length_firstn. }
  split; [|split; [apply columns_head|split; [exact Hrows|]]].
  - split; [now rewrite columns_head|].
    rewrite Hrows. unfold head. apply Forall_forall. intros col Hin.
    apply in_map_iff in Hin as (col0 & <- & Hin0). cbn [snd].
    rewrite length_firstn. rewrite Forall_forall in Hlen. now rewrite (Hlen col0 Hin0).
  - intros Hle. unfold head. rewrite <- (map_id df) at 2.
    apply map_ext_in. intros [name cells] Hin. cbn [fst snd]. f_equal.
    apply firstn_all2. rewrite Forall_forall in Hlen.
    specialize (Hlen _ Hin). cbn [snd] in Hlen. lia.
Qed.

(** ** The shape of the normalized frame *)

Lemma set_column_absent (c : string) (cells : list value) (df : DataFrame) :
  has_column c df = false -> set_column c cells df = df ++ [(c, cells)].
Proof.
  unfold has_column, columns.
  induction df as [|[name old] rest IH]; cbn [map existsb set_column fst app];
    [reflexivity|].
  destruct (String.eqb c name); cbn [orb]; [discriminate|].
  intros H. now rewrite IH.
Qed.

Lemma set_column_app_absent (c : string) (cells : list value) (l1 l2 : DataFrame) :
  has_column c l1 = false ->
  set_column c cells (l1 ++ l2) = l1 ++ set_column c cells l2.
Proof.
  unfold has_column, columns.
  induction l1 as [|[name old] rest IH]; cbn [map existsb set_column fst app];
    [reflexivity|].
  destruct (String.eqb c name); cbn [orb]; [discriminate|].
  intros H. now rewrite IH.
Qed.

Lemma get_column_app (c : string) (l1 l2 : DataFrame) :
  get_column c (l1 ++ l2) =
  match get_column c l1 with
  | Some cells => Some cells
  | None => get_column c l2
  end.
Proof.
  induction l1 as [|[name old] rest IH]; cbn [app get_column]; [reflexivity|].
  now destruct (String.eqb c name).
Qed.

Lemma drop_column_absent (c : string) (df : DataFrame) :
  has_column c df = false -> drop_column c df = df.
Proof.
  unfold has_column, columns, drop_column.
  induction df as [|[name old] rest IH]; cbn [map existsb filter fst]; [reflexivity|].
  destruct (String.eqb c name); cbn [orb negb]; [discriminate|].
  intros H. now rewrite IH.
Qed.

Lemma rename_column_absent (old new : string) (df : DataFrame) :
  has_column old df = false -> rename_column old new df = df.
Proof.
  unfold has_column, columns, rename_column.
  induction df as [|[name cells] rest IH]; cbn [map existsb fst]; [reflexivity|].
  destruct (String.eqb old name); cbn [orb]; [discriminate|].
  intros H. now rewrite IH.
Qed.

Lemma has_column_drop (c c' : string) (df : DataFrame) :
  has_column c (drop_column c' df) =
  if String.eqb c c' then false else has_column c df.
Proof.
  rewrite !has_column_get, get_column_drop. now destruct (String.eqb c c').
Qed.

Lemma has_column_select (c : string) (mask : list bool) (df : DataFrame) :
  has_column c (select_rows mask df) = has_column c df.
Proof.
  rewrite !has_column_get, get_column_select. now destruct (get_column c df).
Qed.

Lemma has_column_app (c : string) (l1 l2 : DataFrame) :
  has_column c (l1 ++ l2) = has_column c l1 || has_column c l2.
Proof. unfold has_column, columns. now rewrite map_app, existsb_app. Qed.

(** Without a [Corrected_Date] column in the sheet, the normalized frame is
    the sheet without its date column, then the converted dates as the
    last column, cut down to the rows whose date converted. *)
Lemma normalize_dates_explicit (df : DataFrame) (dates : list value) :
  has_column Corrected_Date df = false ->
  get_column DATE_COLUMN df = Some dates ->
  let converted := to_datetime_coerce (map excel_serial_to_date dates) in
  normalize_dates df =
  Ok (select_rows (map is_some converted) (drop_column DATE_COLUMN df)
      ++ [(DATE_COLUMN, map VTimestamp (somes converted))]).
Proof.
  intros Hcd Hd converted.
  set (repaired := map excel_serial_to_date dates) in *.
  set (rest := drop_column DATE_COLUMN df).
  assert (Hcd' : has_column Corrected_Date rest = false).
  { unfold rest. rewrite has_column_drop. exact Hcd. }
  assert (Hno : get_column DATE_COLUMN rest = None).
  { unfold rest. rewrite get_column_drop. now rewrite String.eqb_refl. }
  assert (Hno' : has_column DATE_COLUMN rest = false).
  { now rewrite has_column_get, Hno. }
  assert (H1 : set_column Corrected_Date repaired df = df ++ [(Corrected_Date, repaired)])
    by now apply set_column_absent.
  assert (H2 : drop_column DATE_COLUMN (df ++ [(Corrected_Date, repaired)]) =
               rest ++ [(Corrected_Date, repaired)]).
  { unfold drop_column. rewrite filter_app. reflexivity. }
  assert (H3 : rename_column Corrected_Date DATE_COLUMN
                 (rest ++ [(Corrected_Date, repaired)]) =
               rest ++ [(DATE_COLUMN, repaired)]).
  { unfold rename_column. rewrite map_app.
    fold (rename_column Corrected_Date DATE_COLUMN rest).
    rewrite (rename_column_absent _ _ _ Hcd'). reflexivity. }
  assert (H4 : get_column DATE_COLUMN (rest ++ [(DATE_COLUMN, repaired)]) = Some repaired).
  { rewrite get_column_app, Hno. cbn [get_column]. now rewrite String.eqb_refl. }
  unfold normalize_dates, column. rewrite Hd. cbn [rbind]. fold repaired.
  rewrite H1, H2, H3, H4. cbn [rbind]. fold converted.
  rewrite (set_column_app_absent _ _ _ _ Hno').
  cbn [set_column]. rewrite String.eqb_refl.
  unfold dropna_subset. rewrite get_column_app, Hno. cbn [get_column].
  rewrite String.eqb_refl.
  unfold select_rows at 1. rewrite map_app.
  fold (select_rows (notna_mask (map datetime_cell converted)) rest).
  cbn [map fst snd]. rewrite filter_mask_notna_datetime, notna_mask_datetime.
  reflexivity.
Qed.

(** X5.  The date column moves to the end.  For a sheet without a
    [Corrected_Date] column, the normalized frame has the other columns in
    their order, then [Order_Date] last; each column is cut down to the
    rows whose date converted. *)
Theorem normalize_dates_moves_date_last (df : DataFrame) (dates : list value) :
  has_column Corrected_Date df = false ->
  get_column DATE_COLUMN df = Some dates ->
  let converted := to_datetime_coerce (map excel_serial_to_date dates) in
  exists df',
    normalize_dates df = Ok df'
    /\ df' = select_rows (map is_some converted) (drop_column DATE_COLUMN df)
             ++ [(DATE_COLUMN, map VTimestamp (somes converted))]
    /\ columns df' =
       filter (fun name => negb (String.eqb DATE_COLUMN name)) (columns df)
       ++ [DATE_COLUMN].
Proof.
  intros Hcd Hd converted. eexists. split; [|split; [reflexivity|]].
  - now apply normalize_dates_explicit.
  - unfold columns at 1. rewrite map_app.
    fold (columns (select_rows (map is_some converted) (drop_column DATE_COLUMN df))).
    now rewrite columns_select, columns_drop.
Qed.

Lemma length_somes_le (l : list (option Z)) : (length (somes l) <= length l)%nat.
Proof. induction l as [|[t|] l IH]; cbn [somes length]; lia. Qed.

(** X6.  Normalization keeps a well-formed sheet well formed and never
    adds a row: the frame it returns has distinct column names and one
    cell per column for each row whose date converted, no more rows than
    the sheet had. *)
Theorem normalize_dates_keeps_shape (df : DataFrame) (dates : list value) :
  well_formed df ->
  get_column DATE_COLUMN df = Some dates ->
  exists df',
    normalize_dates df = Ok df'
    /\ well_formed df'
    /\ nrows df' =
       length (somes (to_datetime_coerce (map excel_serial_to_date dates)))
    /\ (nrows df' <= nrows df)%nat.
Proof.
  intros Hwf Hd.
  destruct (normalize_dates_columns df dates Hd) as (df' & Hn & Hdate & _).
  pose proof (normalize_dates_well_formed df df' Hwf Hn) as Hwf'.
  pose proof (well_formed_get df' _ _ Hwf' Hdate) as Hrows.
  rewrite length_map in Hrows.
  exists df'. split; [exact Hn|]. split; [exact Hwf'|]. split; [now symmetry|].
  rewrite <- Hrows.
  etransitivity; [apply length_somes_le|].
  rewrite to_datetime_coerce_length, length_map.
  now rewrite (well_formed_get df _ _ Hwf Hd).
Qed.

(** ** Normalizing twice *)

Lemma filter_mask_all_true {A B : Type} (ts : list B) (l : list A) :
  length l = length ts -> filter_mask (map (fun _ => true) ts) l = l.
Proof.
  revert l. induction ts as [|t ts IH]; intros [|x l] H; try discriminate;
    [reflexivity|].
  cbn [map filter_mask]. f_equal. apply IH. now injection H.
Qed.

Lemma somes_map_Some (ts : list Z) : somes (map Some ts) = ts.
Proof. induction ts as [|t ts IH]; cbn [map somes]; [reflexivity|now rewrite IH]. Qed.

(** X7.  Normalizing a normalized frame changes nothing.  This holds for a
    well-formed sheet without a [Corrected_Date] column and a conversion
    that leaves a column of timestamps as it is. *)
Theorem normalize_dates_idempotent (df df' : DataFrame) :
  (forall ts, to_datetime_coerce (map VTimestamp ts) = map Some ts) ->
  well_formed df ->
  has_column Corrected_Date df = false ->
  normalize_dates df = Ok df' ->
  normalize_dates df' = Ok df'.
Proof.
  intros Hkeep Hwf Hcd Hn.
  destruct (get_column DATE_COLUMN df) as [dates|] eqn:Hd.
  2:{ unfold normalize_dates, column in Hn. rewrite Hd in Hn. discriminate. }
  pose proof (normalize_dates_explicit df dates Hcd Hd) as He. cbv zeta in He.
  pose proof (well_formed_get df _ _ Hwf Hd) as Hdl.
  set (converted := to_datetime_coerce (map excel_serial_to_date dates)) in *.
  set (ts := somes converted) in *.
  set (A := select_rows (map is_some converted) (drop_column DATE_COLUMN df)) in *.
  rewrite He in Hn. injection Hn as <-.
  assert (HcdA : has_column Corrected_Date A = false).
  { unfold A. now rewrite has_column_select, has_column_drop. }
  assert (HnoA : has_column DATE_COLUMN A = false).
  { unfold A. rewrite has_column_select, has_column_drop. now rewrite String.eqb_refl. }
  assert (Hcd' : has_column Corrected_Date (A ++ [(DATE_COLUMN, map VTimestamp ts)]) = false).
  { rewrite has_column_app, HcdA. reflexivity. }
  assert (Hd' : get_column DATE_COLUMN (A ++ [(DATE_COLUMN, map VTimestamp ts)]) =
                Some (map VTimestamp ts)).
  { rewrite get_column_app. rewrite has_column_get in HnoA.
    destruct (get_column DATE_COLUMN A); [discriminate|].
    cbn [get_column]. now rewrite String.eqb_refl. }
  rewrite (normalize_dates_explicit _ _ Hcd' Hd'). cbv zeta.
  rewrite map_map.
  rewrite (map_ext (fun t => excel_serial_to_date (VTimestamp t)) VTimestamp)
    by reflexivity.
  rewrite Hkeep, somes_map_Some, map_map. cbn [is_some].
  unfold drop_column at 1. rewrite filter_app.
  fold (drop_column DATE_COLUMN A). rewrite (drop_column_absent _ _ HnoA).
  cbn [filter fst]. rewrite String.eqb_refl. cbn [negb]. rewrite app_nil_r.
  enough (Hsel : select_rows (map (fun _ : Z => true) ts) A = A) by now rewrite Hsel.
  unfold select_rows. rewrite <- (map_id A) at 2.
  apply map_ext_in. intros [name cells] Hin. cbn [fst snd]. f_equal.
  apply filter_mask_all_true.
  unfold A, select_rows in Hin.
  apply in_map_iff in Hin as ([name0 cells0] & [= <- <-] & Hin0).
  unfold drop_column in Hin0. apply filter_In in Hin0 as [Hin0 _].
  destruct Hwf as [_ Hlen]. rewrite Forall_forall in Hlen.
  specialize (Hlen _ Hin0). cbn [snd] in Hlen.
  unfold ts. symmetry. apply length_somes_filter_mask.
  unfold converted. now rewrite to_datetime_coerce_length, length_map, Hdl, Hlen.
Qed.

(** ** More on the monthly trend *)

Lemma sum_indicator_Z (x a : Z) (ks : list Z) :
  NoDup ks ->
  fold_right Z.add 0 (map (fun k => if x =? k then a else 0) ks) =
  if existsb (fun k => x =? k) ks then a else 0.
Proof.
  induction 1 as [|k ks Hnin Hnd IH]; cbn [map fold_right existsb]; [reflexivity|].
  rewrite IH. destruct (x =? k) eqn:E; cbn [orb]; [|lia].
  apply Z.eqb_eq in E. subst k.
  destruct (existsb (fun k => x =? k) ks) eqn:Ex; [|lia].
  apply existsb_exists in Ex as (k & Hk & E). apply Z.eqb_eq in E.
  subst k. contradiction.
Qed.

Lemma month_cells_cons (k t : Z) (c : value) (index : list Z) (cells : list value) :
  month_cells k (t :: index) (c :: cells) =
  if month_index t =? k then c :: month_cells k index cells
  else month_cells k index cells.
Proof.
  unfold month_cells. cbn [combine filter fst].
  now destruct (month_index t =? k).
Qed.

(** Every row lies in exactly one month. *)
Lemma months_partition (ks index : list Z) (cells : list value) :
  NoDup ks ->
  (forall t, In t index -> In (month_index t) ks) ->
  length index = length cells ->
  fold_right Z.add 0 (map (fun k => exact_sum (month_cells k index cells)) ks) =
  exact_sum cells.
Proof.
  intros Hnd. revert cells.
  induction index as [|t index IH]; intros [|c cells] Hcover Hlen; try discriminate.
  - now apply sum_map_zero.
  - rewrite (map_ext _ (fun k => (if month_index t =? k then amount c else 0)
                                 + exact_sum (month_cells k index cells))).
    2:{ intros k. rewrite month_cells_cons.
        destruct (month_index t =? k); [reflexivity|lia]. }
    rewrite sum_map_add, sum_indicator_Z by assumption.
    rewrite IH; [|intros t' Ht'; apply Hcover; now right|now injection Hlen].
    replace (existsb (fun k => month_index t =? k) ks) with true; [reflexivity|].
    symmetry. apply existsb_exists. exists (month_index t).
    split; [apply Hcover; now left|apply Z.eqb_refl].
Qed.

Lemma StronglySorted_lt_NoDup (ks : list Z) : StronglySorted Z.lt ks -> NoDup ks.
Proof.
  induction 1 as [|k ks Hs IH Hall]; constructor; [|exact IH].
  intros Hin. rewrite Forall_forall in Hall. specialize (Hall _ Hin). lia.
Qed.

(** X8.  The monthly totals add up to the total sales.  On a frame whose
    dates are instants, one per amount cell, and whose amounts are whole
    numbers (an int64 column), the int64 sum of the totals of the trend is
    [total_sales]: every row counts in exactly one month. *)
Theorem sales_trend_sums_to_total (df : DataFrame) (index : list Z) (cells : list value) :
  get_column DATE_COLUMN df = Some (map VTimestamp index) ->
  get_column SALES_COLUMN df = Some cells ->
  length index = length cells ->
  int64_column cells = true ->
  exists trend,
    sales_trend df = Ok trend /\ total_sales df = Ok (trend_sum trend).
Proof.
  intros Hd Hc Hlen Hint.
  pose proof (int64_column_numeric cells Hint) as Hnum.
  destruct (resample_M_sum_numeric index cells Hnum) as (ks & Hres & Hsorted & Hcover & _).
  eexists. split.
  - unfold sales_trend, column. rewrite Hd, Hc. cbn [rbind].
    rewrite datetime_index_timestamps. cbn [rbind]. exact Hres.
  - unfold total_sales, column. rewrite Hc. cbn [rbind].
    unfold series_sum. rewrite Hnum.
    f_equal. unfold trend_sum. rewrite map_map. cbn [snd].
    rewrite (wrap64_sum_wrapped (fun k => exact_sum (month_cells k index cells))).
    f_equal. symmetry. apply months_partition; try assumption.
    now apply StronglySorted_lt_NoDup.
Qed.

Lemma resample_M_sum_months (t0 : Z) (ts : list Z) (cells : list value) :
  numeric_column cells = true ->
  resample_M_sum (t0 :: ts) cells =
  Ok (map (fun k => (month_end k,
                     wrap64 (exact_sum (month_cells k (t0 :: ts) cells))))
          (months (month_index (fold_right Z.min t0 ts))
                  (month_index (fold_right Z.max t0 ts)))).
Proof.
  intros Hnum. unfold resample_M_sum. rewrite Hnum. f_equal.
  apply map_ext. intros k. now rewrite bin_cells_month_cells.
Qed.

Lemma fold_min_In (t0 : Z) (ts : list Z) : In (fold_right Z.min t0 ts) (t0 :: ts).
Proof.
  induction ts as [|a ts IH]; cbn [fold_right]; [now left|].
  destruct (Z.min_spec a (fold_right Z.min t0 ts)) as [[_ ->] | [_ ->]].
  - right. now left.
  - destruct IH as [IH|IH]; [now left|right; now right].
Qed.

Lemma fold_max_In (t0 : Z) (ts : list Z) : In (fold_right Z.max t0 ts) (t0 :: ts).
Proof.
  induction ts as [|a ts IH]; cbn [fold_right]; [now left|].
  destruct (Z.max_spec a (fold_right Z.max t0 ts)) as [[_ ->] | [_ ->]].
  - destruct IH as [IH|IH]; [now left|right; now right].
  - right. now left.
Qed.

Lemma month_cells_none (k : Z) (index : list Z) (cells : list value) :
  (forall t, In t index -> month_index t <> k) -> month_cells k index cells = [].
Proof.
  revert cells. induction index as [|t index IH]; intros [|c cells] H;
    try reflexivity.
  rewrite month_cells_cons.
  replace (month_index t =? k) with false
    by (symmetry; apply Z.eqb_neq, H; now left).
  apply IH. intros t' Ht'. apply H. now right.
Qed.

(** X9.  The trend leaves no month out.  On a frame with at least one row,
    whose dates are instants, the trend has one row for every month from
    the month of the earliest date to the month of the latest, in order:
    the month of every row of the frame is one of them, and a month in
    between with no row appears with total 0. *)
Theorem sales_trend_consecutive_months
        (df : DataFrame) (t0 : Z) (ts : list Z) (cells : list value) :
  get_column DATE_COLUMN df = Some (map VTimestamp (t0 :: ts)) ->
  get_column SALES_COLUMN df = Some cells ->
  numeric_column cells = true ->
  exists trend earliest latest n,
    sales_trend df = Ok trend
    /\ In earliest (t0 :: ts) /\ In latest (t0 :: ts)
    /\ (forall t, In t (t0 :: ts) -> earliest <= t <= latest)
    /\ month_index latest = month_index earliest + Z.of_nat n
    /\ map fst trend =
         map (fun i => month_end (month_index earliest + Z.of_nat i)) (seq 0 (S n))
    /\ (forall t, In t (t0 :: ts) ->
          exists i, (i <= n)%nat /\ month_index t = month_index earliest + Z.of_nat i)
    /\ (forall label total, In (label, total) trend ->
          (forall t, In t (t0 :: ts) -> month_index t <> month_index label) ->
          total = 0).
Proof.
  intros Hd Hc Hnum.
  set (lo := fold_right Z.min t0 ts). set (hi := fold_right Z.max t0 ts).
  assert (Hbounds : forall t, In t (t0 :: ts) -> lo <= t <= hi)
    by (intros t Ht; apply fold_min_max_bounds, Ht).
  assert (Hlohi : month_index lo <= month_index hi).
  { apply month_index_mono.
    pose proof (Hbounds t0 (or_introl eq_refl)). lia. }
  exists (map (fun k => (month_end k,
                         wrap64 (exact_sum (month_cells k (t0 :: ts) cells))))
              (months (month_index lo) (month_index hi))),
         lo, hi, (Z.to_nat (month_index hi - month_index lo)).
  split; [|split; [|split; [|split; [|split; [|split; [|split]]]]]].
  - unfold sales_trend, column. rewrite Hd, Hc. cbn [rbind].
    rewrite datetime_index_timestamps. cbn [rbind].
    now apply resample_M_sum_months.
  - apply fold_min_In.
  - apply fold_max_In.
  - exact Hbounds.
  - lia.
  - rewrite map_map. cbn [fst]. unfold months. rewrite map_map.
    replace (Z.to_nat (month_index hi - month_index lo + 1))
      with (S (Z.to_nat (month_index hi - month_index lo))) by lia.
    reflexivity.
  - intros t Ht. destruct (Hbounds t Ht) as [Hlo Hhi].
    apply month_index_mono in Hlo. apply month_index_mono in Hhi.
    exists (Z.to_nat (month_index t - month_index lo)). split; lia.
  - intros label total Hin Hnone.
    apply in_map_iff in Hin as (k & [= <- <-] & _).
    rewrite month_index_month_end in Hnone.
    now rewrite (month_cells_none k _ _ Hnone).
Qed.

(** ** The page of a run *)

Lemma normalization_step_normalized (df : DataFrame) (page : list widget) :
  normalization_step df page = (page ++ info_widgets df, Ok (normalized df)).
Proof.
  unfold normalization_step, normalized, info_widgets.
  destruct (has_column DATE_COLUMN df) eqn:Hhas.
  - rewrite has_column_get in Hhas.
    destruct (get_column DATE_COLUMN df) as [dates|] eqn:Hd; [|discriminate].
    destruct (normalize_dates_columns df dates Hd) as (df' & Hn & _).
    rewrite bind_st, Hn. reflexivity.
  - unfold ret. now rewrite app_nil_r.
Qed.

Lemma has_column_normalized (c : string) (df : DataFrame) :
  c <> Corrected_Date -> has_column c (normalized df) = has_column c df.
Proof.
  intros Hc. unfold normalized.
  destruct (has_column DATE_COLUMN df) eqn:Hhas; [|reflexivity].
  pose proof Hhas as Hhas'. rewrite has_column_get in Hhas'.
  destruct (get_column DATE_COLUMN df) as [dates|] eqn:Hd; [|discriminate].
  destruct (normalize_dates_columns df dates Hd) as (df' & Hn & Hdate & _ & Hframe).
  rewrite Hn. rewrite !has_column_get.
  destruct (String.eqb c DATE_COLUMN) eqn:E.
  - apply String.eqb_eq in E. subst c. now rewrite Hdate, Hd.
  - apply String.eqb_neq in E. rewrite (Hframe c E Hc).
    now destruct (get_column c df).
Qed.

Lemma normalized_dates_are_instants (df : DataFrame) (cells : list value) :
  get_column DATE_COLUMN (normalized df) = Some cells ->
  exists index, cells = map VTimestamp index.
Proof.
  unfold normalized.
  destruct (has_column DATE_COLUMN df) eqn:Hhas.
  - pose proof Hhas as Hhas'. rewrite has_column_get in Hhas'.
    destruct (get_column DATE_COLUMN df) as [dates|] eqn:Hd; [|discriminate].
    destruct (normalize_dates_columns df dates Hd) as (df' & Hn & Hdate & _).
    rewrite Hn, Hdate. intros [= <-]. eexists. reflexivity.
  - rewrite has_column_get in Hhas. intros H. rewrite H in Hhas. discriminate.
Qed.

Lemma run_page_without_sales (df : DataFrame) (page : list widget) :
  has_column SALES_COLUMN df = false ->
  run df page =
  (page ++ preview_widgets df ++ info_widgets df
        ++ [header_widget; StError (column_not_found SALES_COLUMN)], Ok tt).
Proof.
  intros Habs. unfold run, try_except, dashboard. rewrite !bind_st.
  unfold bind at 1. rewrite normalization_step_normalized, bind_st.
  rewrite has_column_normalized by discriminate. rewrite Habs.
  unfold st, preview_widgets, header_widget. rewrite <- !app_assoc. reflexivity.
Qed.

Lemma run_page_not_numeric (df : DataFrame) (page : list widget) (cells : list value) :
  get_column SALES_COLUMN (normalized df) = Some cells ->
  numeric_column cells = false ->
  run df page =
  (page ++ preview_widgets df ++ info_widgets df
        ++ [header_widget; StError (processing_error TypeError)], Ok tt).
Proof.
  intros Hc Hnum. unfold run, try_except, dashboard. rewrite !bind_st.
  unfold bind at 1. rewrite normalization_step_normalized, bind_st.
  rewrite (has_column_get SALES_COLUMN (normalized df)), Hc.
  assert (Htotal : total_sales (normalized df) = Raise TypeError).
  { unfold total_sales, column. rewrite Hc. cbn [rbind].
    unfold series_sum. now rewrite Hnum. }
  unfold bind at 1, lift at 1. rewrite Htotal.
  unfold st, preview_widgets, header_widget. rewrite <- !app_assoc. reflexivity.
Qed.

Lemma run_page_numeric (df : DataFrame) (page : list widget) (cells : list value) :
  get_column SALES_COLUMN (normalized df) = Some cells ->
  numeric_column cells = true ->
  exists total avg rest trend_part category_part,
    total_sales (normalized df) = Ok total
    /\ avg_sales (normalized df) = Ok avg
    /\ run df page =
       (page ++ preview_widgets df ++ info_widgets df
             ++ [header_widget;
                 StMetric "Total Sales" (NInt total);
                 StMetric "Average Sale Value" (number_of_mean avg);
                 StMetric "Total Transactions" (NInt (Z.of_nat (nrows (normalized df))))]
             ++ rest, Ok tt)
    /\ match date_dtype df with
       | datetime64_dtype => rest = trend_part ++ category_part
       | object_dtype => rest = [StError (processing_error TypeError)]
       end
    /\ (if has_column DATE_COLUMN df
        then exists trend, sales_trend (normalized df) = Ok trend
                           /\ trend_part = [StLineChart trend]
        else trend_part = [])
    /\ (if has_column CATEGORY_COLUMN df
        then match category_sales (normalized df) with
             | Ok by_category =>
                 category_part = [StBarChart by_category; StPieChart by_category]
             | Raise e => category_part = [StError (processing_error e)]
             end
        else category_part = []).
Proof.
  intros Hc Hnum.
  assert (Htotal : total_sales (normalized df) = Ok (wrap64 (exact_sum cells))).
  { unfold total_sales, column. rewrite Hc. cbn [rbind].
    unfold series_sum. now rewrite Hnum. }
  assert (Havg : exists avg, avg_sales (normalized df) = Ok avg).
  { unfold avg_sales, column. rewrite Hc. cbn [rbind].
    unfold series_mean. rewrite Hnum. eexists. reflexivity. }
  destruct Havg as (avg & Havg).
  assert (Htrend : has_column DATE_COLUMN df = true ->
                   exists trend, sales_trend (normalized df) = Ok trend).
  { intros Hd. rewrite <- (has_column_normalized DATE_COLUMN df) in Hd by discriminate.
    destruct (has_column_some _ _ Hd) as (dates & Hdates).
    destruct (normalized_dates_are_instants df dates Hdates) as (index & ->).
    destruct (resample_M_sum_numeric index cells Hnum) as (ks & Hres & _).
    eexists. unfold sales_trend, column. rewrite Hdates, Hc. cbn [rbind].
    rewrite datetime_index_timestamps. cbn [rbind]. exact Hres. }
  set (trend_part := if has_column DATE_COLUMN df
                     then match sales_trend (normalized df) with
                          | Ok trend => [StLineChart trend]
                          | Raise _ => []
                          end
                     else []).
  set (category_part :=
         if has_column CATEGORY_COLUMN df
         then match category_sales (normalized df) with
              | Ok by_category => [StBarChart by_category; StPieChart by_category]
              | Raise e => [StError (processing_error e)]
              end
         else []).
  exists (wrap64 (exact_sum cells)), avg.
  exists (match date_dtype df with
          | datetime64_dtype => trend_part ++ category_part
          | object_dtype => [StError (processing_error TypeError)]
          end), trend_part, category_part.
  split; [exact Htotal|]. split; [exact Havg|]. split; [|split; [|split]].
  - unfold run, try_except, dashboard. rewrite !bind_st.
    unfold bind at 1. rewrite normalization_step_normalized, bind_st.
    rewrite (has_column_get SALES_COLUMN (normalized df)), Hc.
    rewrite Htotal, bind_lift_ok, Havg, bind_lift_ok, !bind_st.
    rewrite !has_column_normalized by discriminate.
    subst trend_part category_part.
    destruct (has_column DATE_COLUMN df) eqn:Hd.
    + destruct (Htrend eq_refl) as (trend & Ht). rewrite Ht.
      destruct (date_dtype df); cbn [resample_sales]; rewrite ?Ht;
        destruct (has_column CATEGORY_COLUMN df) eqn:Hk;
        try destruct (category_sales (normalized df)) as [by_category|e];
        rewrite ?bind_bind, ?bind_lift_ok, ?bind_bind, ?bind_st, ?bind_ret;
        rewrite ?bind_lift_ok, ?bind_bind, ?bind_st;
        unfold bind, lift, st, ret, preview_widgets, header_widget;
        rewrite <- ?app_assoc; cbn [app]; rewrite ?app_nil_r; reflexivity.
    + rewrite (date_dtype_absent df Hd).
      destruct (has_column CATEGORY_COLUMN df) eqn:Hk;
        try destruct (category_sales (normalized df)) as [by_category|e];
        rewrite ?bind_bind, ?bind_lift_ok, ?bind_bind, ?bind_st, ?bind_ret;
        rewrite ?bind_lift_ok, ?bind_bind, ?bind_st;
        unfold bind, lift, st, ret, preview_widgets, header_widget;
        rewrite <- ?app_assoc; cbn [app]; rewrite ?app_nil_r; reflexivity.
  - now destruct (date_dtype df).
  - subst trend_part. destruct (has_column DATE_COLUMN df); [|reflexivity].
    destruct (Htrend eq_refl) as (trend & Ht). rewrite Ht. now exists trend.
  - subst category_part. destruct (has_column CATEGORY_COLUMN df); [|reflexivity].
    now destruct (category_sales (normalized df)).
Qed.

(** X11.  With a numeric amount column, dates that convert to a datetime
    column and category labels that can be put in order, the run succeeds.
    The page shows the preview, the three metrics computed from the
    normalized frame, a line chart exactly when the sheet has a date
    column, and a bar chart and a pie chart exactly when it has a category
    column, both drawn from the same category totals; the exception
    handler adds nothing. *)
Theorem run_with_numeric_sales
        (df : DataFrame) (page : list widget) (cells : list value) :
  get_column SALES_COLUMN (normalized df) = Some cells ->
  numeric_column cells = true ->
  date_dtype df = datetime64_dtype ->
  (forall keys, get_column CATEGORY_COLUMN (normalized df) = Some keys ->
     orderable keys = true) ->
  exists total avg trend_part category_part,
    total_sales (normalized df) = Ok total
    /\ avg_sales (normalized df) = Ok avg
    /\ run df page =
       (page ++ preview_widgets df ++ info_widgets df
             ++ [header_widget;
                 StMetric "Total Sales" (NInt total);
                 StMetric "Average Sale Value" (number_of_mean avg);
                 StMetric "Total Transactions" (NInt (Z.of_nat (nrows (normalized df))))]
             ++ trend_part ++ category_part, Ok tt)
    /\ (if has_column DATE_COLUMN df
        then exists trend, sales_trend (normalized df) = Ok trend
                           /\ trend_part = [StLineChart trend]
        else trend_part = [])
    /\ (if has_column CATEGORY_COLUMN df
        then exists by_category, category_sales (normalized df) = Ok by_category
                                 /\ category_part = [StBarChart by_category;
                                                     StPieChart by_category]
        else category_part = []).
Proof.
  intros Hc Hnum Hdtype Hord.
  destruct (run_page_numeric df page cells Hc Hnum)
    as (total & avg & rest & trend_part & category_part
        & Ht & Ha & Hrun & Hrest & Htrend & Hcat).
  rewrite Hdtype in Hrest. subst rest.
  exists total, avg, trend_part, category_part.
  split; [exact Ht|]. split; [exact Ha|]. split; [exact Hrun|].
  split; [exact Htrend|].
  destruct (has_column CATEGORY_COLUMN df) eqn:Hk; [|exact Hcat].
  rewrite <- (has_column_normalized CATEGORY_COLUMN df) in Hk by discriminate.
  destruct (has_column_some _ _ Hk) as (keys & Hkeys).
  assert (Hok : exists by_category, category_sales (normalized df) = Ok by_category).
  { eexists. unfold category_sales, column. rewrite Hkeys, Hc. cbn [rbind].
    rewrite (groupby_sum_numeric _ _ Hnum (Hord keys Hkeys)). cbn [rbind].
    reflexivity. }
  destruct Hok as (by_category & Hb). rewrite Hb in Hcat.
  exists by_category. split; [exact Hb|exact Hcat].
Qed.

(** X16.  Dates that the conversion leaves in a column of dtype [object]
    end the run at the line chart.  The amounts being numeric, the three
    metrics are shown, computed from the normalized frame; then line 82
    raises, the outer handler catches the exception, and the page ends
    with the message of the handler: no chart is shown. *)
Theorem run_with_object_dates
        (df : DataFrame) (page : list widget) (cells : list value) :
  get_column SALES_COLUMN (normalized df) = Some cells ->
  numeric_column cells = true ->
  date_dtype df = object_dtype ->
  exists total avg msg,
    total_sales (normalized df) = Ok total
    /\ avg_sales (normalized df) = Ok avg
    /\ run df page =
       (page ++ preview_widgets df ++ info_widgets df
             ++ [header_widget;
                 StMetric "Total Sales" (NInt total);
                 StMetric "Average Sale Value" (number_of_mean avg);
                 StMetric "Total Transactions" (NInt (Z.of_nat (nrows (normalized df))));
                 StError msg], Ok tt)
    /\ String.prefix "An error occurred during file processing: " msg = true.
Proof.
  intros Hc Hnum Hdtype.
  destruct (run_page_numeric df page cells Hc Hnum)
    as (total & avg & rest & trend_part & category_part
        & Ht & Ha & Hrun & Hrest & _).
  rewrite Hdtype in Hrest. subst rest.
  exists total, avg, (processing_error TypeError).
  split; [exact Ht|]. split; [exact Ha|]. split; [exact Hrun|reflexivity].
Qed.

(** X12.  A text or a timestamp left in the amount column after
    normalization makes the script fail before it shows a metric: the outer
    handler catches the exception, and the page ends, after the preview
    and the header, with the message of the handler; no metric and no
    chart is shown. *)
Theorem run_with_text_in_sales (df : DataFrame) (page : list widget) (cells : list value) :
  get_column SALES_COLUMN (normalized df) = Some cells ->
  numeric_column cells = false ->
  exists msg,
    run df page =
      (page ++ preview_widgets df ++ info_widgets df
            ++ [header_widget; StError msg], Ok tt)
    /\ String.prefix "An error occurred during file processing: " msg = true.
Proof.
  intros Hc Hnum. exists (processing_error TypeError).
  split; [exact (run_page_not_numeric df page cells Hc Hnum)|reflexivity].
Qed.

(** X13.  No exception leaves the script and nothing on the page is taken
    back: whatever the sheet, the run ends normally, having added to the
    page first the success notice and the preview of the sheet as it was
    read, then the rest. *)
Theorem run_never_raises (df : DataFrame) (page : list widget) :
  exists shown, run df page = (page ++ preview_widgets df ++ shown, Ok tt).
Proof.
  destruct (get_column SALES_COLUMN (normalized df)) as [cells|] eqn:Hc.
  - destruct (numeric_column cells) eqn:Hnum.
    + destruct (run_page_numeric df page cells Hc Hnum)
        as (total & avg & rest & tp & cp & _ & _ & Hrun & _).
      eexists. exact Hrun.
    + eexists. exact (run_page_not_numeric df page cells Hc Hnum).
  - eexists. apply run_page_without_sales.
    rewrite <- (has_column_normalized SALES_COLUMN df) by discriminate.
    now rewrite has_column_get, Hc.
Qed.

(** X14.  A sale whose date does not convert is not counted.  The total of
    the first metric is the int64 sum of the amounts of the rows whose
    repaired date converts to an instant; the other rows are gone before
    the sum is taken. *)
Theorem total_sales_after_normalization
        (df : DataFrame) (dates cells : list value) :
  get_column DATE_COLUMN df = Some dates ->
  get_column SALES_COLUMN df = Some cells ->
  numeric_column cells = true ->
  let kept := map is_some (to_datetime_coerce (map excel_serial_to_date dates)) in
  get_column SALES_COLUMN (normalized df) = Some (filter_mask kept cells)
  /\ total_sales (normalized df) = Ok (wrap64 (exact_sum (filter_mask kept cells))).
Proof.
  intros Hd Hc Hnum kept.
  assert (Hget : get_column SALES_COLUMN (normalized df) = Some (filter_mask kept cells)).
  { unfold normalized. rewrite has_column_get, Hd.
    destruct (normalize_dates_columns df dates Hd) as (df' & Hn & _ & _ & Hframe).
    rewrite Hn, (Hframe SALES_COLUMN) by discriminate. now rewrite Hc. }
  split; [exact Hget|].
  unfold total_sales, column. rewrite Hget. cbn [rbind].
  unfold series_sum. now rewrite numeric_column_filter_mask.
Qed.

End Pipeline.

(** ** The stable sort and the converter meet what the script assumes *)

Lemma to_datetime_cells_length (parse : string -> option Z) (cells : list value) :
  length (to_datetime_cells parse cells) = length cells.
Proof. unfold to_datetime_cells. apply length_map. Qed.

Lemma insert_before_ties_perm (x : value * Z) (l : list (value * Z)) :
  Permutation (x :: l) (insert_before_ties x l).
Proof.
  induction l as [|h t IH]; cbn [insert_before_ties]; [reflexivity|].
  destruct (snd x <? snd h); [|reflexivity].
  rewrite perm_swap. now apply perm_skip.
Qed.

Lemma sort_values_stable_perm (l : list (value * Z)) :
  Permutation l (sort_values_stable l).
Proof.
  unfold sort_values_stable. induction l as [|x l IH]; cbn [fold_right]; [reflexivity|].
  rewrite <- insert_before_ties_perm. now apply perm_skip.
Qed.

Lemma total_ge_trans (a b c : value * Z) : total_ge a b -> total_ge b c -> total_ge a c.
Proof. unfold total_ge. lia. Qed.

Lemma insert_before_ties_sorted (x : value * Z) (l : list (value * Z)) :
  StronglySorted total_ge l -> StronglySorted total_ge (insert_before_ties x l).
Proof.
  induction 1 as [|h t Hs IH Hall]; cbn [insert_before_ties].
  - repeat constructor.
  - destruct (snd x <? snd h) eqn:E.
    + apply Z.ltb_lt in E. constructor; [exact IH|].
      apply (Permutation_Forall (insert_before_ties_perm x t)).
      constructor; [unfold total_ge; lia|exact Hall].
    + apply Z.ltb_ge in E. constructor; [now constructor|].
      constructor; [exact E|].
      apply (Forall_impl _ (fun c Hc => total_ge_trans x h c E Hc) Hall).
Qed.

Lemma sort_values_stable_sorted (l : list (value * Z)) :
  StronglySorted total_ge (sort_values_stable l).
Proof.
  unfold sort_values_stable. induction l as [|x l IH]; cbn [fold_right].
  - constructor.
  - now apply insert_before_ties_sorted.
Qed.

(** With a stable sort the ties would stay in group order. *)
Lemma insert_before_ties_filter (total : Z) (x : value * Z) (l : list (value * Z)) :
  filter (fun row => snd row =? total) (insert_before_ties x l) =
  filter (fun row => snd row =? total) (x :: l).
Proof.
  induction l as [|h t IH]; cbn [insert_before_ties]; [reflexivity|].
  destruct (snd x <? snd h) eqn:E; [|reflexivity].
  apply Z.ltb_lt in E. cbn [filter] in *. rewrite IH.
  destruct (snd x =? total) eqn:Ex, (snd h =? total) eqn:Eh; try reflexivity.
  apply Z.eqb_eq in Ex, Eh. lia.
Qed.

Lemma sort_values_stable_keeps_ties (l : list (value * Z)) :
  ties_in_group_order l (sort_values_stable l).
Proof.
  intros total. unfold sort_values_stable.
  induction l as [|x l IH]; cbn [fold_right]; [reflexivity|].
  rewrite insert_before_ties_filter. cbn [filter]. now rewrite IH.
Qed.

(** ** The sort of NumPy sorts

    The routine returns the positions it was given, each once, in
    ascending order of their keys, whichever of its three parts did the
    work. *)

Lemma numpy_upd_length (i x : nat) (a : list nat) :
  length (NumPy.upd i x a) = length a.
Proof.
  revert i; induction a as [|h t IH]; intros [|i]; cbn; auto.
Qed.

Lemma numpy_upd_nth_eq (i x : nat) (a : list nat) :
  (i < length a)%nat -> nth i (NumPy.upd i x a) O = x.
Proof.
  revert i; induction a as [|h t IH]; intros [|i] H; cbn in *; try lia; auto.
  apply IH; lia.
Qed.

Lemma numpy_upd_nth_neq (i p x : nat) (a : list nat) :
  p <> i -> nth p (NumPy.upd i x a) O = nth p a O.
Proof.
  revert i p; induction a as [|h t IH]; intros [|i] [|p] H; cbn; auto; try lia.
Qed.

Lemma numpy_upd_count (i x y : nat) (a : list nat) :
  (i < length a)%nat ->
  (count_occ Nat.eq_dec (NumPy.upd i x a) y
   + (if Nat.eq_dec (nth i a O) y then 1 else 0)
   = count_occ Nat.eq_dec a y + (if Nat.eq_dec x y then 1 else 0))%nat.
Proof.
  revert i; induction a as [|h t IH]; intros [|i] H;
    cbn [count_occ NumPy.upd nth length] in *; try lia.
  - destruct (Nat.eq_dec x y), (Nat.eq_dec h y); lia.
  - specialize (IH i ltac:(lia)).
    destruct (Nat.eq_dec h y); lia.
Qed.

Lemma numpy_swap_length (i j : nat) (a : list nat) :
  length (NumPy.swap i j a) = length a.
Proof. unfold NumPy.swap. now rewrite !numpy_upd_length. Qed.

Lemma numpy_swap_nth (i j p : nat) (a : list nat) :
  (i < length a)%nat -> (j < length a)%nat ->
  nth p (NumPy.swap i j a) O =
    if (p =? j)%nat then nth i a O
    else if (p =? i)%nat then nth j a O else nth p a O.
Proof.
  intros Hi Hj. unfold NumPy.swap.
  destruct (Nat.eqb_spec p j) as [->|Hpj].
  - apply numpy_upd_nth_eq. now rewrite numpy_upd_length.
  - rewrite numpy_upd_nth_neq by assumption.
    destruct (Nat.eqb_spec p i) as [->|Hpi].
    + now apply numpy_upd_nth_eq.
    + now apply numpy_upd_nth_neq.
Qed.

Lemma numpy_swap_perm (i j : nat) (a : list nat) :
  (i < length a)%nat -> (j < length a)%nat ->
  Permutation (NumPy.swap i j a) a.
Proof.
  intros Hi Hj. apply (Permutation_count_occ Nat.eq_dec). intros y.
  unfold NumPy.swap.
  pose proof (numpy_upd_count i (nth j a O) y a Hi) as H1.
  assert (Hj' : (j < length (NumPy.upd i (nth j a O) a))%nat)
    by now rewrite numpy_upd_length.
  pose proof (numpy_upd_count j (nth i a O) y _ Hj') as H2.
  destruct (Nat.eq_dec i j) as [->|Hij].
  - rewrite numpy_upd_nth_eq in H2 by assumption.
    destruct (Nat.eq_dec (nth j a O) y); lia.
  - rewrite numpy_upd_nth_neq in H2 by congruence.
    destruct (Nat.eq_dec (nth i a O) y), (Nat.eq_dec (nth j a O) y); lia.
Qed.

Lemma numpy_swap_if_less_length v (i j : nat) (a : list nat) :
  length (NumPy.swap_if_less v i j a) = length a.
Proof.
  unfold NumPy.swap_if_less. destruct (_ <? _); [apply numpy_swap_length|reflexivity].
Qed.

Lemma numpy_swap_if_less_perm v (i j : nat) (a : list nat) :
  (i < length a)%nat -> (j < length a)%nat ->
  Permutation (NumPy.swap_if_less v i j a) a.
Proof.
  intros Hi Hj. unfold NumPy.swap_if_less.
  destruct (_ <? _); [now apply numpy_swap_perm|reflexivity].
Qed.

(** After [swap_if_less i j] the key at [j] is not above
    the key at [i]; the other positions are untouched. *)
Lemma numpy_swap_if_less_spec v (i j : nat) (a : list nat) :
  (i < length a)%nat -> (j < length a)%nat -> i <> j ->
  let a' := NumPy.swap_if_less v i j a in
  v (nth j a' O) <= v (nth i a' O)
  /\ v (nth i a' O) = Z.max (v (nth i a O)) (v (nth j a O))
  /\ v (nth j a' O) = Z.min (v (nth i a O)) (v (nth j a O))
  /\ forall p, p <> i -> p <> j -> nth p a' O = nth p a O.
Proof.
  intros Hi Hj Hij a'. subst a'. unfold NumPy.swap_if_less.
  destruct (Z.ltb_spec (v (nth i a O)) (v (nth j a O))) as [Hlt|Hge].
  - rewrite !numpy_swap_nth by assumption.
    rewrite Nat.eqb_refl.
    destruct (Nat.eqb_spec i j) as [?|_]; [contradiction|].
    rewrite Nat.eqb_refl.
    repeat split; try lia.
    intros p Hpi Hpj. rewrite numpy_swap_nth by assumption.
    destruct (Nat.eqb_spec p j); [contradiction|].
    destruct (Nat.eqb_spec p i); [contradiction|]. reflexivity.
  - repeat split; try lia.
Qed.

Lemma numpy_scan_up_spec v (vp : Z) (a : list nat) (fuel pi s : nat) :
  (pi < s)%nat -> (s - pi <= fuel)%nat -> vp <= v (nth s a O) ->
  let r := NumPy.scan_up v fuel vp a pi in
  (pi < r <= s)%nat /\ vp <= v (nth r a O)
  /\ forall p, (pi < p < r)%nat -> v (nth p a O) < vp.
Proof.
  revert pi. induction fuel as [|fuel IH]; intros pi Hlt Hfuel Hs; [lia|].
  cbn [NumPy.scan_up].
  destruct (Z.ltb_spec (v (nth (S pi) a O)) vp) as [Hless|Hge].
  - assert (S pi <> s) by (intros E; subst s; lia).
    destruct (IH (S pi)) as (Hr & Hv & Hall); [lia|lia|assumption|].
    cbv zeta. split; [lia|]. split; [assumption|].
    intros p Hp. destruct (Nat.eq_dec p (S pi)) as [->|Hne]; [assumption|].
    apply Hall. lia.
  - cbv zeta. split; [lia|]. split; [assumption|]. intros p Hp. lia.
Qed.

Lemma numpy_scan_down_spec v (vp : Z) (a : list nat) (fuel pj s : nat) :
  (s < pj)%nat -> (pj - s <= fuel)%nat -> v (nth s a O) <= vp ->
  let r := NumPy.scan_down v fuel vp a pj in
  (s <= r < pj)%nat /\ v (nth r a O) <= vp
  /\ forall p, (r < p < pj)%nat -> vp < v (nth p a O).
Proof.
  revert pj. induction fuel as [|fuel IH]; intros pj Hlt Hfuel Hs; [lia|].
  cbn [NumPy.scan_down].
  destruct (Z.ltb_spec vp (v (nth (pred pj) a O))) as [Hless|Hge].
  - assert (pred pj <> s) by (intros E; subst s; lia).
    destruct (IH (pred pj)) as (Hr & Hv & Hall); [lia|lia|assumption|].
    cbv zeta. split; [lia|]. split; [assumption|].
    intros p Hp. destruct (Nat.eq_dec p (pred pj)) as [->|Hne]; [assumption|].
    apply Hall. lia.
  - cbv zeta. split; [lia|]. split; [assumption|]. intros p Hp. lia.
Qed.

(** The loop of the partition keeps the keys up to [pi] at or below the
    pivot and the keys from [pj] on at or above it, and stops at a position
    that separates the two. *)
Lemma numpy_partition_loop_spec v (vp : Z) (fuel : nat) :
  forall (a : list nat) (pi pj : nat),
    (pi < pj)%nat -> (pj < length a)%nat -> (pj - pi <= fuel)%nat ->
    (forall p, (p <= pi)%nat -> v (nth p a O) <= vp) ->
    (forall p, (pj <= p < length a)%nat -> vp <= v (nth p a O)) ->
    forall a' r, NumPy.partition_loop v fuel vp a pi pj = (a', r) ->
    Permutation a' a /\ length a' = length a
    /\ (pi < r <= pj)%nat
    /\ (forall p, (p < r)%nat -> v (nth p a' O) <= vp)
    /\ (forall p, (r <= p < length a)%nat -> vp <= v (nth p a' O))
    /\ (forall p, (pj <= p)%nat -> nth p a' O = nth p a O).
Proof.
  induction fuel as [|fuel IH]; intros a pi pj Hlt Hlen Hfuel Hlow Hhigh a' r Heq;
    [lia|].
  cbn [NumPy.partition_loop] in Heq.
  destruct (numpy_scan_up_spec v vp a (length a) pi pj)
    as (Hi & Hvi & Hbelow); [lia|lia|apply Hhigh; lia|].
  destruct (numpy_scan_down_spec v vp a (length a) pj pi)
    as (Hj & Hvj & Habove); [lia|lia|apply Hlow; lia|].
  set (pi' := NumPy.scan_up v (length a) vp a pi) in *.
  set (pj' := NumPy.scan_down v (length a) vp a pj) in *.
  cbv zeta in Heq.
  destruct (Nat.leb_spec pj' pi') as [Hcross|Hcont].
  - injection Heq as <- <-.
    split; [reflexivity|]. split; [reflexivity|]. split; [lia|].
    split; [|split].
    + intros p Hp. destruct (Nat.le_gt_cases p pi) as [?|?]; [now apply Hlow|].
      apply Z.lt_le_incl, Hbelow. lia.
    + intros p Hp. destruct (Nat.eq_dec p pi') as [->|Hne]; [assumption|].
      destruct (Nat.le_gt_cases pj p) as [?|?]; [apply Hhigh; lia|].
      apply Z.lt_le_incl, Habove. lia.
    + reflexivity.
  - assert (Hsw : forall p, nth p (NumPy.swap pi' pj' a) O =
                    if (p =? pj')%nat then nth pi' a O
                    else if (p =? pi')%nat then nth pj' a O else nth p a O)
      by (intros p; apply numpy_swap_nth; lia).
    destruct (IH (NumPy.swap pi' pj' a) pi' pj') with (a' := a') (r := r)
      as (Hperm & Hlen' & Hr & Hlow' & Hhigh' & Hsame).
    + assumption.
    + rewrite numpy_swap_length. lia.
    + lia.
    + intros p Hp. rewrite Hsw.
      destruct (Nat.eqb_spec p pj'); [lia|].
      destruct (Nat.eqb_spec p pi'); [assumption|].
      destruct (Nat.le_gt_cases p pi) as [?|?]; [now apply Hlow|].
      apply Z.lt_le_incl, Hbelow. lia.
    + intros p Hp. rewrite numpy_swap_length in Hp. rewrite Hsw.
      destruct (Nat.eqb_spec p pj'); [assumption|].
      destruct (Nat.eqb_spec p pi'); [lia|].
      destruct (Nat.le_gt_cases pj p) as [?|?]; [apply Hhigh; lia|].
      apply Z.lt_le_incl, Habove. lia.
    + assumption.
    + rewrite numpy_swap_length in *.
      split; [rewrite Hperm; apply numpy_swap_perm; lia|].
      split; [assumption|]. split; [lia|].
      split; [assumption|]. split; [assumption|].
      intros p Hp. rewrite Hsame by lia. rewrite Hsw.
      destruct (Nat.eqb_spec p pj'); [lia|].
      destruct (Nat.eqb_spec p pi'); [lia|]. reflexivity.
Qed.

Lemma list_split_at (a : list nat) (r : nat) :
  (r < length a)%nat -> a = firstn r a ++ nth r a O :: skipn (S r) a.
Proof.
  revert r; induction a as [|h t IH]; intros [|r] H; cbn in *; try lia.
  - reflexivity.
  - f_equal. apply IH. lia.
Qed.

Lemma div2_bounds (n : nat) : (3 <= n)%nat -> (0 < Nat.div2 n < n - 1)%nat.
Proof.
  intros H. pose proof (Nat.div2_odd n) as Hn.
  destruct (Nat.odd n); cbn [Nat.b2n] in Hn; lia.
Qed.

(** The partition: the segment is rearranged around a pivot, no key left
    of it greater, no key right of it smaller. *)
Lemma numpy_partition_spec v (a lower upper : list nat) (pivot : nat) :
  (4 <= length a)%nat ->
  NumPy.partition v a = (lower, pivot, upper) ->
  Permutation (lower ++ pivot :: upper) a
  /\ Forall (fun i => v i <= v pivot) lower
  /\ Forall (fun i => v pivot <= v i) upper.
Proof.
  intros Hn Heq. unfold NumPy.partition in Heq.
  set (pr := (length a - 1)%nat) in *.
  set (pm := Nat.div2 pr) in *.
  assert (Hpm : (0 < pm < pr - 1)%nat) by (apply div2_bounds; lia).
  set (a1 := NumPy.swap_if_less v pm O a) in *.
  set (a2 := NumPy.swap_if_less v pr pm a1) in *.
  set (a3 := NumPy.swap_if_less v pm O a2) in *.
  set (a4 := NumPy.swap pm (pr - 1) a3) in *.
  assert (L1 : length a1 = length a) by apply numpy_swap_if_less_length.
  assert (L2 : length a2 = length a)
    by (unfold a2; now rewrite numpy_swap_if_less_length).
  assert (L3 : length a3 = length a)
    by (unfold a3; now rewrite numpy_swap_if_less_length).
  assert (L4 : length a4 = length a)
    by (unfold a4; now rewrite numpy_swap_length).
  destruct (numpy_swap_if_less_spec v pm O a) as (S1 & S1i & S1j & S1o);
    [lia|lia|lia|]. fold a1 in S1, S1i, S1j, S1o.
  destruct (numpy_swap_if_less_spec v pr pm a1) as (S2 & S2i & S2j & S2o);
    [lia|lia|lia|]. fold a2 in S2, S2i, S2j, S2o.
  destruct (numpy_swap_if_less_spec v pm O a2) as (S3 & S3i & S3j & S3o);
    [lia|lia|lia|]. fold a3 in S3, S3i, S3j, S3o.
  assert (H20 : nth O a2 O = nth O a1 O) by (apply S2o; lia).
  assert (H3r : nth pr a3 O = nth pr a2 O) by (apply S3o; lia).
  assert (Hmed : v (nth O a3 O) <= v (nth pm a3 O) <= v (nth pr a3 O)).
  { rewrite H3r, S3i, S3j, S2i, S2j, H20. lia. }
  assert (P4 : Permutation a4 a).
  { unfold a4. rewrite numpy_swap_perm by lia.
    unfold a3. rewrite numpy_swap_if_less_perm by lia.
    unfold a2. rewrite numpy_swap_if_less_perm by lia.
    unfold a1. apply numpy_swap_if_less_perm; lia. }
  assert (Hsw4 : forall p, nth p a4 O =
                   if (p =? pr - 1)%nat then nth pm a3 O
                   else if (p =? pm)%nat then nth (pr - 1) a3 O else nth p a3 O)
    by (intros p; apply numpy_swap_nth; lia).
  set (vp := v (nth pm a3 O)) in *.
  destruct (NumPy.partition_loop v (length a4) vp a4 O (pr - 1)) as [a5 r] eqn:Hloop.
  destruct (numpy_partition_loop_spec v vp (length a4) a4 O (pr - 1))
    with (a' := a5) (r := r)
    as (P5 & L5 & Hr & Hlow & Hhigh & Hsame); try assumption; try lia.
  - intros p Hp. replace p with O by lia. rewrite Hsw4.
    destruct (Nat.eqb_spec 0 (pr - 1)); [lia|].
    destruct (Nat.eqb_spec 0 pm); [lia|]. lia.
  - intros p Hp. rewrite Hsw4.
    destruct (Nat.eqb_spec p (pr - 1)); [lia|].
    destruct (Nat.eqb_spec p pm); [lia|].
    replace p with pr by lia. lia.
  - assert (Hpivot : nth (pr - 1) a5 O = nth pm a3 O).
    { rewrite Hsame by lia. rewrite Hsw4. now rewrite Nat.eqb_refl. }
    set (a6 := NumPy.swap r (pr - 1) a5) in *.
    assert (Hsw6 : forall p, nth p a6 O =
                     if (p =? pr - 1)%nat then nth r a5 O
                     else if (p =? r)%nat then nth (pr - 1) a5 O else nth p a5 O)
      by (intros p; apply numpy_swap_nth; lia).
    assert (L6 : length a6 = length a)
      by (unfold a6; rewrite numpy_swap_length; lia).
    assert (Hl : lower = firstn r a6) by (now inversion Heq).
    assert (Hv : pivot = nth r a6 O) by (now inversion Heq).
    assert (Hu : upper = skipn (S r) a6) by (now inversion Heq).
    clear Heq. subst lower pivot upper.
    assert (Hvpivot : v (nth r a6 O) = vp).
    { rewrite Hsw6. destruct (Nat.eqb_spec r (pr - 1)) as [->|_].
      - now rewrite Hpivot.
      - rewrite Nat.eqb_refl. now rewrite Hpivot. }
    split; [|split].
    + rewrite <- list_split_at by lia.
      unfold a6. rewrite numpy_swap_perm by lia. now rewrite P5.
    + apply Forall_nth. intros p d Hp.
      rewrite length_firstn in Hp.
      rewrite (nth_indep _ d O) by (rewrite length_firstn; lia).
      rewrite nth_firstn. destruct (Nat.ltb_spec p r); [|lia].
      rewrite Hvpivot, Hsw6.
      destruct (Nat.eqb_spec p (pr - 1)); [lia|].
      destruct (Nat.eqb_spec p r); [lia|]. apply Hlow. lia.
    + apply Forall_nth. intros p d Hp.
      rewrite length_skipn in Hp.
      rewrite (nth_indep _ d O) by (rewrite length_skipn; lia).
      rewrite nth_skipn, Hvpivot, Hsw6.
      destruct (Nat.eqb_spec (S r + p) (pr - 1)); [apply Hhigh; lia|].
      destruct (Nat.eqb_spec (S r + p) r); [lia|]. apply Hhigh. lia.
Qed.

(** *** Sorted lists of positions *)

Lemma StronglySorted_app_iff {A : Type} (R : A -> A -> Prop) (l1 l2 : list A) :
  StronglySorted R (l1 ++ l2) <->
  StronglySorted R l1 /\ StronglySorted R l2
  /\ Forall (fun x => Forall (R x) l2) l1.
Proof.
  induction l1 as [|h t IH]; cbn [app].
  - split; [intros H; repeat split; [constructor|assumption|constructor]
           |intros (_ & H & _); assumption].
  - split.
    + intros H. apply StronglySorted_inv in H as [Hs Hall].
      apply IH in Hs as (Ht & H2 & Hcross).
      apply Forall_app in Hall as [Hall1 Hall2].
      repeat split; [constructor; assumption|assumption|constructor; assumption].
    + intros (H1 & H2 & Hcross).
      apply StronglySorted_inv in H1 as [Ht Hall1].
      apply Forall_cons_iff in Hcross as [Hh Hcross].
      constructor; [apply IH; repeat split; assumption|].
      apply Forall_app. split; assumption.
Qed.

Lemma StronglySorted_rev {A : Type} (R : A -> A -> Prop) (l : list A) :
  StronglySorted R l -> StronglySorted (fun x y => R y x) (rev l).
Proof.
  induction 1 as [|h t Hs IH Hall]; cbn [rev]; [constructor|].
  apply StronglySorted_app_iff. split; [assumption|].
  split; [repeat constructor|].
  apply Forall_forall. intros x Hx. constructor; [|constructor].
  apply in_rev in Hx. revert x Hx. now apply Forall_forall.
Qed.

Lemma StronglySorted_nth (v : nat -> Z) (l : list nat) :
  (forall i j, (i <= j < length l)%nat -> v (nth i l O) <= v (nth j l O)) ->
  StronglySorted (key_le v) l.
Proof.
  induction l as [|h t IH]; intros H; constructor.
  - apply IH. intros i j Hij. apply (H (S i) (S j)). cbn [length]. lia.
  - apply Forall_nth. intros i d Hi. rewrite (nth_indep _ d O) by assumption.
    apply (H O (S i)). cbn [length]. lia.
Qed.

(** *** Insertion *)

Lemma numpy_insert_from_right_perm v (vi : nat) (l : list nat) :
  Permutation (vi :: l) (NumPy.insert_from_right v vi l).
Proof.
  induction l as [|h t IH]; cbn [NumPy.insert_from_right]; [reflexivity|].
  destruct (_ <? _); [|reflexivity].
  rewrite perm_swap. now apply perm_skip.
Qed.

Lemma numpy_insert_from_right_sorted v (vi : nat) (l : list nat) :
  StronglySorted (key_ge v) l ->
  StronglySorted (key_ge v) (NumPy.insert_from_right v vi l).
Proof.
  induction 1 as [|h t Hs IH Hall]; cbn [NumPy.insert_from_right].
  - repeat constructor.
  - destruct (Z.ltb_spec (v vi) (v h)) as [Hlt|Hge].
    + constructor; [assumption|].
      apply (Permutation_Forall (numpy_insert_from_right_perm v vi t)).
      constructor; [unfold key_ge; lia|assumption].
    + constructor; [now constructor|].
      constructor; [unfold key_ge; lia|].
      revert Hall. apply Forall_impl. unfold key_ge. intros; lia.
Qed.

Lemma numpy_insertion_fold v (a acc : list nat) :
  StronglySorted (key_ge v) acc ->
  let out := fold_left (fun sorted_rev vi => NumPy.insert_from_right v vi sorted_rev)
               a acc in
  Permutation (a ++ acc) out /\ StronglySorted (key_ge v) out.
Proof.
  revert acc. induction a as [|h t IH]; intros acc Hacc; cbn [fold_left app].
  - split; [reflexivity|assumption].
  - destruct (IH (NumPy.insert_from_right v h acc)) as [Hp Hs];
      [now apply numpy_insert_from_right_sorted|].
    split; [|assumption].
    rewrite <- Hp, <- numpy_insert_from_right_perm.
    now rewrite Permutation_middle.
Qed.

Lemma numpy_insertion_sort_spec v (a : list nat) :
  Permutation (NumPy.insertion_sort v a) a
  /\ StronglySorted (key_le v) (NumPy.insertion_sort v a).
Proof.
  unfold NumPy.insertion_sort.
  destruct (numpy_insertion_fold v a []) as [Hp Hs]; [constructor|].
  rewrite app_nil_r in Hp. split.
  - now rewrite <- Permutation_rev, <- Hp.
  - apply StronglySorted_rev in Hs. exact Hs.
Qed.

(** *** Heapsort *)

Lemma heap_key_swap v (a : list nat) (i j p : nat) :
  (1 <= i <= length a)%nat -> (1 <= j <= length a)%nat -> (1 <= p)%nat ->
  heap_key v (NumPy.swap (i - 1) (j - 1) a) p =
    if (p =? j)%nat then heap_key v a i
    else if (p =? i)%nat then heap_key v a j else heap_key v a p.
Proof.
  intros Hi Hj Hp. unfold heap_key. rewrite numpy_swap_nth by lia.
  destruct (Nat.eqb_spec (p - 1) (j - 1)), (Nat.eqb_spec p j); try lia;
    try reflexivity.
  destruct (Nat.eqb_spec (p - 1) (i - 1)), (Nat.eqb_spec p i); try lia;
    reflexivity.
Qed.

(** The sift restores the heap below [i], rearranging only positions
    [i .. n]. *)
Lemma numpy_sift_down_spec v (lo n fuel : nat) :
  forall (a : list nat) (i : nat),
    (1 <= lo <= i)%nat -> (i <= n <= length a)%nat -> (n - i < fuel)%nat ->
    (forall p, (lo <= p <= n)%nat -> p <> i -> heap_at v a n p) ->
    (forall q c, (lo <= q)%nat -> (i = 2 * q \/ i = 2 * q + 1)%nat ->
       (c = 2 * i \/ c = 2 * i + 1)%nat -> (c <= n)%nat ->
       heap_key v a c <= heap_key v a q) ->
    let a' := NumPy.sift_down v fuel a i n in
    Permutation a' a /\ length a' = length a
    /\ (forall p, (lo <= p <= n)%nat -> heap_at v a' n p)
    /\ (forall p, (1 <= p < i \/ n < p)%nat -> nth (p - 1) a' O = nth (p - 1) a O)
    /\ (forall P : nat -> Prop,
          (forall p, (1 <= p <= n)%nat -> P (nth (p - 1) a O)) ->
          forall p, (1 <= p <= n)%nat -> P (nth (p - 1) a' O)).
Proof.
  induction fuel as [|fuel IH]; intros a i Hlo Hn Hfuel Hheap Hparent; [lia|].
  cbn [NumPy.sift_down]. cbv zeta.
  destruct (Nat.leb_spec (2 * i) n) as [Hchild|Hleaf].
  2:{ split; [reflexivity|]. split; [reflexivity|].
      split; [|split; [reflexivity|auto]].
      intros p Hp. destruct (Nat.eq_dec p i) as [->|Hne]; [|now apply Hheap].
      intros c Hc Hcn. lia. }
  set (j := if (2 * i <? n)%nat
                 && (v (nth (2 * i - 1) a O) <? v (nth (2 * i) a O))
            then S (2 * i) else (2 * i)%nat).
  assert (Hj : (j = 2 * i \/ j = 2 * i + 1)%nat /\ (j <= n)%nat
               /\ forall c, (c = 2 * i \/ c = 2 * i + 1)%nat -> (c <= n)%nat ->
                    heap_key v a c <= heap_key v a j).
  { set (k1 := v (nth (2 * i - 1) a O)) in *.
    set (k2 := v (nth (2 * i) a O)) in *.
    assert (E1 : heap_key v a (2 * i) = k1) by reflexivity.
    assert (E2 : heap_key v a (2 * i + 1) = k2)
      by (unfold heap_key, k2; do 2 f_equal; lia).
    assert (E3 : heap_key v a (S (2 * i)) = k2)
      by (unfold heap_key, k2; do 2 f_equal; lia).
    subst j.
    destruct (Nat.ltb_spec (2 * i) n) as [H2|H2]; cbn [andb];
      [destruct (Z.ltb_spec k1 k2) as [Hlt|Hge]|];
      (split; [lia|]; split; [lia|];
       intros c [->| ->] Hc; rewrite ?E1, ?E2, ?E3; lia). }
  destruct Hj as (Hjc & Hjn & Hjmax).
  fold (heap_key v a i). fold (heap_key v a j).
  destruct (Z.ltb_spec (heap_key v a i) (heap_key v a j)) as [Hlt|Hge].
  - assert (Hsw : forall p, (1 <= p)%nat ->
               heap_key v (NumPy.swap (i - 1) (j - 1) a) p =
                 if (p =? j)%nat then heap_key v a i
                 else if (p =? i)%nat then heap_key v a j else heap_key v a p)
      by (intros p Hp; apply heap_key_swap; lia).
    destruct (IH (NumPy.swap (i - 1) (j - 1) a) j)
      as (Hperm & Hlen & Hheap' & Hsame & Hkeep).
    + lia.
    + rewrite numpy_swap_length. lia.
    + lia.
    + intros p Hp Hpj c Hc Hcn.
      rewrite (Hsw c) by lia. rewrite (Hsw p) by lia.
      destruct (Nat.eqb_spec p j) as [?|_]; [contradiction|].
      destruct (Nat.eqb_spec c j) as [Hcj|Hcj].
      * (* the child is [j], so [p = i] *)
        destruct (Nat.eqb_spec p i); [lia|lia].
      * destruct (Nat.eqb_spec c i) as [Hci|Hci].
        -- (* [p] is the parent of [i] *)
           destruct (Nat.eqb_spec p i); [lia|].
           apply (Hparent p j); try lia.
        -- destruct (Nat.eqb_spec p i) as [Hpi|Hpi].
           ++ subst p. apply Hjmax; assumption.
           ++ apply Hheap; assumption.
    + intros q c Hq Hqj Hc Hcn.
      assert (q = i) by lia. subst q.
      rewrite (Hsw c) by lia. rewrite (Hsw i) by lia.
      destruct (Nat.eqb_spec c j); [lia|].
      destruct (Nat.eqb_spec c i); [lia|].
      destruct (Nat.eqb_spec i j); [lia|]. rewrite Nat.eqb_refl.
      apply Hheap; first [lia|assumption].
    + rewrite numpy_swap_length in Hlen.
      split; [rewrite Hperm; apply numpy_swap_perm; lia|].
      split; [assumption|]. split; [assumption|]. split.
      * intros p Hp. rewrite Hsame by lia.
        rewrite numpy_swap_nth by lia.
        destruct (Nat.eqb_spec (p - 1) (j - 1)); [lia|].
        destruct (Nat.eqb_spec (p - 1) (i - 1)); [lia|]. reflexivity.
      * intros P HP. apply Hkeep. intros p Hp.
        rewrite numpy_swap_nth by lia.
        destruct (Nat.eqb_spec (p - 1) (j - 1)); [apply HP; lia|].
        destruct (Nat.eqb_spec (p - 1) (i - 1)); apply HP; lia.
  - split; [reflexivity|]. split; [reflexivity|].
    split; [|split; [reflexivity|auto]].
    intros p Hp. destruct (Nat.eq_dec p i) as [->|Hne]; [|now apply Hheap].
    intros c Hc Hcn. specialize (Hjmax c Hc Hcn). lia.
Qed.

Lemma heap_root_greatest v (a : list nat) (n : nat) :
  (forall p, (1 <= p <= n)%nat -> heap_at v a n p) ->
  forall p, (1 <= p <= n)%nat -> heap_key v a p <= heap_key v a 1.
Proof.
  intros Hheap p. induction p as [p IH] using lt_wf_ind. intros Hp.
  destruct (Nat.eq_dec p 1) as [->|Hne]; [lia|].
  pose proof (Nat.div2_odd p) as Hdiv.
  assert (Hq : (1 <= Nat.div2 p <= n)%nat /\ (Nat.div2 p < p)%nat
               /\ (p = 2 * Nat.div2 p \/ p = 2 * Nat.div2 p + 1)%nat)
    by (destruct (Nat.odd p); cbn [Nat.b2n] in Hdiv; lia).
  destruct Hq as (Hq1 & Hq2 & Hq3).
  specialize (IH (Nat.div2 p) Hq2 Hq1).
  specialize (Hheap (Nat.div2 p) Hq1 p Hq3 ltac:(lia)). lia.
Qed.

Lemma numpy_build_heap_spec v (l : nat) :
  forall a : list nat,
    (l <= length a)%nat ->
    (forall p, (l + 1 <= p <= length a)%nat -> heap_at v a (length a) p) ->
    let a' := NumPy.build_heap v l a in
    Permutation a' a /\ length a' = length a
    /\ forall p, (1 <= p <= length a)%nat -> heap_at v a' (length a) p.
Proof.
  induction l as [|l IH]; intros a Hl Hheap; cbn [NumPy.build_heap]; cbv zeta.
  - split; [reflexivity|]. split; [reflexivity|]. intros p Hp. apply Hheap. lia.
  - destruct (numpy_sift_down_spec v (S l) (length a) (length a) a (S l))
      as (Hperm & Hlen & Hheap' & _); [lia|lia|lia| | |].
    + intros p Hp Hne. apply Hheap. lia.
    + intros q c Hq Hi. lia.
    + destruct (IH (NumPy.sift_down v (length a) a (S l) (length a)))
        as (Hperm2 & Hlen2 & Hheap2).
      * rewrite Hlen. lia.
      * rewrite Hlen. intros p Hp. apply Hheap'. lia.
      * rewrite Hlen in *. split; [now rewrite Hperm2|].
        split; [assumption|assumption].
Qed.

Lemma numpy_drain_heap_spec v (n : nat) :
  forall a : list nat,
    (n <= length a)%nat ->
    (forall p, (1 <= p <= n)%nat -> heap_at v a n p) ->
    (forall p q, (n < p <= q)%nat -> (q <= length a)%nat ->
       heap_key v a p <= heap_key v a q) ->
    (forall p q, (1 <= p <= n)%nat -> (n < q <= length a)%nat ->
       heap_key v a p <= heap_key v a q) ->
    let a' := NumPy.drain_heap v n a in
    Permutation a' a
    /\ forall p q, (1 <= p <= q)%nat -> (q <= length a)%nat ->
         heap_key v a' p <= heap_key v a' q.
Proof.
  induction n as [|n IH]; intros a Hn Hheap Hsorted Hcross;
    cbn [NumPy.drain_heap]; cbv zeta.
  - split; [reflexivity|]. intros p q Hp Hq. apply Hsorted; lia.
  - destruct (Nat.ltb_spec 1 (S n)) as [Hmany|Hone].
    2:{ split; [reflexivity|]. intros p q Hp Hq.
        destruct (Nat.eq_dec p q) as [->|Hpq]; [lia|].
        destruct (Nat.eq_dec p 1) as [->|Hp1];
          [apply Hcross; lia|apply Hsorted; lia]. }
    pose proof (heap_root_greatest v a (S n) Hheap) as Hroot.
    set (a1 := NumPy.swap O n a).
    assert (L1 : length a1 = length a) by apply numpy_swap_length.
    assert (Hsw : forall p, (1 <= p)%nat ->
               heap_key v a1 p =
                 if (p =? S n)%nat then heap_key v a 1
                 else if (p =? 1)%nat then heap_key v a (S n) else heap_key v a p).
    { intros p Hp. unfold a1.
      replace O with (1 - 1)%nat at 1 by reflexivity.
      replace n with (S n - 1)%nat at 1 by lia.
      apply heap_key_swap; lia. }
    destruct (numpy_sift_down_spec v 1 n (length a) a1 1)
      as (Hperm & Hlen & Hheap' & Hsame & Hkeep); [lia|lia|lia| | |].
    + intros p Hp Hne c Hc Hcn.
      rewrite (Hsw c) by lia. rewrite (Hsw p) by lia.
      destruct (Nat.eqb_spec c (S n)); [lia|].
      destruct (Nat.eqb_spec c 1); [lia|].
      destruct (Nat.eqb_spec p (S n)); [lia|].
      destruct (Nat.eqb_spec p 1); [lia|].
      apply Hheap; lia.
    + intros q c Hq Hi. lia.
    + set (a2 := NumPy.sift_down v (length a) a1 1 n) in *.
      assert (Hkey2 : forall p, (n < p)%nat -> heap_key v a2 p = heap_key v a1 p).
      { intros p Hp. unfold heap_key. rewrite Hsame by lia. reflexivity. }
      destruct (IH a2) as (Hperm2 & Hsorted2).
      * lia.
      * assumption.
      * intros p q Hp Hq. rewrite !Hkey2 by lia.
        rewrite (Hsw p) by lia. rewrite (Hsw q) by lia.
        destruct (Nat.eqb_spec p (S n)) as [Hpn|Hpn];
          destruct (Nat.eqb_spec q (S n)) as [Hqn|Hqn]; try lia.
        -- destruct (Nat.eqb_spec q 1); [lia|]. apply Hcross; lia.
        -- destruct (Nat.eqb_spec p 1); [lia|].
           destruct (Nat.eqb_spec q 1); [lia|]. apply Hsorted; lia.
      * intros p q Hp Hq. rewrite (Hkey2 q) by lia.
        unfold heap_key at 1.
        apply (Hkeep (fun x => v x <= heap_key v a1 q)); [|lia].
        intros p' Hp'. fold (heap_key v a1 p').
        rewrite (Hsw p') by lia. rewrite (Hsw q) by lia.
        destruct (Nat.eqb_spec p' (S n)); [lia|].
        destruct (Nat.eqb_spec q (S n)) as [Hqn|Hqn].
        -- destruct (Nat.eqb_spec p' 1); apply Hroot; lia.
        -- destruct (Nat.eqb_spec q 1); [lia|].
           destruct (Nat.eqb_spec p' 1); apply Hcross; lia.
      * split.
        -- rewrite Hperm2, Hperm.
           apply numpy_swap_perm; lia.
        -- intros p q Hp Hq. apply Hsorted2; lia.
Qed.

Lemma numpy_aheapsort_spec v (a : list nat) :
  Permutation (NumPy.aheapsort v a) a
  /\ StronglySorted (key_le v) (NumPy.aheapsort v a).
Proof.
  unfold NumPy.aheapsort.
  pose proof (Nat.div2_odd (length a)) as Hdiv.
  assert (Hhalf : (2 * Nat.div2 (length a) <= length a
                   /\ length a <= 2 * Nat.div2 (length a) + 1)%nat)
    by (destruct (Nat.odd (length a)); cbn [Nat.b2n] in Hdiv; lia).
  destruct (numpy_build_heap_spec v (Nat.div2 (length a)) a)
    as (Hperm & Hlen & Hheap); [lia| |].
  - intros p Hp c Hc Hcn. lia.
  - set (a1 := NumPy.build_heap v (Nat.div2 (length a)) a) in *.
    destruct (numpy_drain_heap_spec v (length a) a1) as (Hperm2 & Hsorted).
    + lia.
    + assumption.
    + intros p q Hp Hq. lia.
    + intros p q Hp Hq. lia.
    + split; [now rewrite Hperm2|].
      apply StronglySorted_nth. intros i j Hij.
      apply Permutation_length in Hperm2.
      specialize (Hsorted (S i) (S j) ltac:(lia) ltac:(lia)).
      unfold heap_key in Hsorted. cbn [Nat.sub] in Hsorted.
      now rewrite !Nat.sub_0_r in Hsorted.
Qed.

(** *** The introsort *)

Lemma numpy_aquicksort_spec v (fuel : nat) :
  forall (popped : bool) (cdepth : Z) (a : list nat),
    Permutation (NumPy.aquicksort v fuel popped cdepth a) a
    /\ StronglySorted (key_le v) (NumPy.aquicksort v fuel popped cdepth a).
Proof.
  induction fuel as [|fuel IH]; intros popped cdepth a; cbn [NumPy.aquicksort].
  - apply numpy_aheapsort_spec.
  - destruct (popped && (cdepth <? 0)); [apply numpy_aheapsort_spec|].
    destruct (Nat.ltb_spec NumPy.SMALL_QUICKSORT (length a - 1)) as [Hbig|Hsmall];
      [|apply numpy_insertion_sort_spec].
    destruct (NumPy.partition v a) as [[lower pivot] upper] eqn:Hpart.
    destruct (numpy_partition_spec v a lower upper pivot) as (Hperm & Hlow & Hup);
      [unfold NumPy.SMALL_QUICKSORT in Hbig; lia|assumption|].
    cbv zeta.
    destruct (IH (negb (length lower <? length upper)%nat) (cdepth - 1) lower)
      as [Pl Sl].
    destruct (IH (length lower <? length upper)%nat (cdepth - 1) upper)
      as [Pu Su].
    split.
    + rewrite <- Hperm. apply Permutation_app; [assumption|].
      now apply perm_skip.
    + apply StronglySorted_app_iff. split; [assumption|]. split.
      * constructor; [assumption|].
        apply (Permutation_Forall (Permutation_sym Pu)). exact Hup.
      * apply (Permutation_Forall (Permutation_sym Pl)).
        revert Hlow. apply Forall_impl. intros x Hx.
        constructor; [exact Hx|].
        apply (Permutation_Forall (Permutation_sym Pu)).
        revert Hup. apply Forall_impl. unfold key_le. intros; lia.
Qed.

(** The fuel is never used up: with at least as much fuel as the segment
    is long, more fuel changes nothing. *)
Lemma numpy_aquicksort_fuel v (fuel : nat) :
  forall (fuel' : nat) (popped : bool) (cdepth : Z) (a : list nat),
    (length a <= fuel)%nat -> (length a <= fuel')%nat ->
    NumPy.aquicksort v fuel popped cdepth a = NumPy.aquicksort v fuel' popped cdepth a.
Proof.
  induction fuel as [|fuel IH]; intros fuel' popped cdepth a Hfuel Hfuel'.
  - destruct a; [|cbn [length] in Hfuel; lia].
    destruct fuel'; cbn [NumPy.aquicksort]; [reflexivity|].
    now destruct (popped && (cdepth <? 0)).
  - destruct fuel' as [|fuel'].
    + destruct a; [|cbn [length] in Hfuel'; lia].
      cbn [NumPy.aquicksort]. now destruct (popped && (cdepth <? 0)).
    + cbn [NumPy.aquicksort].
      destruct (popped && (cdepth <? 0)); [reflexivity|].
      destruct (Nat.ltb_spec NumPy.SMALL_QUICKSORT (length a - 1)) as [Hbig|Hsmall];
        [|reflexivity].
      destruct (NumPy.partition v a) as [[lower pivot] upper] eqn:Hpart.
      destruct (numpy_partition_spec v a lower upper pivot) as (Hperm & _ & _);
        [unfold NumPy.SMALL_QUICKSORT in Hbig; lia|assumption|].
      apply Permutation_length in Hperm.
      rewrite length_app in Hperm. cbn [length] in Hperm.
      cbv zeta. f_equal; [|f_equal]; apply IH; lia.
Qed.

Lemma numpy_argsort_spec (keys : list Z) :
  Permutation (NumPy.argsort keys) (seq 0 (length keys))
  /\ StronglySorted (key_le (fun p => nth p keys 0)) (NumPy.argsort keys).
Proof. apply numpy_aquicksort_spec. Qed.

Lemma map_nth_seq_all {A : Type} (l : list A) (d : A) :
  map (fun i => nth i l d) (seq 0 (length l)) = l.
Proof.
  induction l as [|h t IH]; [reflexivity|].
  cbn [length seq map nth]. f_equal.
  rewrite <- seq_shift, map_map. exact IH.
Qed.

Lemma StronglySorted_map_in {A B : Type} (R : A -> A -> Prop) (R' : B -> B -> Prop)
    (f : A -> B) (l : list A) :
  (forall x y, In x l -> In y l -> R x y -> R' (f x) (f y)) ->
  StronglySorted R l -> StronglySorted R' (map f l).
Proof.
  intros Hf Hs. induction Hs as [|h t Hs IH Hall]; cbn [map]; constructor.
  - apply IH. intros x y Hx Hy. apply Hf; now right.
  - apply Forall_map. rewrite Forall_forall in *. intros y Hy.
    apply Hf; [now left|now right|now apply Hall].
Qed.

(** The row order of a descending sort: every position once, the keys
    from the greatest to the least. *)
Lemma numpy_nargsort_descending_spec (keys : list Z) :
  Permutation (NumPy.nargsort_descending keys) (seq 0 (length keys))
  /\ StronglySorted (key_ge (fun i => nth i keys 0))
       (NumPy.nargsort_descending keys).
Proof.
  unfold NumPy.nargsort_descending.
  destruct (numpy_argsort_spec (rev keys)) as [Hperm Hsorted].
  rewrite length_rev in Hperm.
  set (n := length keys) in *.
  set (order := NumPy.argsort (rev keys)) in *.
  split.
  - rewrite <- Permutation_rev.
    rewrite (Permutation_map _ Hperm).
    replace (seq 0 n) with (seq 0 (length (rev (seq 0 n)))) at 1
      by now rewrite length_rev, length_seq.
    rewrite map_nth_seq_all. symmetry. apply Permutation_rev.
  - apply (StronglySorted_rev (key_le (fun i => nth i keys 0))).
    revert Hsorted. apply StronglySorted_map_in.
    intros x y Hx Hy Hxy. unfold key_le in *.
    assert (Hlt : forall p, In p order -> (p < n)%nat).
    { intros p Hp. apply (Permutation_in _ Hperm) in Hp.
      apply in_seq in Hp. lia. }
    assert (Hread : forall p, (p < n)%nat ->
              nth (nth p (rev (seq 0 n)) O) keys 0 = nth p (rev keys) 0).
    { intros p Hp. rewrite !rev_nth by (rewrite ?length_seq; assumption).
      rewrite length_seq. rewrite seq_nth by lia. reflexivity. }
    rewrite !Hread by auto. exact Hxy.
Qed.

(** The sort the grouped frame goes through returns its rows, each once,
    in descending order of the total. *)
Lemma numpy_sort_values_perm (rows : list (value * Z)) :
  Permutation rows (NumPy.sort_values rows).
Proof.
  unfold NumPy.sort_values.
  destruct (numpy_nargsort_descending_spec (map snd rows)) as [Hperm _].
  rewrite length_map in Hperm.
  rewrite (Permutation_map _ Hperm). now rewrite map_nth_seq_all.
Qed.


(** ** Category totals *)


(** C4, as the code has it.  For every dataset with a category column
    whose labels can be put in order and an amount column of whole
    numbers, the int64 sum of the category totals
    equals the int64 sum of the amounts of the rows whose category is not
    missing.  When no row lacks a category this is the global sum
    [total_sales]. *)
Theorem category_totals_sum (df : DataFrame) (keys cells : list value) :
  get_column CATEGORY_COLUMN df = Some keys ->
  get_column SALES_COLUMN df = Some cells ->
  int64_column cells = true ->
  orderable keys = true ->
  exists out,
    category_sales NumPy.sort_values df = Ok out
    /\ totals_sum out = wrap64 (exact_sum (cells_with_key keys cells))
    /\ (length keys = length cells ->
        Forall (fun k => isna k = false) keys ->
        total_sales df = Ok (totals_sum out)).
Proof.
  intros Hk Hc Hint Hord.
  exact (category_totals_partition NumPy.sort_values numpy_sort_values_perm
           df keys cells Hk Hc (int64_column_numeric cells Hint) Hord).
Qed.

(** ** The scenario of the specification *)

Example sample_sales_normalized :
  normalize_dates (to_datetime_cells parse_nothing) sample_sales =
  Ok [(SALES_COLUMN, [VNum 100; VNum 200]);
      (CATEGORY_COLUMN, [VStr "A"; VStr "B"]);
      (DATE_COLUMN, [VTimestamp (to_datetime_ymd 2014 5 1);
                     VTimestamp (to_datetime_ymd 2014 6 1)])].
Proof. vm_compute. reflexivity. Qed.

Example sample_sales_page :
  run (to_datetime_cells parse_nothing) datetime64_always NumPy.sort_values
      sample_sales [] =
  ([StSuccess "File uploaded and read successfully!";
    StSubheader "Raw Data Preview";
    StDataframe sample_sales;
    StInfo checking_dates;
    StHeader "📈 Key Performance Indicators (KPIs) & Trends";
    StMetric "Total Sales" (NInt 300);
    StMetric "Average Sale Value" (NFloat (300 # 2));
    StMetric "Total Transactions" (NInt 2);
    StLineChart [(to_datetime_ymd 2014 5 31, 100); (to_datetime_ymd 2014 6 30, 200)];
    StBarChart [(VStr "B", 200); (VStr "A", 100)];
    StPieChart [(VStr "B", 200); (VStr "A", 100)]],
   Ok tt).
Proof. vm_compute. reflexivity. Qed.

(** ** The theorems at concrete inputs *)

Lemma excel_serial_to_date_in_range_witness :
  1000 < 41760 < 90000
  /\ excel_serial_to_date (VNum 41760) =
       VTimestamp (timestamp_of_day (days_from_civil 1899 12 30 + 41760))
  /\ date_of_timestamp (timestamp_of_day (days_from_civil 1899 12 30 + 41760)) =
       add_days (1899, 12, 30) 41760
  /\ time_of_day (timestamp_of_day (days_from_civil 1899 12 30 + 41760)) = 0.
Proof.
  split; [lia|]. apply (excel_serial_to_date_in_range 41760). lia.
Defined.

Lemma excel_serial_to_date_out_of_range_witness :
  (1000 <= 1000 \/ 90000 <= 1000)
  /\ excel_serial_to_date (VNum 1000) = VNum 1000.
Proof.
  split; [lia|]. apply (excel_serial_to_date_out_of_range 1000). lia.
Defined.



Lemma category_totals_sum_witness :
  get_column CATEGORY_COLUMN sample_sales = Some [VStr "A"; VStr "B"; VStr "A"]
  /\ get_column SALES_COLUMN sample_sales = Some [VNum 100; VNum 200; VNum 50]
  /\ int64_column [VNum 100; VNum 200; VNum 50] = true
  /\ orderable [VStr "A"; VStr "B"; VStr "A"] = true
  /\ exists out,
       category_sales NumPy.sort_values sample_sales = Ok out
       /\ totals_sum out =
          wrap64 (exact_sum (cells_with_key [VStr "A"; VStr "B"; VStr "A"]
                                            [VNum 100; VNum 200; VNum 50]))
       /\ (length [VStr "A"; VStr "B"; VStr "A"] = length [VNum 100; VNum 200; VNum 50] ->
           Forall (fun k => isna k = false) [VStr "A"; VStr "B"; VStr "A"] ->
           total_sales sample_sales = Ok (totals_sum out)).
Proof.
  split; [reflexivity|]. split; [reflexivity|]. split; [reflexivity|].
  split; [reflexivity|].
  apply (category_totals_sum sample_sales); reflexivity.
Defined.

Lemma to_datetime_offsets_length (cells : list value) :
  length (to_datetime_offsets cells) = length cells.
Proof. apply to_datetime_cells_length. Qed.

Lemma monthly_trend_by_month_witness :
  get_column DATE_COLUMN sample_sales = Some [VNum 41760; VNum 41791; VStr "bad"]
  /\ get_column SALES_COLUMN sample_sales = Some [VNum 100; VNum 200; VNum 50]
  /\ length [VNum 41760; VNum 41791; VStr "bad"] = length [VNum 100; VNum 200; VNum 50]
  /\ int64_column [VNum 100; VNum 200; VNum 50] = true
  /\ date_dtype to_datetime_offsets_dtype sample_sales = datetime64_dtype
  /\ exists df' index cells' trend,
       normalize_dates to_datetime_offsets sample_sales = Ok df'
       /\ get_column DATE_COLUMN df' = Some (map VTimestamp index)
       /\ get_column SALES_COLUMN df' = Some cells'
       /\ length index = length cells'
       /\ monthly_trend to_datetime_offsets to_datetime_offsets_dtype sample_sales
            = Ok trend
       /\ StronglySorted (fun a b => month_index (fst a) < month_index (fst b)) trend
       /\ StronglySorted (fun a b => fst a < fst b) trend
       /\ (forall label total, In (label, total) trend ->
             label = month_end (month_index label)
             /\ total = wrap64 (exact_sum (month_cells (month_index label) index cells')))
       /\ (forall t, In t index -> In (month_index t) (map month_index (map fst trend))).
Proof.
  split; [reflexivity|]. split; [reflexivity|]. split; [reflexivity|].
  split; [reflexivity|]. split; [reflexivity|].
  apply (monthly_trend_by_month to_datetime_offsets to_datetime_offsets_length
           to_datetime_offsets_dtype sample_sales
           [VNum 41760; VNum 41791; VStr "bad"] [VNum 100; VNum 200; VNum 50]);
    reflexivity.
Defined.

Lemma run_on_empty_dataset_witness :
  zero_rows empty_sheet
  /\ run (to_datetime_cells parse_nothing) datetime64_always sort_values_stable empty_sheet [] =
       ([] ++ empty_dataset_page empty_sheet, Ok tt)
  /\ Forall shows_nothing (empty_dataset_page empty_sheet)
  /\ exists page' df',
       normalization_step (to_datetime_cells parse_nothing) empty_sheet [] = (page', Ok df')
       /\ (has_column SALES_COLUMN empty_sheet = true ->
           total_sales df' = Ok 0
           /\ avg_sales df' = Ok None
           /\ nrows df' = O
           /\ (has_column DATE_COLUMN empty_sheet = true -> sales_trend df' = Ok [])
           /\ (has_column CATEGORY_COLUMN empty_sheet = true ->
               category_sales sort_values_stable df' = Ok [])).
Proof.
  assert (Hzero : zero_rows empty_sheet) by (repeat constructor).
  split; [exact Hzero|].
  apply (run_on_empty_dataset (to_datetime_cells parse_nothing)
           (to_datetime_cells_length parse_nothing) datetime64_always
           sort_values_stable sort_values_stable_perm empty_sheet [] Hzero).
Defined.

(** ** Where the code departs from the specification *)

(** Two categories with equal totals come back in the order of the
    grouping: a segment of up to 17 entries is sorted by insertion alone. *)
Example frame_with_tie_sorted :
  category_sales NumPy.sort_values frame_with_tie =
  Ok [(VStr "A", 100); (VStr "B", 100)].
Proof. vm_compute. reflexivity. Qed.


(** C5.  On a sheet whose dates are texts with different UTC offsets the
    script computes no monthly trend.  Both rows convert and are kept,
    and the metrics are computed from them and shown; but the converted
    column has dtype [object], line 82 raises, and the page ends with the
    message of the handler instead of the charts. *)
Theorem monthly_trend_fails_on_mixed_offsets :
  normalize_dates to_datetime_offsets frame_with_mixed_offsets =
    Ok [(SALES_COLUMN, [VNum 100; VNum 200]);
        (DATE_COLUMN,
         [VTimestamp (to_datetime_ymd 2024 1 15 + 10 * 3600 * 1000000000);
          VTimestamp (to_datetime_ymd 2024 2 20 + 10 * 3600 * 1000000000)])]
  /\ date_dtype to_datetime_offsets_dtype frame_with_mixed_offsets = object_dtype
  /\ monthly_trend to_datetime_offsets to_datetime_offsets_dtype
       frame_with_mixed_offsets = Raise TypeError
  /\ exists msg,
       run to_datetime_offsets to_datetime_offsets_dtype NumPy.sort_values
           frame_with_mixed_offsets [] =
         ([StSuccess "File uploaded and read successfully!";
           StSubheader "Raw Data Preview";
           StDataframe frame_with_mixed_offsets;
           StInfo checking_dates;
           header_widget;
           StMetric "Total Sales" (NInt 300);
           StMetric "Average Sale Value" (NFloat (300 # 2));
           StMetric "Total Transactions" (NInt 2);
           StError msg], Ok tt)
       /\ String.prefix "An error occurred during file processing: " msg = true.
Proof.
  split; [vm_compute; reflexivity|]. split; [vm_compute; reflexivity|].
  split; [vm_compute; reflexivity|].
  eexists. split; [vm_compute; reflexivity|reflexivity].
Qed.

(** C4 as the specification states it fails: the row without a category
    counts in the global sum and in no category total. *)
Lemma category_totals_miss_blank_category :
  category_sales sort_values_stable frame_with_blank_category = Ok [(VStr "A", 7)]
  /\ total_sales frame_with_blank_category = Ok 12
  /\ totals_sum [(VStr "A", 7)] <> 12.
Proof.
  split; [reflexivity|]. split; [reflexivity|]. discriminate.
Qed.

(** C10.  On a sheet that already has a column called [Corrected_Date] the
    row is kept and that column is gone: its cells were overwritten by
    the repaired dates and the column renamed to [Order_Date]. *)
Theorem normalize_dates_overwrites_helper_column :
  get_column Corrected_Date frame_with_helper_column = Some [VStr "checked by hand"]
  /\ normalize_dates (to_datetime_cells parse_nothing) frame_with_helper_column =
       Ok [(DATE_COLUMN, [VTimestamp (to_datetime_ymd 2014 5 1)]);
           (SALES_COLUMN, [VNum 100])].
Proof. split; reflexivity. Qed.

(** ** The further theorems at concrete inputs *)

Lemma to_datetime_cells_keeps_timestamps (parse : string -> option Z) (ts : list Z) :
  to_datetime_cells parse (map VTimestamp ts) = map Some ts.
Proof. unfold to_datetime_cells. rewrite map_map. reflexivity. Qed.

Lemma sample_sales_well_formed : well_formed sample_sales.
Proof.
  split.
  - repeat constructor; cbn; intuition discriminate.
  - repeat constructor.
Qed.

Lemma excel_serial_to_date_order_witness :
  1000 < 41760 /\ 41760 < 41791 /\ 41791 < 90000
  /\ exists t u,
       excel_serial_to_date (VNum 41760) = VTimestamp t
       /\ excel_serial_to_date (VNum 41791) = VTimestamp u
       /\ t < u
       /\ u - t = (41791 - 41760) * ns_per_day
       /\ day_of_timestamp t - days_from_civil 1899 12 30 = 41760.
Proof.
  split; [lia|]. split; [lia|]. split; [lia|].
  apply (excel_serial_to_date_order 41760 41791); lia.
Defined.

Lemma head_first_five_witness :
  well_formed sample_sales
  /\ well_formed (head sample_sales)
  /\ columns (head sample_sales) = columns sample_sales
  /\ nrows (head sample_sales) = Nat.min 5 (nrows sample_sales)
  /\ ((nrows sample_sales <= 5)%nat -> head sample_sales = sample_sales).
Proof.
  split; [exact sample_sales_well_formed|].
  apply (head_first_five sample_sales). exact sample_sales_well_formed.
Defined.

Lemma normalize_dates_moves_date_last_witness :
  has_column Corrected_Date sample_sales = false
  /\ get_column DATE_COLUMN sample_sales = Some [VNum 41760; VNum 41791; VStr "bad"]
  /\ let converted :=
       to_datetime_cells parse_nothing
         (map excel_serial_to_date [VNum 41760; VNum 41791; VStr "bad"]) in
     exists df',
       normalize_dates (to_datetime_cells parse_nothing) sample_sales = Ok df'
       /\ df' = select_rows (map is_some converted) (drop_column DATE_COLUMN sample_sales)
                ++ [(DATE_COLUMN, map VTimestamp (somes converted))]
       /\ columns df' =
          filter (fun name => negb (String.eqb DATE_COLUMN name)) (columns sample_sales)
          ++ [DATE_COLUMN].
Proof.
  split; [reflexivity|]. split; [reflexivity|].
  apply (normalize_dates_moves_date_last (to_datetime_cells parse_nothing) sample_sales);
    reflexivity.
Defined.

Lemma normalize_dates_keeps_shape_witness :
  well_formed sample_sales
  /\ get_column DATE_COLUMN sample_sales = Some [VNum 41760; VNum 41791; VStr "bad"]
  /\ exists df',
       normalize_dates (to_datetime_cells parse_nothing) sample_sales = Ok df'
       /\ well_formed df'
       /\ nrows df' =
          length (somes (to_datetime_cells parse_nothing
                           (map excel_serial_to_date
                                [VNum 41760; VNum 41791; VStr "bad"])))
       /\ (nrows df' <= nrows sample_sales)%nat.
Proof.
  split; [exact sample_sales_well_formed|]. split; [reflexivity|].
  apply (normalize_dates_keeps_shape (to_datetime_cells parse_nothing)
           (to_datetime_cells_length parse_nothing) sample_sales);
    [exact sample_sales_well_formed|reflexivity].
Defined.

Lemma normalize_dates_idempotent_witness :
  (forall ts, to_datetime_cells parse_nothing (map VTimestamp ts) = map Some ts)
  /\ well_formed sample_sales
  /\ has_column Corrected_Date sample_sales = false
  /\ normalize_dates (to_datetime_cells parse_nothing) sample_sales =
       Ok [(SALES_COLUMN, [VNum 100; VNum 200]);
           (CATEGORY_COLUMN, [VStr "A"; VStr "B"]);
           (DATE_COLUMN, [VTimestamp (to_datetime_ymd 2014 5 1);
                          VTimestamp (to_datetime_ymd 2014 6 1)])]
  /\ normalize_dates (to_datetime_cells parse_nothing)
       [(SALES_COLUMN, [VNum 100; VNum 200]);
        (CATEGORY_COLUMN, [VStr "A"; VStr "B"]);
        (DATE_COLUMN, [VTimestamp (to_datetime_ymd 2014 5 1);
                       VTimestamp (to_datetime_ymd 2014 6 1)])] =
       Ok [(SALES_COLUMN, [VNum 100; VNum 200]);
           (CATEGORY_COLUMN, [VStr "A"; VStr "B"]);
           (DATE_COLUMN, [VTimestamp (to_datetime_ymd 2014 5 1);
                          VTimestamp (to_datetime_ymd 2014 6 1)])].
Proof.
  split; [exact (to_datetime_cells_keeps_timestamps parse_nothing)|].
  split; [exact sample_sales_well_formed|]. split; [reflexivity|].
  split; [vm_compute; reflexivity|].
  apply (normalize_dates_idempotent (to_datetime_cells parse_nothing)
           (to_datetime_cells_length parse_nothing) sample_sales).
  - exact (to_datetime_cells_keeps_timestamps parse_nothing).
  - exact sample_sales_well_formed.
  - reflexivity.
  - vm_compute. reflexivity.
Defined.

Lemma sales_trend_sums_to_total_witness :
  get_column DATE_COLUMN frame_with_gap_month =
    Some (map VTimestamp [to_datetime_ymd 2014 5 1; to_datetime_ymd 2014 7 15;
                          to_datetime_ymd 2014 5 20])
  /\ get_column SALES_COLUMN frame_with_gap_month = Some [VNum 100; VNum 200; VNum 50]
  /\ length [to_datetime_ymd 2014 5 1; to_datetime_ymd 2014 7 15; to_datetime_ymd 2014 5 20]
     = length [VNum 100; VNum 200; VNum 50]
  /\ int64_column [VNum 100; VNum 200; VNum 50] = true
  /\ exists trend,
       sales_trend frame_with_gap_month = Ok trend
       /\ total_sales frame_with_gap_month = Ok (trend_sum trend).
Proof.
  split; [reflexivity|]. split; [reflexivity|]. split; [reflexivity|].
  split; [reflexivity|].
  apply (sales_trend_sums_to_total frame_with_gap_month
           [to_datetime_ymd 2014 5 1; to_datetime_ymd 2014 7 15; to_datetime_ymd 2014 5 20]
           [VNum 100; VNum 200; VNum 50]); reflexivity.
Defined.

Lemma sales_trend_consecutive_months_witness :
  get_column DATE_COLUMN frame_with_gap_month =
    Some (map VTimestamp (to_datetime_ymd 2014 5 1 ::
                          [to_datetime_ymd 2014 7 15; to_datetime_ymd 2014 5 20]))
  /\ get_column SALES_COLUMN frame_with_gap_month = Some [VNum 100; VNum 200; VNum 50]
  /\ numeric_column [VNum 100; VNum 200; VNum 50] = true
  /\ exists trend earliest latest n,
       sales_trend frame_with_gap_month = Ok trend
       /\ In earliest (to_datetime_ymd 2014 5 1 ::
                       [to_datetime_ymd 2014 7 15; to_datetime_ymd 2014 5 20])
       /\ In latest (to_datetime_ymd 2014 5 1 ::
                     [to_datetime_ymd 2014 7 15; to_datetime_ymd 2014 5 20])
       /\ (forall t, In t (to_datetime_ymd 2014 5 1 ::
                           [to_datetime_ymd 2014 7 15; to_datetime_ymd 2014 5 20]) ->
                     earliest <= t <= latest)
       /\ month_index latest = month_index earliest + Z.of_nat n
       /\ map fst trend =
            map (fun i => month_end (month_index earliest + Z.of_nat i)) (seq 0 (S n))
       /\ (forall t, In t (to_datetime_ymd 2014 5 1 ::
                           [to_datetime_ymd 2014 7 15; to_datetime_ymd 2014 5 20]) ->
             exists i, (i <= n)%nat
                       /\ month_index t = month_index earliest + Z.of_nat i)
       /\ (forall label total, In (label, total) trend ->
             (forall t, In t (to_datetime_ymd 2014 5 1 ::
                              [to_datetime_ymd 2014 7 15; to_datetime_ymd 2014 5 20]) ->
                        month_index t <> month_index label) ->
             total = 0).
Proof.
  split; [reflexivity|]. split; [reflexivity|]. split; [reflexivity|].
  apply (sales_trend_consecutive_months frame_with_gap_month
           (to_datetime_ymd 2014 5 1)
           [to_datetime_ymd 2014 7 15; to_datetime_ymd 2014 5 20]
           [VNum 100; VNum 200; VNum 50]); reflexivity.
Defined.

Example frame_with_gap_month_trend :
  sales_trend frame_with_gap_month =
  Ok [(to_datetime_ymd 2014 5 31, 150);
      (to_datetime_ymd 2014 6 30, 0);
      (to_datetime_ymd 2014 7 31, 200)].
Proof. vm_compute. reflexivity. Qed.

Lemma run_with_numeric_sales_witness :
  get_column SALES_COLUMN (normalized to_datetime_offsets sample_sales) =
    Some [VNum 100; VNum 200]
  /\ numeric_column [VNum 100; VNum 200] = true
  /\ date_dtype to_datetime_offsets_dtype sample_sales = datetime64_dtype
  /\ (forall keys,
        get_column CATEGORY_COLUMN (normalized to_datetime_offsets sample_sales)
          = Some keys ->
        orderable keys = true)
  /\ exists total avg trend_part category_part,
       total_sales (normalized to_datetime_offsets sample_sales) = Ok total
       /\ avg_sales (normalized to_datetime_offsets sample_sales) = Ok avg
       /\ run to_datetime_offsets to_datetime_offsets_dtype NumPy.sort_values
              sample_sales [] =
          ([] ++ preview_widgets sample_sales ++ info_widgets sample_sales
              ++ [header_widget;
                  StMetric "Total Sales" (NInt total);
                  StMetric "Average Sale Value" (number_of_mean avg);
                  StMetric "Total Transactions"
                    (NInt (Z.of_nat (nrows (normalized to_datetime_offsets
                                                       sample_sales))))]
              ++ trend_part ++ category_part, Ok tt)
       /\ (if has_column DATE_COLUMN sample_sales
           then exists trend,
                  sales_trend (normalized to_datetime_offsets sample_sales)
                  = Ok trend /\ trend_part = [StLineChart trend]
           else trend_part = [])
       /\ (if has_column CATEGORY_COLUMN sample_sales
           then exists by_category,
                  category_sales NumPy.sort_values
                    (normalized to_datetime_offsets sample_sales)
                  = Ok by_category
                  /\ category_part = [StBarChart by_category; StPieChart by_category]
           else category_part = []).
Proof.
  assert (Hord : forall keys,
            get_column CATEGORY_COLUMN (normalized to_datetime_offsets sample_sales)
              = Some keys ->
            orderable keys = true)
    by (intros keys H; vm_compute in H; injection H as <-; reflexivity).
  split; [vm_compute; reflexivity|]. split; [reflexivity|]. split; [reflexivity|].
  split; [exact Hord|].
  apply (run_with_numeric_sales to_datetime_offsets to_datetime_offsets_dtype
           NumPy.sort_values sample_sales [] [VNum 100; VNum 200]);
    [vm_compute; reflexivity|reflexivity|reflexivity|exact Hord].
Defined.

Lemma run_with_object_dates_witness :
  get_column SALES_COLUMN (normalized to_datetime_offsets frame_with_mixed_offsets) =
    Some [VNum 100; VNum 200]
  /\ numeric_column [VNum 100; VNum 200] = true
  /\ date_dtype to_datetime_offsets_dtype frame_with_mixed_offsets = object_dtype
  /\ exists total avg msg,
       total_sales (normalized to_datetime_offsets frame_with_mixed_offsets) = Ok total
       /\ avg_sales (normalized to_datetime_offsets frame_with_mixed_offsets) = Ok avg
       /\ run to_datetime_offsets to_datetime_offsets_dtype NumPy.sort_values
              frame_with_mixed_offsets [] =
          ([] ++ preview_widgets frame_with_mixed_offsets
              ++ info_widgets frame_with_mixed_offsets
              ++ [header_widget;
                  StMetric "Total Sales" (NInt total);
                  StMetric "Average Sale Value" (number_of_mean avg);
                  StMetric "Total Transactions"
                    (NInt (Z.of_nat (nrows (normalized to_datetime_offsets
                                                       frame_with_mixed_offsets))));
                  StError msg], Ok tt)
       /\ String.prefix "An error occurred during file processing: " msg = true.
Proof.
  split; [vm_compute; reflexivity|]. split; [reflexivity|]. split; [reflexivity|].
  apply (run_with_object_dates to_datetime_offsets to_datetime_offsets_dtype
           NumPy.sort_values frame_with_mixed_offsets [] [VNum 100; VNum 200]);
    [vm_compute; reflexivity|reflexivity|reflexivity].
Defined.

Lemma run_with_text_in_sales_witness :
  get_column SALES_COLUMN
    (normalized (to_datetime_cells parse_nothing) frame_with_text_amount) =
    Some [VNum 100; VStr "pending"]
  /\ numeric_column [VNum 100; VStr "pending"] = false
  /\ exists msg,
       run (to_datetime_cells parse_nothing) datetime64_always NumPy.sort_values
           frame_with_text_amount [] =
         ([] ++ preview_widgets frame_with_text_amount
             ++ info_widgets frame_with_text_amount
             ++ [header_widget; StError msg], Ok tt)
       /\ String.prefix "An error occurred during file processing: " msg = true.
Proof.
  split; [reflexivity|]. split; [reflexivity|].
  apply (run_with_text_in_sales (to_datetime_cells parse_nothing) datetime64_always
           NumPy.sort_values
           frame_with_text_amount [] [VNum 100; VStr "pending"]); reflexivity.
Defined.

Lemma total_sales_after_normalization_witness :
  get_column DATE_COLUMN sample_sales = Some [VNum 41760; VNum 41791; VStr "bad"]
  /\ get_column SALES_COLUMN sample_sales = Some [VNum 100; VNum 200; VNum 50]
  /\ numeric_column [VNum 100; VNum 200; VNum 50] = true
  /\ let kept := map is_some (to_datetime_cells parse_nothing
                                (map excel_serial_to_date
                                     [VNum 41760; VNum 41791; VStr "bad"])) in
     get_column SALES_COLUMN (normalized (to_datetime_cells parse_nothing) sample_sales) =
       Some (filter_mask kept [VNum 100; VNum 200; VNum 50])
     /\ total_sales (normalized (to_datetime_cells parse_nothing) sample_sales) =
          Ok (wrap64 (exact_sum (filter_mask kept [VNum 100; VNum 200; VNum 50]))).
Proof.
  split; [reflexivity|]. split; [reflexivity|]. split; [reflexivity|].
  apply (total_sales_after_normalization (to_datetime_cells parse_nothing) sample_sales);
    reflexivity.
Defined.
